(** * youtube-utils: a shallow embedding of the three command-line scripts

    - [scripts/youtube-playlist-duration.py]   (module [Ytdlp])
    - [youtube_duration_calculator_api.py]     (module [Calc])
    - [search/scripts/youtube-search-api.py]   (module [Search])

    Python values are modelled as follows.  Integers are [Z]; a
    [timedelta] is its number of whole seconds, a [Z] (the remote API
    reports whole-second durations, fractions of a second are outside the
    model); [str] is [string]; a raised exception is the [Raise] outcome of
    a small state-and-exception monad whose state is the observable world:
    what was printed, which remote calls were made, which files were
    written.  External collaborators ([json.loads], [isodate.parse_duration],
    the remote service, the [yt-dlp] process) are parameters. *)

From Stdlib Require Import ZArith String Ascii List Lia Bool.
From Stdlib Require Import DecimalString DecimalPos.
From stdpp Require Import gmap strings list.

Set Warnings "-register-all".

Open Scope string_scope.
Open Scope list_scope.
Open Scope Z_scope.

(** ** Python scaffolding *)

(** [str(z)] for an [int]. *)
Definition py_str (z : Z) : string := NilZero.string_of_int (Z.to_int z).

(** The format specification [{z:02}]: [str(z)] padded with zeros on the
    left up to a width of two characters. *)
Definition fmt02 (z : Z) : string :=
  let s := py_str z in
  if (String.length s <? 2)%nat then "0" +:+ s else s.

(** The two decimal digits of a number below one hundred. *)
Definition digit (d : Z) : ascii := ascii_of_nat (48 + Z.to_nat d).

Definition two_digits (z : Z) : string :=
  String (digit (z / 10)) (String (digit (z mod 10)) "").

(** [divmod(a, b)]: Python's floor division and modulo, which [Z.div] and
    [Z.modulo] are for a positive [b]. *)
Definition divmod (a b : Z) : Z * Z := (a / b, a mod b).

(** [l[:n]] for a list. *)
Definition py_slice_to {A} (n : Z) (l : list A) : list A :=
  if 0 <=? n then take (Z.to_nat n) l
  else take (Z.to_nat (Z.of_nat (length l) + n)) l.

(** [range(0, n, step)] for a positive [step]. *)
Definition range_step (n step : nat) : list nat :=
  map (fun k => (k * step)%nat) (seq 0 ((n + step - 1) / step)).

(** [s.lower()] on ASCII letters. *)
Definition lower_ascii (c : ascii) : ascii :=
  let n := nat_of_ascii c in
  if ((65 <=? n) && (n <=? 90))%nat then ascii_of_nat (n + 32) else c.

Fixpoint lower (s : string) : string :=
  match s with
  | EmptyString => EmptyString
  | String c s' => String (lower_ascii c) (lower s')
  end.

(** [s.startswith(p)] and [s.endswith(p)]. *)
Fixpoint startswith (p s : string) : bool :=
  match p, s with
  | EmptyString, _ => true
  | String a p', String b s' => if Ascii.eqb a b then startswith p' s' else false
  | String _ _, EmptyString => false
  end.

Fixpoint string_rev (s : string) : string :=
  match s with
  | EmptyString => EmptyString
  | String c s' => string_rev s' +:+ String c EmptyString
  end.

Definition endswith (s p : string) : bool :=
  startswith (string_rev p) (string_rev s).

(** [str.isspace()] on the ASCII range: tab, line feed, vertical tab, form
    feed, carriage return, the four separators 0x1c-0x1f, and space. *)
Definition is_space (c : ascii) : bool :=
  let n := nat_of_ascii c in
  (((9 <=? n) && (n <=? 13)) || ((28 <=? n) && (n <=? 31)) || (n =? 32))%nat.

Fixpoint lstrip (s : string) : string :=
  match s with
  | EmptyString => EmptyString
  | String c s' => if is_space c then lstrip s' else s
  end.

Definition rstrip (s : string) : string := string_rev (lstrip (string_rev s)).

(** [s.strip()]. *)
Definition strip (s : string) : string := rstrip (lstrip s).

Definition nl : string := String "010"%char EmptyString.

(** [s.split('\n')]: the empty string splits into one empty piece. *)
Fixpoint split_lines (s : string) : list string :=
  match s with
  | EmptyString => [EmptyString]
  | String c s' =>
      if Ascii.eqb c "010"%char then EmptyString :: split_lines s'
      else match split_lines s' with
           | h :: t => String c h :: t
           | [] => [String c EmptyString]
           end
  end.

(** JSON values, as [json.loads] builds them and [json.dump] prints them.
    An object lists its members in insertion order, with distinct keys.
    Numbers are integers. *)
Inductive json : Type :=
  | JNull
  | JBool (b : bool)
  | JNum (z : Z)
  | JStr (s : string)
  | JArr (items : list json)
  | JObj (members : list (string * json)).

Fixpoint assoc {A} (k : string) (kvs : list (string * A)) : option A :=
  match kvs with
  | [] => None
  | (k', v) :: rest => if String.eqb k k' then Some v else assoc k rest
  end.

(** Truth value of a JSON value in an [if]. *)
Definition truthy (v : json) : bool :=
  match v with
  | JNull => false
  | JBool b => b
  | JNum z => negb (z =? 0)
  | JStr s => negb (String.eqb s "")
  | JArr l => match l with [] => false | _ => true end
  | JObj l => match l with [] => false | _ => true end
  end.

(** The exception classes the scripts meet. *)
Inductive exn : Type :=
  | HttpError (status : Z) (content : string)
  | KeyError (key : string)
  | JSONDecodeError
  | TypeError
  | AttributeError
  | ISO8601Error
  | IOError.

(** How a piece of code ends: it returns a value, or an exception leaves
    it, or (for the one unbounded [while True] loop) the model's bound on
    the number of iterations is reached while the loop is still running. *)
Inductive outcome (A : Type) : Type :=
  | Ret (a : A)
  | Raise (e : exn)
  | OutOfFuel.
Arguments Ret {A} a.
Arguments Raise {A} e.
Arguments OutOfFuel {A}.

(** What a file holds after it was written: lines of text, or the document
    [json.dump] prints for a value. *)
Inductive file_content : Type :=
  | TextFile (text : string)
  | JsonFile (doc : json).

(** The observable world of one run: remote calls made so far (latest
    last), messages printed so far (latest last), and the files written. *)
Record world (Msg Call : Type) : Type := World {
  calls : list Call;
  printed : list Msg;
  files : gmap string file_content
}.
Arguments World {Msg Call} calls printed files.
Arguments calls {Msg Call} w.
Arguments printed {Msg Call} w.
Arguments files {Msg Call} w.

Section Monad.
Context {Msg Call : Type}.

Definition M (A : Type) : Type := world Msg Call -> outcome A * world Msg Call.

Definition ret {A} (a : A) : M A := fun w => (Ret a, w).

Definition raise {A} (e : exn) : M A := fun w => (Raise e, w).

Definition bind {A B} (m : M A) (k : A -> M B) : M B :=
  fun w => match m w with
           | (Ret a, w') => k a w'
           | (Raise e, w') => (Raise e, w')
           | (OutOfFuel, w') => (OutOfFuel, w')
           end.

(** [print(msg)]. *)
Definition print (msg : Msg) : M unit :=
  fun w => (Ret tt, World (calls w) (printed w ++ [msg]) (files w)).

(** [try: m  except <classes>: handler]: [handles e] is [Some h] when the
    [except] clause names the class of [e]. *)
Definition try_except {A} (m : M A) (handles : exn -> option (M A)) : M A :=
  fun w => match m w with
           | (Ret a, w') => (Ret a, w')
           | (Raise e, w') =>
               match handles e with
               | Some h => h w'
               | None => (Raise e, w')
               end
           | (OutOfFuel, w') => (OutOfFuel, w')
           end.

(** [with open(name, 'w') as f: f.write(content)]. *)
Definition write_file (name : string) (content : file_content) : M unit :=
  fun w => (Ret tt, World (calls w) (printed w) (<[name := content]> (files w))).

(** [for x in l: acc = body(x, acc)], the loop variables threaded as [acc]. *)
Fixpoint for_each {A S} (l : list A) (body : A -> S -> M S) (acc : S) : M S :=
  match l with
  | [] => ret acc
  | x :: rest => bind (body x acc) (for_each rest body)
  end.
End Monad.

Notation "x <- m ;; k" := (bind m (fun x => k))
  (at level 100, m at next level, right associativity).
Notation "m ;;; k" := (bind m (fun _ => k))
  (at level 100, right associativity).

Definition empty_world {Msg Call} : world Msg Call := World [] [] ∅.

(** The world after one more message was printed, and after one more
    request was sent. *)
Definition after_print {Msg Call} (w : world Msg Call) (m : Msg) : world Msg Call :=
  World (calls w) (printed w ++ [m]) (files w).

Definition after_call {Msg Call} (w : world Msg Call) (c : Call) : world Msg Call :=
  World (calls w ++ [c]) (printed w) (files w).

(** ** scripts/youtube-playlist-duration.py *)

Module Ytdlp.

(** What the script prints, one constructor per [print] statement, with
    the values it interpolates. *)
Inductive message : Type :=
  | Fetching                          (* Fetching video list from playlist... *)
  | FilterActive (minutes : Z)        (* Filter active: Only including ... *)
  | ToolNotFound                      (* Error: 'yt-dlp' command not found. *)
  | ToolNotFoundHint                  (* Please ensure yt-dlp is installed ... *)
  | ToolFailed (stderr : string)      (* Error running yt-dlp. ... *)
  | Found (n : Z)                     (* Found {n} videos. Processing... *)
  | WarnNoDuration (title : json)     (* Warning: Skipping video with no duration info: ... *)
  | WarnUnparsable                    (* Warning: Could not parse metadata for one entry. *)
  | Summary (found included : Z) (longer_than : option Z)
                                      (* Processed {found} videos. Included ... *)
  | Saving (n : Z) (file : string)    (* Saving {n} video links to '{file}'... *)
  | Saved                             (* File saved successfully. *)
  | SaveFailed (file : string).       (* Error: Could not write to file ... *)

(** A warning is one of the two per-record messages. *)
Definition is_warning (m : message) : bool :=
  match m with
  | WarnNoDuration _ | WarnUnparsable => true
  | _ => false
  end.

(** How [subprocess.run(..., check=True)] ends. *)
Inductive process_result : Type :=
  | NotFound                          (* FileNotFoundError *)
  | Failed (stderr : string)          (* CalledProcessError *)
  | Completed (stdout : string).

(** The loop variables of the [for line in video_lines] loop. *)
Record locals : Type := Locals {
  total_seconds : Z;
  included_videos_count : Z;
  included_video_links : list json
}.

Definition Run := @M message unit.

(** A JSON number as a Python number; [True] and [False] are the
    integers 1 and 0. *)
Definition as_number (v : json) : option Z :=
  match v with
  | JNum z => Some z
  | JBool b => Some (if b then 1 else 0)
  | _ => None
  end.

(** [v.get(key, default)]: only a [dict] has the method. *)
Definition dict_get (key : string) (default : json) (v : json) : Run json :=
  match v with
  | JObj members =>
      ret (match assoc key members with Some x => x | None => default end)
  | _ => raise AttributeError
  end.

(** [a >= b] for a JSON value and an [int]. *)
Definition py_ge (a : json) (b : Z) : Run bool :=
  match as_number a with
  | Some z => ret (b <=? z)
  | None => raise TypeError
  end.

(** [a + b], where [a] is an [int] and [b] a value that [py_ge] accepted. *)
Definition py_add (a : Z) (b : json) : Z :=
  match as_number b with
  | Some z => a + z
  | None => a
  end.

Section Pipeline.
(** [json.loads]; [None] stands for [json.JSONDecodeError]. *)
Variable json_loads : string -> option json.
(** Whether [open(name, 'w')] succeeds; otherwise it raises [IOError]. *)
Variable can_open : string -> bool.

Definition loads (line : string) : Run json :=
  match json_loads line with
  | Some v => ret v
  | None => raise JSONDecodeError
  end.

(** The body of the loop, lines 46-64.  Everything that can raise
    inside the [try] comes before the first assignment to a loop
    variable, so the handler continues from the variables as they were
    when the iteration began. *)
Definition process_line (min_duration_seconds : Z) (line : string)
    (st : locals) : Run locals :=
  try_except
    (video_meta <- loads line ;;
     duration <- dict_get "duration" JNull video_meta ;;
     match duration with
     | JNull =>
         title <- dict_get "title" (JStr "N/A") video_meta ;;
         print (WarnNoDuration title) ;;;
         ret st
     | _ =>
         ge <- py_ge duration min_duration_seconds ;;
         if ge : bool then
           video_url <- dict_get "webpage_url" JNull video_meta ;;
           ret (Locals (py_add (total_seconds st) duration)
                       (included_videos_count st + 1)
                       (if truthy video_url
                        then included_video_links st ++ [video_url]
                        else included_video_links st))
         else ret st
     end)
    (fun e => match e with
              | JSONDecodeError | KeyError _ =>
                  Some (print WarnUnparsable ;;; ret st)
              | _ => None
              end).

Definition video_lines (stdout : string) : list string :=
  split_lines (strip stdout).

Definition initial : locals := Locals 0 0 [].

Definition process_lines (min_duration_seconds : Z) (lines : list string)
    : Run locals :=
  for_each lines (process_line min_duration_seconds) initial.

(** [f.write(link + '\n')] for each link: a link that is not a string
    raises [TypeError] after the earlier ones were written. *)
Fixpoint write_links (links : list json) (text : string) : string * option exn :=
  match links with
  | [] => (text, None)
  | JStr s :: rest => write_links rest (text +:+ s +:+ nl)
  | _ :: _ => (text, Some TypeError)
  end.

(** Lines 73-82. *)
Definition save_links (save_file : option string) (links : list json) : Run unit :=
  match save_file, links with
  | Some name, _ :: _ =>
      if String.eqb name "" then ret tt
      else
        print (Saving (Z.of_nat (length links)) name) ;;;
        if can_open name then
          let (text, e) := write_links links "" in
          write_file name (TextFile text) ;;;
          match e with
          | None => print Saved
          | Some e => raise e
          end
        else print (SaveFailed name)
  | _, _ => ret tt
  end.

(** Lines 84-89. *)
Definition format_total (total_seconds : Z) : string :=
  let hours := total_seconds / 3600 in
  let minutes := (total_seconds mod 3600) / 60 in
  let seconds := total_seconds mod 60 in
  fmt02 hours +:+ ":" +:+ fmt02 minutes +:+ ":" +:+ fmt02 seconds.

Definition get_playlist_duration_ytdlp (run : process_result)
    (min_duration_minutes : Z) (save_file : option string)
    : Run (option string) :=
  let min_duration_seconds := min_duration_minutes * 60 in
  print Fetching ;;;
  (if 0 <? min_duration_seconds
   then print (FilterActive min_duration_minutes) else ret tt) ;;;
  match run with
  | NotFound => print ToolNotFound ;;; print ToolNotFoundHint ;;; ret None
  | Failed stderr => print (ToolFailed stderr) ;;; ret None
  | Completed stdout =>
      let lines := video_lines stdout in
      let total_videos_found := Z.of_nat (length lines) in
      print (Found total_videos_found) ;;;
      st <- process_lines min_duration_seconds lines ;;
      print (Summary total_videos_found (included_videos_count st)
               (if 0 <? min_duration_seconds
                then Some min_duration_minutes else None)) ;;;
      save_links save_file (included_video_links st) ;;;
      ret (Some (format_total (total_seconds st)))
  end.
End Pipeline.

End Ytdlp.

(** ** youtube_duration_calculator_api.py *)

Module Calc.

(** *** Regular expressions of [parse_url]

    Each pattern is a literal (or an alternation of literals) followed by
    a character class repeated; [re.search] tries the pattern at every
    start position from left to right and keeps the first match. *)

Definition is_alnum (c : ascii) : bool :=
  let n := nat_of_ascii c in
  (((48 <=? n) && (n <=? 57)) || ((65 <=? n) && (n <=? 90))
   || ((97 <=? n) && (n <=? 122)))%nat.

(** [[a-zA-Z0-9_-]] *)
Definition id_char (c : ascii) : bool :=
  is_alnum c || Ascii.eqb c "_" || Ascii.eqb c "-".

(** [[a-zA-Z0-9_.-]] *)
Definition chan_char (c : ascii) : bool :=
  id_char c || Ascii.eqb c ".".

(** A literal at the start of [s]: what follows it. *)
Fixpoint strip_prefix (p s : string) : option string :=
  match p, s with
  | EmptyString, _ => Some s
  | String a p', String b s' =>
      if Ascii.eqb a b then strip_prefix p' s' else None
  | String _ _, EmptyString => None
  end.

(** The longest prefix of [s] made of characters of the class [p]. *)
Fixpoint span (p : ascii -> bool) (s : string) : string :=
  match s with
  | String c s' => if p c then String c (span p s') else EmptyString
  | EmptyString => EmptyString
  end.

(** [(p+)] at the end of a pattern: greedy, at least one character. *)
Definition one_or_more (p : ascii -> bool) (s : string) : option string :=
  match span p s with
  | EmptyString => None
  | g => Some g
  end.

(** [(p{n})] at the end of a pattern. *)
Fixpoint exactly (p : ascii -> bool) (n : nat) (s : string) : option string :=
  match n with
  | O => Some EmptyString
  | S n' =>
      match s with
      | String c s' => if p c then String c <$> exactly p n' s' else None
      | EmptyString => None
      end
  end.

(** An alternation: the first alternative whose continuation matches. *)
Fixpoint first_match {A} (alts : list (option A)) : option A :=
  match alts with
  | [] => None
  | Some a :: _ => Some a
  | None :: rest => first_match rest
  end.

(** [list=([a-zA-Z0-9_-]+)] anchored at the start of [s]; the group. *)
Definition playlist_at (s : string) : option string :=
  strip_prefix "list=" s ≫= one_or_more id_char.

(** [(?:watch\?v=|youtu\.be/|embed/)([a-zA-Z0-9_-]{11})] *)
Definition video_at (s : string) : option string :=
  first_match
    (map (fun lit => strip_prefix lit s ≫= exactly id_char 11)
         ["watch?v="; "youtu.be/"; "embed/"]).

(** [/(channel|c|@)/([a-zA-Z0-9_.-]+)]; the second group. *)
Definition channel_at (s : string) : option string :=
  match strip_prefix "/" s with
  | Some rest =>
      first_match
        (map (fun lit => (strip_prefix lit rest ≫= strip_prefix "/")
                           ≫= one_or_more chan_char)
             ["channel"; "c"; "@"])
  | None => None
  end.

(** [re.search]: the match at the leftmost start position that has one. *)
Fixpoint re_search (pattern_at : string -> option string) (s : string)
    : option string :=
  match pattern_at s with
  | Some g => Some g
  | None =>
      match s with
      | EmptyString => None
      | String _ s' => re_search pattern_at s'
      end
  end.

Inductive kind : Type := playlist | video | channel.

(** Lines 34-45; [None] stands for the pair [(None, None)]. *)
Definition parse_url (url : string) : option (kind * string) :=
  match re_search playlist_at url with
  | Some g => Some (playlist, g)
  | None =>
      match re_search video_at url with
      | Some g => Some (video, g)
      | None =>
          match re_search channel_at url with
          | Some g => Some (channel, g)
          | None => None
          end
      end
  end.

(** *** The remote service *)

Inductive http_result (A : Type) : Type :=
  | HttpOk (a : A)
  | HttpFail (status : Z) (content : string).
Arguments HttpOk {A} a.
Arguments HttpFail {A} status content.

(** One page of [playlistItems().list]: the [videoId] of each item and
    the continuation token. *)
Record playlist_page : Type := PlaylistPage {
  page_items : list string;
  nextPageToken : option string
}.

(** One item of [videos().list(part='contentDetails')]; the duration
    string may be absent. *)
Record video_item : Type := VideoItem {
  item_id : string;
  item_duration : option string
}.

(** A request the script sends. *)
Inductive call : Type :=
  | ChannelsList (id forUsername : option string)
  | SearchChannel (q : string)
  | PlaylistItemsList (playlistId : string) (pageToken : option string)
  | VideosList (ids : list string).

(** The service object.  Every operation answers from the request and
    from the number of requests the service has received before it, so
    the same request may be answered differently at different times.
    [channels_list] answers with the uploads playlist of each item,
    [search_list] with the [channelId] of each item. *)
Record youtube : Type := Youtube {
  channels_list : nat -> option string -> option string -> http_result (list string);
  search_list : nat -> string -> http_result (list string);
  playlistItems_list : nat -> string -> option string -> http_result playlist_page;
  videos_list : nat -> list string -> http_result (list video_item)
}.

Inductive message : Type :=
  | HttpErrorOccurred (status : Z) (content : string)
  | HttpErrorPlaylistItems (status : Z) (content : string)
  | HttpErrorVideoDetails (status : Z) (content : string)
  | Processing (i n : Z) (url : string)
  | InvalidUrl                        (* --> Error: Invalid or unsupported YouTube URL. Skipping. *)
  | NoUploadsPlaylist                 (* --> Error: Could not find uploads playlist ... *)
  | NoVideosFound                     (* --> No videos found for this source. *)
  | FoundVideos (n : Z)               (* --> Found {n} video(s). Fetching details... *)
  | Done (count : Z) (duration : string)
  | ReportFound (n : Z)
  | ReportIncluded (min_duration : option Z) (n : Z)
  | ReportDuration (duration : string).

Definition Run := @M message call.

(** [request.execute()]: the request is recorded, and a failure raises
    [HttpError]. *)
Definition execute {A} (c : call) (answer : nat -> http_result A) : Run A :=
  fun w =>
    let w' := World (calls w ++ [c]) (printed w) (files w) in
    match answer (length (calls w)) with
    | HttpOk a => (Ret a, w')
    | HttpFail status content => (Raise (HttpError status content), w')
    end.

Definition out_of_fuel {A} : Run A := fun w => (OutOfFuel, w).

(** Lines 112-120. *)
Definition format_timedelta (td : Z) : string :=
  let total_seconds := td in
  let (days, remainder) := divmod total_seconds 86400 in
  let (hours, remainder) := divmod remainder 3600 in
  let (minutes, seconds) := divmod remainder 60 in
  if 0 <? days
  then py_str days +:+ " days, " +:+ fmt02 hours +:+ ":" +:+ fmt02 minutes
       +:+ ":" +:+ fmt02 seconds
  else fmt02 hours +:+ ":" +:+ fmt02 minutes +:+ ":" +:+ fmt02 seconds.

(** What [get_videos_duration] returns. *)
Record tally : Type := Tally {
  total_duration : Z;
  included_links : list string;
  included_count : Z
}.

(** The aggregators of [main]. *)
Record totals : Type := Totals {
  grand_total_duration : Z;
  total_videos_found : Z;
  total_videos_included : Z;
  all_included_links : list string
}.

Section Service.
Variable yt : youtube.
(** [isodate.parse_duration], in seconds; [None] stands for the
    [ISO8601Error] it raises on a string it cannot parse. *)
Variable parse_duration : string -> option Z.

(** Lines 47-67. *)
Definition get_uploads_playlist_id (channel_id_or_handle : string)
    : Run (option string) :=
  let is_uc := startswith "UC" channel_id_or_handle in
  let is_handle := startswith "@" channel_id_or_handle in
  let id := if is_uc then Some channel_id_or_handle else None in
  let forUsername :=
    if negb is_handle && negb is_uc then Some channel_id_or_handle else None in
  try_except
    (response <- execute (ChannelsList id forUsername)
                   (fun n => channels_list yt n id forUsername) ;;
     found <-
       (match response, is_handle with
        | [], true =>
            search_response <- execute (SearchChannel channel_id_or_handle)
                                 (fun n => search_list yt n channel_id_or_handle) ;;
            match search_response with
            | [] => ret None
            | channel_id :: _ =>
                response <- execute (ChannelsList (Some channel_id) None)
                              (fun n => channels_list yt n (Some channel_id) None) ;;
                ret (Some response)
            end
        | _, _ => ret (Some response)
        end) ;;
     match found with
     | None => ret None
     | Some [] => ret None
     | Some (uploads :: _) => ret (Some uploads)
     end)
    (fun e => match e with
              | HttpError status content =>
                  Some (print (HttpErrorOccurred status content) ;;; ret None)
              | _ => None
              end).

(** How one iteration of the [while True] loop of lines 73-82 ends. *)
Inductive page_end : Type :=
  | NextPage (next_page_token : string) (video_ids : list string)
  | Break (video_ids : list string)
  | Return (result : list string).

Definition playlist_page_step (playlist_id : string)
    (next_page_token : option string) (video_ids : list string)
    : Run page_end :=
  try_except
    (response <- execute (PlaylistItemsList playlist_id next_page_token)
                   (fun n => playlistItems_list yt n playlist_id next_page_token) ;;
     let video_ids := video_ids ++ page_items response in
     match nextPageToken response with
     | Some token =>
         if String.eqb token "" then ret (Break video_ids)
         else ret (NextPage token video_ids)
     | None => ret (Break video_ids)
     end)
    (fun e => match e with
              | HttpError status content =>
                  Some (print (HttpErrorPlaylistItems status content) ;;;
                        ret (Return []))
              | _ => None
              end).

Fixpoint playlist_pages (fuel : nat) (playlist_id : string)
    (next_page_token : option string) (video_ids : list string)
    : Run (list string) :=
  match fuel with
  | O => out_of_fuel
  | S fuel' =>
      e <- playlist_page_step playlist_id next_page_token video_ids ;;
      match e with
      | NextPage token video_ids =>
          playlist_pages fuel' playlist_id (Some token) video_ids
      | Break video_ids => ret video_ids
      | Return result => ret result
      end
  end.

(** Lines 69-83; [fuel] bounds the number of pages requested. *)
Definition get_playlist_video_ids (fuel : nat) (playlist_id : string)
    : Run (list string) :=
  playlist_pages fuel playlist_id None [].

(** [video_ids[i:i+50] for i in range(0, len(video_ids), 50)] *)
Definition chunks (video_ids : list string) : list (list string) :=
  map (fun i => take 50 (drop i video_ids))
      (range_step (length video_ids) 50).

(** Lines 101-106, for one item. *)
Definition item_step (min_duration_td : Z) (save_links : bool)
    (item : video_item) (t : tally) : Run tally :=
  iso <- match item_duration item with
         | Some s => ret s
         | None => raise (KeyError "duration")
         end ;;
  duration_td <- match parse_duration iso with
                 | Some d => ret d
                 | None => raise ISO8601Error
                 end ;;
  if min_duration_td <=? duration_td
  then ret (Tally (total_duration t + duration_td)
                  (if save_links
                   then included_links t
                        ++ ["https://www.youtube.com/watch?v=" +:+ item_id item]
                   else included_links t)
                  (included_count t + 1))
  else ret t.

(** Lines 96-109, for one chunk.  [HttpError] is raised by [execute]
    only, before any item is looked at. *)
Definition chunk_step (min_duration_td : Z) (save_links : bool)
    (chunk : list string) (t : tally) : Run tally :=
  try_except
    (response <- execute (VideosList chunk) (fun n => videos_list yt n chunk) ;;
     for_each response (item_step min_duration_td save_links) t)
    (fun e => match e with
              | HttpError status content =>
                  Some (print (HttpErrorVideoDetails status content) ;;; ret t)
              | _ => None
              end).

(** Lines 85-110. *)
Definition get_videos_duration (video_ids : list string)
    (min_duration_minutes : Z) (save_links : bool) : Run tally :=
  let min_duration_td := min_duration_minutes * 60 in
  for_each (chunks video_ids) (chunk_step min_duration_td save_links)
           (Tally 0 [] 0).

(** Lines 155-188: the body of the loop over the sources.  A source that
    is skipped leaves the aggregators as they are. *)
Definition process_source (fuel : nat) (min_duration : Z) (save_links : bool)
    (n : Z) (numbered : nat * string) (t : totals) : Run totals :=
  let (i, url) := numbered in
  print (Processing (Z.of_nat i + 1) n url) ;;;
  match parse_url url with
  | None => print InvalidUrl ;;; ret t
  | Some (url_type, entity_id) =>
      resolved <-
        match url_type return Run (option (list string)) with
        | video => ret (Some [entity_id])
        | channel =>
            playlist_id <- get_uploads_playlist_id entity_id ;;
            match playlist_id with
            | Some p =>
                if String.eqb p "" then print NoUploadsPlaylist ;;; ret None
                else ids <- get_playlist_video_ids fuel p ;; ret (Some ids)
            | None => print NoUploadsPlaylist ;;; ret None
            end
        | playlist =>
            ids <- get_playlist_video_ids fuel entity_id ;; ret (Some ids)
        end ;;
      match resolved with
      | None => ret t
      | Some [] => print NoVideosFound ;;; ret t
      | Some video_ids =>
          let current_found_count := Z.of_nat (length video_ids) in
          print (FoundVideos current_found_count) ;;;
          r <- get_videos_duration video_ids min_duration save_links ;;
          print (Done (included_count r) (format_timedelta (total_duration r))) ;;;
          ret (Totals (grand_total_duration t + total_duration r)
                      (total_videos_found t + current_found_count)
                      (total_videos_included t + included_count r)
                      (if save_links
                       then all_included_links t ++ included_links r
                       else all_included_links t))
      end
  end.

(** Lines 146-200 of [main]: the loop over the sources and the report. *)
Definition process_sources (fuel : nat) (urls_to_process : list string)
    (min_duration : Z) (save_links : bool) : Run totals :=
  let n := Z.of_nat (length urls_to_process) in
  t <- for_each (zip (seq 0 (length urls_to_process)) urls_to_process)
         (process_source fuel min_duration save_links n)
         (Totals 0 0 0 []) ;;
  print (ReportFound (total_videos_found t)) ;;;
  print (ReportIncluded (if 0 <? min_duration then Some min_duration else None)
           (total_videos_included t)) ;;;
  print (ReportDuration (format_timedelta (grand_total_duration t))) ;;;
  ret t.
End Service.

End Calc.

(** ** search/scripts/youtube-search-api.py *)

Module Search.

Inductive http_result (A : Type) : Type :=
  | HttpOk (a : A)
  | HttpFail (status : Z) (content : string).
Arguments HttpOk {A} a.
Arguments HttpFail {A} status content.

(** The keyword arguments of [search().list]. *)
Record search_params : Type := SearchParams {
  q : string;
  relevanceLanguage : string;
  maxResults : Z;
  pageToken : option string;
  videoDuration : option string;
  regionCode : option string
}.

(** One item of a search response: [id.videoId], [snippet.title] and
    [snippet.channelTitle]. *)
Record search_item : Type := SearchItem {
  si_videoId : string;
  si_title : string;
  si_channelTitle : string
}.

Record search_response : Type := SearchResponse {
  sr_items : list search_item;
  sr_nextPageToken : option string
}.

(** One item of [videos().list(part="contentDetails")]. *)
Record video_item : Type := VideoItem {
  vi_id : string;
  vi_duration : option string
}.

Inductive call : Type :=
  | SearchList (params : search_params)
  | VideosList (ids : list string).

(** The service object; as in [Calc], an answer may depend on how many
    requests came before. *)
Record youtube : Type := Youtube {
  search_list : nat -> search_params -> http_result search_response;
  videos_list : nat -> list string -> http_result (list video_item)
}.

(** The dictionary the script builds for each result. *)
Record result : Type := Result {
  title : string;
  channel : string;
  duration : string;
  url : string;
  videoId : string
}.

Inductive message : Type :=
  | Searching (query language : string) (country : option string)
      (min_duration : option Z) (duration : string) (max_results : Z)
  | NoteCustomFilter                  (* Note: Custom duration filter requires ... *)
  | HttpErrorOccurred (status : Z) (content : string)
  | HttpErrorDetails (status : Z) (content : string)
  | SavedJson (n : Z) (filename : string)
  | SavedTxt (n : Z) (filename : string)
  | InvalidFormat.                    (* Error: Invalid output file format. ... *)

Definition Run := @M message call.

Definition execute {A} (c : call) (answer : nat -> http_result A) : Run A :=
  fun w =>
    let w' := World (calls w ++ [c]) (printed w) (files w) in
    match answer (length (calls w)) with
    | HttpOk a => (Ret a, w')
    | HttpFail status content => (Raise (HttpError status content), w')
    end.

(** Lines 31-36. *)
Definition format_timedelta (td : Z) : string :=
  let total_seconds := td in
  let (hours, remainder) := divmod total_seconds 3600 in
  let (minutes, seconds) := divmod remainder 60 in
  fmt02 hours +:+ ":" +:+ fmt02 minutes +:+ ":" +:+ fmt02 seconds.

(** A value that is set and true in an [if]: an [int] other than 0, a
    [str] other than the empty one. *)
Definition set_int (o : option Z) : option Z :=
  match o with
  | Some z => if z =? 0 then None else Some z
  | None => None
  end.

Definition set_str (o : option string) : option string :=
  match o with
  | Some s => if String.eqb s "" then None else Some s
  | None => None
  end.

Definition watch_url (video_id : string) : string :=
  "https://www.youtube.com/watch?v=" +:+ video_id.

(** How the inner loop over the items of a page ends: it runs to its end,
    or it executes the [return] of line 101. *)
Inductive scan_end : Type :=
  | Scanned (final_results : list result)
  | ReturnedEarly (value : list result).

(** How one iteration of [for _ in range(5)] ends. *)
Inductive page_end : Type :=
  | NextPage (next_page_token : string) (final_results : list result)
  | Break (final_results : list result)
  | Return (value : list result).

Section Service.
Variable yt : youtube.
(** [isodate.parse_duration], in seconds; [None] stands for the
    [ISO8601Error] it raises. *)
Variable parse_duration : string -> option Z.

Definition parse (iso : string) : Run Z :=
  match parse_duration iso with
  | Some d => ret d
  | None => raise ISO8601Error
  end.

(** [{item['id']: item for item in items}]: a later item replaces an
    earlier one with the same id. *)
Definition by_id (items : list video_item) : gmap string video_item :=
  foldl (fun m item => <[vi_id item := item]> m) ∅ items.

(** Lines 86-101. *)
Fixpoint scan_items (items : list search_item)
    (video_details : gmap string video_item) (min_duration_td max_results : Z)
    (final_results : list result) : Run scan_end :=
  match items with
  | [] => ret (Scanned final_results)
  | search_item :: rest =>
      let video_id := si_videoId search_item in
      match video_details !! video_id with
      | Some details =>
          let duration_iso := default "PT0S" (vi_duration details) in
          duration_td <- parse duration_iso ;;
          if min_duration_td <=? duration_td then
            let final_results :=
              final_results ++
                [Result (si_title search_item) (si_channelTitle search_item)
                        (format_timedelta duration_td) (watch_url video_id)
                        video_id] in
            if max_results <=? Z.of_nat (length final_results)
            then ret (ReturnedEarly (py_slice_to max_results final_results))
            else scan_items rest video_details min_duration_td max_results
                            final_results
          else scan_items rest video_details min_duration_td max_results
                          final_results
      | None => scan_items rest video_details min_duration_td max_results
                           final_results
      end
  end.

(** [try: x = request.execute()  except HttpError: print(...); break] *)
Definition execute_or_break {A} (c : call) (answer : nat -> http_result A)
    (report : Z -> string -> message) : Run (option A) :=
  try_except
    (a <- execute c answer ;; ret (Some a))
    (fun e => match e with
              | HttpError status content =>
                  Some (print (report status content) ;;; ret None)
              | _ => None
              end).

(** Lines 61-104: one iteration of the loop. *)
Definition search_page (query language : string) (country : option string)
    (min_duration_td max_results : Z) (next_page_token : option string)
    (final_results : list result) : Run page_end :=
  let params := SearchParams query language 50 next_page_token None
                             (set_str country) in
  s <- execute_or_break (SearchList params)
         (fun n => search_list yt n params) HttpErrorOccurred ;;
  match s with
  | None => ret (Break final_results)
  | Some search_response =>
      let video_ids := map si_videoId (sr_items search_response) in
      match video_ids with
      | [] => ret (Break final_results)
      | _ :: _ =>
          v <- execute_or_break (VideosList video_ids)
                 (fun n => videos_list yt n video_ids) HttpErrorDetails ;;
          match v with
          | None => ret (Break final_results)
          | Some video_response =>
              e <- scan_items (sr_items search_response) (by_id video_response)
                     min_duration_td max_results final_results ;;
              match e with
              | ReturnedEarly value => ret (Return value)
              | Scanned final_results =>
                  match set_str (sr_nextPageToken search_response) with
                  | Some token => ret (NextPage token final_results)
                  | None => ret (Break final_results)
                  end
              end
          end
      end
  end.

(** [for _ in range(n)] followed by line 105. *)
Fixpoint search_pages (n : nat) (query language : string)
    (country : option string) (min_duration_td max_results : Z)
    (next_page_token : option string) (final_results : list result)
    : Run (list result) :=
  match n with
  | O => ret (py_slice_to max_results final_results)
  | S n' =>
      e <- search_page query language country min_duration_td max_results
             next_page_token final_results ;;
      match e with
      | NextPage token final_results =>
          search_pages n' query language country min_duration_td max_results
                       (Some token) final_results
      | Break final_results => ret (py_slice_to max_results final_results)
      | Return value => ret value
      end
  end.

(** Lines 109-141: the built-in duration categories. *)
Definition search_builtin (query language : string) (country : option string)
    (duration : string) (max_results : Z) : Run (list result) :=
  let params := SearchParams query language max_results None (Some duration)
                             (set_str country) in
  s <- execute_or_break (SearchList params)
         (fun n => search_list yt n params) HttpErrorOccurred ;;
  match s with
  | None => ret []
  | Some search_response =>
      match sr_items search_response with
      | [] => ret []
      | search_results =>
          let video_ids := map si_videoId search_results in
          v <- execute_or_break (VideosList video_ids)
                 (fun n => videos_list yt n video_ids) HttpErrorDetails ;;
          match v with
          | None => ret []
          | Some video_response =>
              video_durations <-
                for_each video_response
                  (fun item (m : gmap string string) =>
                     d <- parse (default "PT0S" (vi_duration item)) ;;
                     ret (<[vi_id item := format_timedelta d]> m))
                  ∅ ;;
              ret (map (fun item =>
                          Result (si_title item) (si_channelTitle item)
                                 (default "[N/A]"
                                    (video_durations !! si_videoId item))
                                 (watch_url (si_videoId item))
                                 (si_videoId item))
                       search_results)
          end
      end
  end.

(** Lines 38-141. *)
Definition search_youtube (query language : string) (country : option string)
    (duration : string) (max_results : Z) (min_duration_minutes : option Z)
    : Run (list result) :=
  print (Searching query language (set_str country)
           (set_int min_duration_minutes) duration max_results) ;;;
  match set_int min_duration_minutes with
  | Some minutes =>
      print NoteCustomFilter ;;;
      search_pages 5 query language country (minutes * 60) max_results None []
  | None => search_builtin query language country duration max_results
  end.
End Service.

(** The object [json.dump] prints for one result. *)
Definition result_json (r : result) : json :=
  JObj [("title", JStr (title r)); ("channel", JStr (channel r));
        ("duration", JStr (duration r)); ("url", JStr (url r));
        ("videoId", JStr (videoId r))].

(** The two [f.write] calls of lines 153-154 for one result. *)
Definition result_block (r : result) : string :=
  "[" +:+ duration r +:+ "] " +:+ title r +:+ " - (" +:+ channel r +:+ ")" +:+ nl
  +:+ "    " +:+ url r +:+ nl +:+ nl.

Definition text_blocks (results : list result) : string :=
  foldr (fun r rest => result_block r +:+ rest) "" results.

(** Lines 144-157.  [results] is read, never assigned to or mutated. *)
Definition save_results (results : list result) (filename : string) : Run unit :=
  if endswith (lower filename) ".json" then
    write_file filename (JsonFile (JArr (map result_json results))) ;;;
    print (SavedJson (Z.of_nat (length results)) filename)
  else if endswith (lower filename) ".txt" then
    write_file filename (TextFile (text_blocks results)) ;;;
    print (SavedTxt (Z.of_nat (length results)) filename)
  else print InvalidFormat.

End Search.

(** ** The entry points

    The [main] functions of the two scripts that talk to the remote
    service, with the functions only they call.  What the functions above
    print is kept as it is and put among the messages of [main]. *)

(** A computation that prints messages of one kind, run inside a script
    whose messages are of a wider kind. *)
Definition relabel {Msg Msg' Call A} (inj : Msg -> Msg') (m : @M Msg Call A)
    : @M Msg' Call A :=
  fun w =>
    let '(o, w1) := m (World (calls w) [] (files w)) in
    (o, World (calls w1) (printed w ++ map inj (printed w1)) (files w1)).

(** [f.write(link + '\n')] for each link of a list of strings. *)
Definition link_lines (links : list string) : string :=
  foldr (fun link rest => link +:+ nl +:+ rest) "" links.

Module SearchMain.

Inductive message : Type :=
  | FromSearch (m : Search.message)
  | KeyNotSet                         (* Error: YOUTUBE_API_KEY environment variable not set. *)
  | BuildFailed                       (* Error building YouTube service: {e} *)
  | NoResults                         (* No results found matching the criteria. *)
  | ResultsHeader                     (* --- Search Results --- *)
  | ResultLine (duration title channel : string)
                                      (* [{duration}] {title} - ({channel}) *)
  | ResultUrl (url : string).         (* four spaces, {url}, an empty line *)

Definition Run := @M message Search.call.

(** The parsed command line. *)
Record arguments : Type := Args {
  query : string;
  language : string;
  country : option string;
  duration : string;
  min_duration : option Z;
  max_results : Z;
  output : option string
}.

Section Environment.
(** [os.getenv('YOUTUBE_API_KEY')]. *)
Variable getenv : option string.
(** [build('youtube', 'v3', developerKey=api_key)]; [None] stands for any
    exception it raises. *)
Variable build : string -> option Search.youtube.
Variable parse_duration : string -> option Z.

(** Lines 19-29. *)
Definition get_youtube_service : Run (option Search.youtube) :=
  match Search.set_str getenv with
  | None => print KeyNotSet ;;; ret None
  | Some api_key =>
      match build api_key with
      | Some yt => ret (Some yt)
      | None => print BuildFailed ;;; ret None
      end
  end.

(** Lines 160-165. *)
Definition print_results_to_console (results : list Search.result) : Run unit :=
  print ResultsHeader ;;;
  for_each results
    (fun item (_ : unit) =>
       print (ResultLine (Search.duration item) (Search.title item)
                (Search.channel item)) ;;;
       print (ResultUrl (Search.url item)))
    tt.

(** Lines 201-216. *)
Definition main (args : arguments) : Run unit :=
  youtube <- get_youtube_service ;;
  match youtube with
  | None => ret tt
  | Some yt =>
      results <- relabel FromSearch
                   (Search.search_youtube yt parse_duration (query args)
                      (language args) (country args) (duration args)
                      (max_results args) (min_duration args)) ;;
      match results with
      | [] => print NoResults
      | _ :: _ =>
          match Search.set_str (output args) with
          | Some name => relabel FromSearch (Search.save_results results name)
          | None => print_results_to_console results
          end
      end
  end.
End Environment.

End SearchMain.

Module CalcMain.

Inductive message : Type :=
  | FromCalc (m : Calc.message)
  | KeyNotSet                         (* Error: YOUTUBE_API_KEY environment variable not set. *)
  | KeyHint                           (* Please get an API key from the Google Cloud Console ... *)
  | BuildFailed                       (* Error building YouTube service: {e} *)
  | ReadingFile (source : string)     (* Reading URLs from file: {source} *)
  | EmptyFile                         (* File is empty or contains no valid lines. *)
  | ProcessingSources (n : Z)         (* Processing {n} source(s)... *)
  | SavedLinks (n : Z) (file : string)
                                      (* Successfully saved {n} video link(s) to '{file}' *)
  | NoLinksToSave.                    (* No videos met the criteria to be saved ... *)

Definition Run := @M message Calc.call.

(** The parsed command line. *)
Record arguments : Type := Args {
  source : string;
  min_duration : Z;
  save_links : bool
}.

Section Environment.
(** [os.getenv('YOUTUBE_API_KEY')]. *)
Variable getenv : option string.
(** [build('youtube', 'v3', developerKey=api_key)]; [None] stands for any
    exception it raises. *)
Variable build : string -> option Calc.youtube.
(** The text of the file at a path, as text mode delivers it; [None] when
    [os.path.isfile] is false. *)
Variable read_file : string -> option string.
(** Whether [open(name, 'w')] succeeds; otherwise it raises [IOError]. *)
Variable can_open : string -> bool.
(** [datetime.now().strftime("%Y%m%d_%H%M%S")]. *)
Variable timestamp : string.
Variable parse_duration : string -> option Z.

(** Lines 21-32. *)
Definition get_youtube_service : Run (option Calc.youtube) :=
  match Search.set_str getenv with
  | None => print KeyNotSet ;;; print KeyHint ;;; ret None
  | Some api_key =>
      match build api_key with
      | Some yt => ret (Some yt)
      | None => print BuildFailed ;;; ret None
      end
  end.

(** [[line.strip() for line in f if line.strip()]] *)
Definition stripped_lines (text : string) : list string :=
  List.filter (fun line => negb (String.eqb line ""))
              (map strip (split_lines text)).

(** Lines 135-144; [None] stands for the [return] of line 142. *)
Definition urls_to_process (src : string) : Run (option (list string)) :=
  match read_file src with
  | Some text =>
      if endswith (lower src) ".txt" then
        print (ReadingFile src) ;;;
        match stripped_lines text with
        | [] => print EmptyFile ;;; ret None
        | urls => ret (Some urls)
        end
      else ret (Some [src])
  | None => ret (Some [src])
  end.

(** Lines 202-211. *)
Definition save_report (save : bool) (t : Calc.totals) : Run unit :=
  if save then
    match Calc.all_included_links t with
    | [] => print NoLinksToSave
    | links =>
        let output_filename := "youtube_links_" +:+ timestamp +:+ ".txt" in
        if can_open output_filename then
          write_file output_filename (TextFile (link_lines links)) ;;;
          print (SavedLinks (Z.of_nat (length links)) output_filename)
        else raise IOError
    end
  else ret tt.

(** Lines 122-211; [fuel] bounds the pages requested for one playlist. *)
Definition main (fuel : nat) (args : arguments) : Run unit :=
  youtube <- get_youtube_service ;;
  match youtube with
  | None => ret tt
  | Some yt =>
      urls <- urls_to_process (source args) ;;
      match urls with
      | None => ret tt
      | Some urls =>
          print (ProcessingSources (Z.of_nat (length urls))) ;;;
          t <- relabel FromCalc
                 (Calc.process_sources yt parse_duration fuel urls
                    (min_duration args) (save_links args)) ;;
          save_report (save_links args) t
      end
  end.
End Environment.

End CalcMain.

(** ** Concrete collaborators

    Small stand-ins for the external libraries and services, to run the
    scripts on concrete inputs. *)

Module Sample.

Definition dq : string := String (ascii_of_nat 34) EmptyString.

(** A key or a string value between double quotes. *)
Definition quoted (s : string) : string := dq +:+ s +:+ dq.

Definition is_digit (c : ascii) : bool :=
  let n := nat_of_ascii c in ((48 <=? n) && (n <=? 57))%nat.

(** The decimal number at the start of [s], if any, and what follows. *)
Fixpoint digits (s : string) (acc : option Z) : option Z * string :=
  match s with
  | String c s' =>
      if is_digit c
      then digits s' (Some (10 * default 0 acc + Z.of_nat (nat_of_ascii c - 48)))
      else (acc, s)
  | EmptyString => (acc, s)
  end.

(** The characters up to the next double quote, and what follows it. *)
Fixpoint until_quote (s : string) : option (string * string) :=
  match s with
  | EmptyString => None
  | String c s' =>
      if (nat_of_ascii c =? 34)%nat then Some (EmptyString, s')
      else '(a, rest) ← until_quote s'; Some (String c a, rest)
  end.

(** [null], an integer, or a string without escapes. *)
Definition scalar (s : string) : option (json * string) :=
  let s := lstrip s in
  match Calc.strip_prefix "null" s with
  | Some rest => Some (JNull, rest)
  | None =>
      match s with
      | String c s' =>
          if (nat_of_ascii c =? 34)%nat
          then '(a, rest) ← until_quote s'; Some (JStr a, rest)
          else match digits s None with
               | (Some z, rest) => Some (JNum z, rest)
               | (None, _) => None
               end
      | EmptyString => None
      end
  end.

Fixpoint members (fuel : nat) (s : string) : option (list (string * json)) :=
  match fuel with
  | O => None
  | S fuel' =>
      s1 ← Calc.strip_prefix dq (lstrip s);
      '(k, r1) ← until_quote s1;
      r2 ← Calc.strip_prefix ":" (lstrip r1);
      '(v, r3) ← scalar r2;
      match lstrip r3 with
      | String c r4 =>
          if Ascii.eqb c "," then rest ← members fuel' r4; Some ((k, v) :: rest)
          else if Ascii.eqb c "}" then
            match lstrip r4 with EmptyString => Some [(k, v)] | _ => None end
          else None
      | EmptyString => None
      end
  end.

(** [json.loads] on the one-line objects [yt-dlp -j] prints, restricted
    to members that are [null], integers or plain strings. *)
Definition flat_json_loads (line : string) : option json :=
  match Calc.strip_prefix "{" (lstrip line) with
  | Some s =>
      match Calc.strip_prefix "}" (lstrip s) with
      | Some r => match lstrip r with EmptyString => Some (JObj []) | _ => None end
      | None => JObj <$> members (String.length line) s
      end
  | None => None
  end.

(** One line of output: an object with a duration and a page address. *)
Definition entry (duration : string) (webpage_url : string) : string :=
  "{" +:+ quoted "duration" +:+ ": " +:+ duration +:+ ", "
  +:+ quoted "webpage_url" +:+ ": " +:+ quoted webpage_url +:+ "}".

(** [n] followed by the unit letter, or nothing. *)
Definition component (unit : ascii) (s : string) : Z * string :=
  match digits s None with
  | (Some z, String c rest) => if Ascii.eqb c unit then (z, rest) else (0, s)
  | _ => (0, s)
  end.

(** [isodate.parse_duration] on durations of the form [PT#H#M#S]. *)
Definition iso_seconds (iso : string) : option Z :=
  match Calc.strip_prefix "PT" iso with
  | Some s =>
      let (h, s1) := component "H" s in
      let (m, s2) := component "M" s1 in
      let (sec, s3) := component "S" s2 in
      match s3 with
      | EmptyString => Some (3600 * h + 60 * m + sec)
      | _ => None
      end
  | None => None
  end.

(** Every [open] succeeds. *)
Definition writable (name : string) : bool := true.

(** A playlist of two pages of which the second cannot be fetched, and a
    video service that knows the duration of every video. *)
Definition broken_second_page : Calc.youtube :=
  Calc.Youtube
    (fun _ _ _ => Calc.HttpOk [])
    (fun _ _ => Calc.HttpOk [])
    (fun _ _ token =>
       match token with
       | None => Calc.HttpOk (Calc.PlaylistPage ["a"; "b"] (Some "t1"))
       | Some _ => Calc.HttpFail 500 "backend error"
       end)
    (fun _ ids => Calc.HttpOk (map (fun i => Calc.VideoItem i (Some "PT10M")) ids)).

(** A video service whose second answer fails. *)
Definition flaky_videos : Calc.youtube :=
  Calc.Youtube
    (fun _ _ _ => Calc.HttpOk [])
    (fun _ _ => Calc.HttpOk [])
    (fun _ _ _ => Calc.HttpOk (Calc.PlaylistPage [] None))
    (fun n ids =>
       if (n =? 1)%nat then Calc.HttpFail 503 "unavailable"
       else Calc.HttpOk (map (fun i => Calc.VideoItem i (Some "PT10M")) ids)).

(** A video service that answers with one record per identifier; the
    identifier [nodur] has no duration, [baddur] one that does not parse. *)
Definition odd_records : Calc.youtube :=
  Calc.Youtube
    (fun _ _ _ => Calc.HttpOk [])
    (fun _ _ => Calc.HttpOk [])
    (fun _ _ _ => Calc.HttpOk (Calc.PlaylistPage [] None))
    (fun _ ids =>
       Calc.HttpOk
         (map (fun i =>
                 Calc.VideoItem i
                   (if String.eqb i "nodur" then None
                    else if String.eqb i "baddur" then Some "soon"
                    else Some "PT10M"))
              ids)).

(** A search service that always has a next page: every page holds the
    same two videos, of two and of twenty minutes. *)
Definition endless : Search.youtube :=
  Search.Youtube
    (fun _ _ =>
       Search.HttpOk
         (Search.SearchResponse
            [Search.SearchItem "v1" "Short" "Ch"; Search.SearchItem "v2" "Long" "Ch"]
            (Some "more")))
    (fun _ ids =>
       Search.HttpOk
         (map (fun i =>
                 Search.VideoItem i
                   (Some (if String.eqb i "v1" then "PT2M" else "PT20M")))
              ids)).

Definition two_results : list Search.result :=
  [Search.Result "First" "Ch" "00:10:00" "https://www.youtube.com/watch?v=v1" "v1";
   Search.Result "Second" "Ch" "01:00:00" "https://www.youtube.com/watch?v=v2" "v2"].

(** A playlist of three pages of two, one and two videos. *)
Definition three_pages : Calc.youtube :=
  Calc.Youtube
    (fun _ _ _ => Calc.HttpOk ["UUuploads"])
    (fun _ _ => Calc.HttpOk [])
    (fun _ _ token =>
       match token with
       | None => Calc.HttpOk (Calc.PlaylistPage ["a"; "b"] (Some "t1"))
       | Some t =>
           if String.eqb t "t1"
           then Calc.HttpOk (Calc.PlaylistPage ["c"] (Some "t2"))
           else Calc.HttpOk (Calc.PlaylistPage ["d"; "e"] None)
       end)
    (fun _ ids => Calc.HttpOk (map (fun i => Calc.VideoItem i (Some "PT10M")) ids)).

(** A search service with one page of two videos, of two and of twenty
    minutes, that knows the duration of the second only. *)
Definition one_page : Search.youtube :=
  Search.Youtube
    (fun _ _ =>
       Search.HttpOk
         (Search.SearchResponse
            [Search.SearchItem "v1" "Short" "Ch"; Search.SearchItem "v2" "Long" "Ch"]
            None))
    (fun _ ids => Search.HttpOk [Search.VideoItem "v2" (Some "PT20M")]).

End Sample.

(** ** What the aggregation is meant to compute *)

Module Spec.

Definition sum (durations : list Z) : Z := foldr Z.add 0 durations.

(** The durations that pass the filter: at least the minimum. *)
Definition included (min_seconds : Z) (durations : list Z) : list Z :=
  List.filter (fun d => min_seconds <=? d) durations.

(** The duration of the record on one line of output, when it is known:
    the line is a JSON object whose [duration] member is a number. *)
Definition line_duration (json_loads : string -> option json) (line : string)
    : option Z :=
  match json_loads line with
  | Some (JObj members) =>
      match assoc "duration" members with
      | Some v => Ytdlp.as_number v
      | None => None
      end
  | _ => None
  end.

(** The duration of a record of the remote service, when it is known:
    the duration string is present and parses. *)
Definition item_seconds (parse_duration : string -> option Z)
    (item : Calc.video_item) : option Z :=
  Calc.item_duration item ≫= parse_duration.

(** The records the service hands out for a list of chunks, when the
    first chunk is its request number [n] and every chunk is one request;
    a request that fails hands out nothing. *)
Fixpoint fetched (yt : Calc.youtube) (n : nat) (chunks : list (list string))
    : list Calc.video_item :=
  match chunks with
  | [] => []
  | chunk :: rest =>
      match Calc.videos_list yt n chunk with
      | Calc.HttpOk items => items
      | Calc.HttpFail _ _ => []
      end ++ fetched yt (S n) rest
  end.

(** The service answers a request for durations with at most one record
    per identifier asked for. *)
Definition one_record_per_id (yt : Calc.youtube) : Prop :=
  forall n ids items,
    Calc.videos_list yt n ids = Calc.HttpOk items ->
    (length items <= length ids)%nat.

(** [url] holds a playlist parameter: [list=] followed by at least one
    identifier character. *)
Definition has_playlist_parameter (url : string) : Prop :=
  exists before c after,
    url = before +:+ "list=" +:+ String c after /\ Calc.id_char c = true.

(** [pattern_at] matches somewhere in [s]. *)
Definition matches_somewhere (pattern_at : string -> option string) (s : string)
    : Prop :=
  exists before rest, s = before +:+ rest /\ pattern_at rest <> None.

(** [g] is the group of the match of [pattern_at] in [s] that starts
    first: no match starts at an earlier position. *)
Definition leftmost_match (pattern_at : string -> option string) (s g : string)
    : Prop :=
  exists before rest,
    s = before +:+ rest /\ pattern_at rest = Some g
    /\ forall before' rest',
         s = before' +:+ rest' ->
         (String.length before' < String.length before)%nat ->
         pattern_at rest' = None.

(** Every character of [s] is in the class [p]. *)
Definition all_chars (p : ascii -> bool) (s : string) : Prop :=
  Forall (fun c => p c = true) (list_ascii_of_string s).

(** [s] does not go on with a character of the class [p]. *)
Definition stops (p : ascii -> bool) (s : string) : Prop :=
  match s with
  | String c _ => p c = false
  | EmptyString => True
  end.

Definition is_search (c : Search.call) : bool :=
  match c with
  | Search.SearchList _ => true
  | Search.VideosList _ => false
  end.

(** The number of search requests among the requests [cs]. *)
Definition searches (cs : list Search.call) : nat :=
  length (List.filter is_search cs).

(** The text [HH:MM:SS] with exactly two digits in every field. *)
Definition hh_mm_ss (h m s : Z) : string :=
  two_digits h +:+ ":" +:+ two_digits m +:+ ":" +:+ two_digits s.

(** A line the loop of the subprocess script gets through: it is not
    JSON, or it is an object whose duration is absent, [null], a number or
    a boolean. *)
Definition well_formed_line (json_loads : string -> option json) (line : string)
    : Prop :=
  match json_loads line with
  | None => True
  | Some (JObj members) =>
      match assoc "duration" members with
      | None | Some JNull | Some (JNum _) | Some (JBool _) => True
      | Some _ => False
      end
  | Some _ => False
  end.

(** The service answers the requests for the pages of a playlist, the
    first of them being its request number [n] with the token [token],
    with [pages], one after the other: every page but the last carries a
    token, which the next request presents, and the last carries none. *)
Fixpoint page_chain (yt : Calc.youtube) (playlist_id : string) (n : nat)
    (token : option string) (pages : list Calc.playlist_page) : Prop :=
  match pages with
  | [] => False
  | page :: rest =>
      Calc.playlistItems_list yt n playlist_id token = Calc.HttpOk page
      /\ match rest with
         | [] => Search.set_str (Calc.nextPageToken page) = None
         | _ :: _ =>
             exists next, Search.set_str (Calc.nextPageToken page) = Some next
                          /\ page_chain yt playlist_id (S n) (Some next) rest
         end
  end.

(** Every character of [s] is white space. *)
Definition blank (s : string) : Prop := all_chars is_space s.

(** The links of a tally against its count: with [save_links], as many
    links as videos counted, each the watch address of a video; without
    it, none. *)
Definition links_match (save_links : bool) (links : list string) (count : Z)
    : Prop :=
  (save_links = true ->
   Z.of_nat (length links) = count
   /\ Forall (fun link => exists id,
                 link = "https://www.youtube.com/watch?v=" +:+ id) links)
  /\ (save_links = false -> links = []).

(** A result the custom filter lets through: its address is the watch
    address of its video, and its duration is the formatted text of a
    duration of at least [min_seconds]. *)
Definition passes (min_seconds : Z) (r : Search.result) : Prop :=
  Search.url r = Search.watch_url (Search.videoId r)
  /\ exists d, min_seconds <= d /\ Search.duration r = Search.format_timedelta d.

End Spec.

Arguments Spec.sum : simpl never.
Arguments Spec.included : simpl never.

(** * Properties *)

(** ** Numbers, strings and lists *)

Lemma fmt02_two_digits (z : Z) : 0 <= z < 100 -> fmt02 z = two_digits z.
Proof.
  intros Hz.
  assert (H : forall n : nat, (n < 100)%nat ->
                fmt02 (Z.of_nat n) = two_digits (Z.of_nat n)).
  { intros n Hn. do 100 (destruct n as [|n]; [vm_compute; reflexivity|]). lia. }
  rewrite <- (Z2Nat.id z) by lia. apply H. lia.
Qed.

(** From ten on, [{z:02}] pads nothing: the field is as wide as the number. *)
Lemma fmt02_wide (z : Z) : 10 <= z -> fmt02 z = py_str z.
Proof.
  intros Hz. destruct z as [|p|p]; try lia.
  unfold fmt02, py_str. cbn [Z.to_int NilZero.string_of_int].
  pose proof (Unsigned.of_to p) as Hp.
  destruct (Pos.to_uint p) as [|u|u|u|u|u|u|u|u|u|u] eqn:E;
    try (vm_compute in Hp; discriminate);
    destruct u; try reflexivity;
    vm_compute in Hp; first [discriminate | injection Hp as <-; lia].
Qed.

Lemma append_nil_l (s : string) : "" +:+ s = s.
Proof. reflexivity. Qed.

Lemma append_cons (c : ascii) (a b : string) :
  String c a +:+ b = String c (a +:+ b).
Proof. reflexivity. Qed.

Lemma py_slice_to_length {A} (n : Z) (l : list A) :
  0 <= n -> Z.of_nat (length (py_slice_to n l)) <= n.
Proof.
  intros Hn. unfold py_slice_to. destruct (Z.leb_spec 0 n); [|lia].
  rewrite length_take. lia.
Qed.

Lemma py_slice_to_all {A} (n : Z) (l : list A) :
  Z.of_nat (length l) <= n -> py_slice_to n l = l.
Proof.
  intros Hn. unfold py_slice_to. destruct (Z.leb_spec 0 n); [|lia].
  apply take_ge. lia.
Qed.

Lemma sum_app l1 l2 : Spec.sum (l1 ++ l2) = Spec.sum l1 + Spec.sum l2.
Proof. unfold Spec.sum. induction l1 as [|d l1 IH]; cbn; lia. Qed.

Lemma included_app M l1 l2 :
  Spec.included M (l1 ++ l2) = Spec.included M l1 ++ Spec.included M l2.
Proof. apply List.filter_app. Qed.

Lemma included_length M l : (length (Spec.included M l) <= length l)%nat.
Proof.
  unfold Spec.included. induction l as [|d l IH]; cbn; [lia|].
  destruct (M <=? d); cbn; lia.
Qed.

Lemma omap_length {A B} (f : A -> option B) l :
  (length (omap f l) <= length l)%nat.
Proof. induction l as [|a l IH]; cbn; [lia|]. destruct (f a); cbn; lia. Qed.

(** The chunks of fifty, put end to end, are the list. *)
Lemma concat_chunks_from {A} (l : list A) k : forall a,
  concat (map (fun i => take 50 (drop i l))
              (map (fun j => (j * 50)%nat) (seq a k)))
  = take (k * 50) (drop (a * 50) l).
Proof.
  induction k as [|k IH]; intros a; cbn [seq map concat].
  - reflexivity.
  - rewrite IH. replace (S k * 50)%nat with (50 + k * 50)%nat by lia.
    rewrite <- take_take_drop, drop_drop.
    replace (a * 50 + 50)%nat with (S a * 50)%nat by lia. reflexivity.
Qed.

Lemma concat_chunks (video_ids : list string) :
  concat (Calc.chunks video_ids) = video_ids.
Proof.
  unfold Calc.chunks, range_step. rewrite concat_chunks_from. cbn [Nat.mul drop].
  apply take_ge.
  pose proof (Nat.div_mod_eq (length video_ids + 50 - 1) 50).
  pose proof (Nat.mod_upper_bound (length video_ids + 50 - 1) 50). lia.
Qed.

(** ** The loop of the subprocess script *)

Section YtdlpFacts.
Variable json_loads : string -> option json.

(** A line whose record has a known duration. *)
Lemma process_line_known M line st w d :
  Spec.line_duration json_loads line = Some d ->
  Ytdlp.process_line json_loads M line st w
  = (if M <=? d
     then match json_loads line with
          | Some (JObj members) =>
              Ret (Ytdlp.Locals (Ytdlp.total_seconds st + d)
                     (Ytdlp.included_videos_count st + 1)
                     (match assoc "webpage_url" members with
                      | Some u => if truthy u
                                  then Ytdlp.included_video_links st ++ [u]
                                  else Ytdlp.included_video_links st
                      | None => Ytdlp.included_video_links st
                      end))
          | _ => Ret st
          end
     else Ret st, w).
Proof.
  unfold Spec.line_duration, Ytdlp.process_line, try_except, bind, Ytdlp.loads.
  destruct (json_loads line) as [[| | | | |members]|]; try discriminate.
  cbn. destruct (assoc "duration" members) as [v|]; try discriminate.
  destruct v; cbn; try discriminate; intros [= <-].
  - destruct b; destruct (M <=? _); cbn; try reflexivity;
      destruct (assoc "webpage_url" members); reflexivity.
  - destruct (M <=? z); cbn; try reflexivity.
    destruct (assoc "webpage_url" members); reflexivity.
Qed.

(** A record without a duration, or with the duration [null]. *)
Lemma process_line_no_duration M line st w members :
  json_loads line = Some (JObj members) ->
  assoc "duration" members = None \/ assoc "duration" members = Some JNull ->
  Ytdlp.process_line json_loads M line st w
  = (Ret st,
     after_print w (Ytdlp.WarnNoDuration
                      (default (JStr "N/A") (assoc "title" members)))).
Proof.
  intros Hl Hd. unfold Ytdlp.process_line, try_except, bind, Ytdlp.loads.
  rewrite Hl. cbn. destruct Hd as [-> | ->]; cbn;
    destruct (assoc "title" members); reflexivity.
Qed.

(** A line that is not JSON. *)
Lemma process_line_malformed M line st w :
  json_loads line = None ->
  Ytdlp.process_line json_loads M line st w
  = (Ret st, after_print w Ytdlp.WarnUnparsable).
Proof.
  intros Hl. unfold Ytdlp.process_line, try_except, bind, Ytdlp.loads.
  rewrite Hl. reflexivity.
Qed.

(** Whatever the line, an iteration that ends normally changes the loop
    variables as the filter says. *)
Lemma process_line_ret M line st w st1 w1 :
  Ytdlp.process_line json_loads M line st w = (Ret st1, w1) ->
  match Spec.line_duration json_loads line with
  | Some d =>
      if M <=? d
      then Ytdlp.total_seconds st1 = Ytdlp.total_seconds st + d
           /\ Ytdlp.included_videos_count st1
              = Ytdlp.included_videos_count st + 1
      else st1 = st
  | None => st1 = st
  end.
Proof.
  destruct (Spec.line_duration json_loads line) as [d|] eqn:Hd.
  - rewrite (process_line_known _ _ _ _ _ Hd).
    unfold Spec.line_duration in Hd.
    destruct (json_loads line) as [[| | | | |members]|]; try discriminate.
    destruct (M <=? d); intros [= <- <-]; cbn; auto.
  - unfold Spec.line_duration in Hd.
    unfold Ytdlp.process_line, try_except, bind, Ytdlp.loads.
    destruct (json_loads line) as [[| | | | |members]|]; cbn;
      try (intros [= <- <-]; reflexivity); try discriminate.
    destruct (assoc "duration" members) as [v|]; cbn.
    + destruct v; cbn in *; try discriminate;
        destruct (assoc "title" members); intros [= <- <-]; reflexivity.
    + destruct (assoc "title" members); intros [= <- <-]; reflexivity.
Qed.

(** The loop adds up exactly the durations that pass the filter. *)
Lemma for_each_process_line M lines : forall st w st' w',
  for_each lines (Ytdlp.process_line json_loads M) st w = (Ret st', w') ->
  Ytdlp.total_seconds st'
  = Ytdlp.total_seconds st
    + Spec.sum (Spec.included M (omap (Spec.line_duration json_loads) lines))
  /\ Ytdlp.included_videos_count st'
     = Ytdlp.included_videos_count st
       + Z.of_nat (length (Spec.included M
                             (omap (Spec.line_duration json_loads) lines))).
Proof.
  induction lines as [|line rest IH]; intros st w st' w'; cbn [for_each].
  - intros [= <- <-]. unfold Spec.sum, Spec.included. cbn. lia.
  - unfold bind at 1.
    destruct (Ytdlp.process_line json_loads M line st w) as [[st1| |] w1] eqn:E;
      try discriminate.
    intros Hrest. apply IH in Hrest. apply process_line_ret in E.
    cbn [omap list_omap].
    destruct (Spec.line_duration json_loads line) as [d|].
    + change (d :: omap (Spec.line_duration json_loads) rest)
        with ([d] ++ omap (Spec.line_duration json_loads) rest).
      rewrite included_app, sum_app, length_app.
      unfold Spec.included at 1 3, Spec.sum at 1. cbn [List.filter].
      destruct (M <=? d); cbn [foldr length].
      * destruct E as [E1 E2]. rewrite E1, E2 in Hrest. lia.
      * subst st1. lia.
    + subst st1. exact Hrest.
Qed.

Variable can_open : string -> bool.

(** Saving the links only adds to what was printed. *)
Lemma save_links_printed save_file links w :
  exists extra,
    printed (snd (Ytdlp.save_links can_open save_file links w))
    = printed w ++ extra.
Proof.
  unfold Ytdlp.save_links.
  destruct save_file as [name|]; [|exists []; cbn; rewrite app_nil_r; reflexivity].
  destruct links as [|l links]; [exists []; cbn; rewrite app_nil_r; reflexivity|].
  destruct (String.eqb name ""); [exists []; cbn; rewrite app_nil_r; reflexivity|].
  unfold bind at 1. cbn [print].
  destruct (can_open name).
  - destruct (Ytdlp.write_links (l :: links) "") as [text [e|]];
      eexists; cbn; rewrite <- ?app_assoc; reflexivity.
  - eexists; cbn; rewrite <- ?app_assoc; reflexivity.
Qed.
End YtdlpFacts.

(** ** The loops of the duration calculator *)

Section CalcFacts.
Variable yt : Calc.youtube.
Variable parse_duration : string -> option Z.

Lemma item_step_ret M sl item t w t1 w1 :
  Calc.item_step parse_duration M sl item t w = (Ret t1, w1) ->
  exists d, Spec.item_seconds parse_duration item = Some d /\ w1 = w
    /\ Calc.total_duration t1
       = Calc.total_duration t + Spec.sum (Spec.included M [d])
    /\ Calc.included_count t1
       = Calc.included_count t + Z.of_nat (length (Spec.included M [d])).
Proof.
  unfold Calc.item_step, Spec.item_seconds, bind.
  destruct (Calc.item_duration item) as [iso|]; cbn; try discriminate.
  destruct (parse_duration iso) as [d|]; cbn; try discriminate.
  intros H. exists d. revert H.
  unfold Spec.included, Spec.sum. cbn [List.filter foldr].
  destruct (M <=? d); intros [= <- <-]; cbn; repeat split; lia.
Qed.

Lemma for_each_item_step M sl items : forall t w t' w',
  for_each items (Calc.item_step parse_duration M sl) t w = (Ret t', w') ->
  w' = w
  /\ Calc.total_duration t'
     = Calc.total_duration t
       + Spec.sum (Spec.included M
                     (omap (Spec.item_seconds parse_duration) items))
  /\ Calc.included_count t'
     = Calc.included_count t
       + Z.of_nat (length (Spec.included M
                             (omap (Spec.item_seconds parse_duration) items))).
Proof.
  induction items as [|item rest IH]; intros t w t' w'; cbn [for_each].
  - intros [= <- <-]. unfold Spec.sum, Spec.included. cbn. repeat split; lia.
  - unfold bind at 1.
    destruct (Calc.item_step parse_duration M sl item t w) as [[t1| |] w1] eqn:E;
      try discriminate.
    intros Hrest. apply IH in Hrest. apply item_step_ret in E.
    destruct E as (d & Hd & -> & E1 & E2). destruct Hrest as (-> & H1 & H2).
    cbn [omap list_omap]. rewrite Hd.
    change (d :: omap (Spec.item_seconds parse_duration) rest)
      with ([d] ++ omap (Spec.item_seconds parse_duration) rest).
    rewrite included_app, sum_app, length_app. repeat split; lia.
Qed.

(** The loop over the items of an answer raises no [HttpError]. *)
Lemma for_each_item_step_raise M sl items : forall t w e w',
  for_each items (Calc.item_step parse_duration M sl) t w = (Raise e, w') ->
  e = KeyError "duration" \/ e = ISO8601Error.
Proof.
  induction items as [|item rest IH]; intros t w e w'; cbn [for_each].
  - discriminate.
  - unfold bind at 1.
    destruct (Calc.item_step parse_duration M sl item t w) as [[t1| |] w1] eqn:E.
    + apply IH.
    + intros [= <- <-]. revert E. unfold Calc.item_step, bind.
      destruct (Calc.item_duration item) as [iso|]; cbn.
      * destruct (parse_duration iso) as [d|]; cbn.
        -- destruct (M <=? d); discriminate.
        -- intros [= <-]. auto.
      * intros [= <-]. auto.
    + discriminate.
Qed.

(** One chunk: one request; its records pass through the filter, or, when
    the request fails, nothing changes but for the report of the failure. *)
Lemma chunk_step_ret M sl chunk t w t' w' :
  Calc.chunk_step yt parse_duration M sl chunk t w = (Ret t', w') ->
  calls w' = calls w ++ [Calc.VideosList chunk]
  /\ Calc.total_duration t'
     = Calc.total_duration t
       + Spec.sum (Spec.included M
                     (omap (Spec.item_seconds parse_duration)
                        (Spec.fetched yt (length (calls w)) [chunk])))
  /\ Calc.included_count t'
     = Calc.included_count t
       + Z.of_nat (length (Spec.included M
                     (omap (Spec.item_seconds parse_duration)
                        (Spec.fetched yt (length (calls w)) [chunk])))).
Proof.
  unfold Calc.chunk_step, try_except, bind, Calc.execute. cbn.
  destruct (Calc.videos_list yt (length (calls w)) chunk) as [items|s c];
    cbn [Spec.fetched]; rewrite ?app_nil_r.
  - destruct (for_each items _ t _) as [[t1|e|] w1] eqn:E; try discriminate.
    + intros [= <- <-]. apply for_each_item_step in E.
      destruct E as (-> & H1 & H2). cbn [calls]. auto.
    + apply for_each_item_step_raise in E. destruct E as [-> | ->]; discriminate.
  - intros [= <- <-]. unfold Spec.sum, Spec.included. cbn. repeat split; lia.
Qed.

Lemma for_each_chunk_step M sl chunks : forall t w t' w',
  for_each chunks (Calc.chunk_step yt parse_duration M sl) t w = (Ret t', w') ->
  Calc.total_duration t'
  = Calc.total_duration t
    + Spec.sum (Spec.included M
                  (omap (Spec.item_seconds parse_duration)
                     (Spec.fetched yt (length (calls w)) chunks)))
  /\ Calc.included_count t'
     = Calc.included_count t
       + Z.of_nat (length (Spec.included M
                     (omap (Spec.item_seconds parse_duration)
                        (Spec.fetched yt (length (calls w)) chunks)))).
Proof.
  induction chunks as [|chunk rest IH]; intros t w t' w'; cbn [for_each].
  - intros [= <- <-]. unfold Spec.sum, Spec.included. cbn. lia.
  - unfold bind at 1.
    destruct (Calc.chunk_step yt parse_duration M sl chunk t w)
      as [[t1| |] w1] eqn:E; try discriminate.
    intros Hrest. apply IH in Hrest. apply chunk_step_ret in E.
    destruct E as (Hc & E1 & E2). rewrite Hc, length_app in Hrest. cbn in Hrest.
    replace (length (calls w) + 1)%nat with (S (length (calls w))) in Hrest by lia.
    cbn [Spec.fetched] in *. rewrite app_nil_r in E1, E2.
    rewrite omap_app, included_app, sum_app, length_app. lia.
Qed.

Lemma chunk_step_failure M sl chunk t w status content :
  Calc.videos_list yt (length (calls w)) chunk = Calc.HttpFail status content ->
  Calc.chunk_step yt parse_duration M sl chunk t w
  = (Ret t, after_print (after_call w (Calc.VideosList chunk))
              (Calc.HttpErrorVideoDetails status content)).
Proof.
  intros H. unfold Calc.chunk_step, try_except, bind, Calc.execute. rewrite H.
  reflexivity.
Qed.

Lemma playlist_pages_failure fuel playlist_id token video_ids w status content :
  Calc.playlistItems_list yt (length (calls w)) playlist_id token
  = Calc.HttpFail status content ->
  Calc.playlist_pages yt (S fuel) playlist_id token video_ids w
  = (Ret [], after_print (after_call w (Calc.PlaylistItemsList playlist_id token))
               (Calc.HttpErrorPlaylistItems status content)).
Proof.
  intros H. cbn.
  unfold bind, Calc.playlist_page_step, try_except, bind, Calc.execute.
  rewrite H. reflexivity.
Qed.

Lemma fetched_length :
  Spec.one_record_per_id yt ->
  forall chunks n,
    (length (Spec.fetched yt n chunks) <= length (concat chunks))%nat.
Proof.
  intros Hc chunks. induction chunks as [|chunk rest IH]; intros n; cbn; [lia|].
  rewrite !length_app. specialize (IH (S n)).
  destruct (Calc.videos_list yt n chunk) as [items|] eqn:E; cbn; [|lia].
  apply Hc in E. lia.
Qed.

Lemma get_videos_duration_bound video_ids M sl w r w' :
  Spec.one_record_per_id yt ->
  Calc.get_videos_duration yt parse_duration video_ids M sl w = (Ret r, w') ->
  Calc.included_count r <= Z.of_nat (length video_ids).
Proof.
  intros Hc H. apply for_each_chunk_step in H. destruct H as [_ H].
  rewrite H. cbn [Calc.included_count].
  pose proof (fetched_length Hc (Calc.chunks video_ids) (length (calls w))) as Hf.
  rewrite concat_chunks in Hf.
  pose proof (included_length (M * 60)
                (omap (Spec.item_seconds parse_duration)
                   (Spec.fetched yt (length (calls w)) (Calc.chunks video_ids)))).
  pose proof (omap_length (Spec.item_seconds parse_duration)
                (Spec.fetched yt (length (calls w)) (Calc.chunks video_ids))).
  lia.
Qed.

Hypothesis contract : Spec.one_record_per_id yt.

Lemma process_source_bound fuel M sl n numbered t w t' w' :
  Calc.process_source yt parse_duration fuel M sl n numbered t w = (Ret t', w') ->
  Calc.total_videos_included t' - Calc.total_videos_included t
  <= Calc.total_videos_found t' - Calc.total_videos_found t.
Proof.
  unfold Calc.process_source. destruct numbered as [i url].
  unfold bind at 1. cbn [print].
  destruct (Calc.parse_url url) as [[url_type entity_id]|].
  2: { cbn. intros [= <- <-]. lia. }
  unfold bind at 1.
  match goal with
  | |- context [match ?resolve ?w0 with _ => _ end] =>
      destruct (resolve w0) as [[[ids|]|e|] w1]; try discriminate
  end.
  - destruct ids as [|v ids].
    + cbn. intros [= <- <-]. lia.
    + unfold bind at 1. cbn [print]. unfold bind at 1.
      destruct (Calc.get_videos_duration _ _ _ _ _ _) as [[r|e|] w2] eqn:E;
        try discriminate.
      apply get_videos_duration_bound in E; [|exact contract].
      cbn in E |- *. intros [= <- <-]. cbn. lia.
  - cbn. intros [= <- <-]. lia.
Qed.

Lemma process_sources_loop_bound fuel M sl n sources : forall t w t' w',
  for_each sources (Calc.process_source yt parse_duration fuel M sl n) t w
  = (Ret t', w') ->
  Calc.total_videos_included t' - Calc.total_videos_included t
  <= Calc.total_videos_found t' - Calc.total_videos_found t.
Proof.
  induction sources as [|s rest IH]; intros t w t' w'; cbn [for_each].
  - intros [= <- <-]. lia.
  - unfold bind at 1.
    destruct (Calc.process_source _ _ _ _ _ _ _ _ _) as [[t1| |] w1] eqn:E;
      try discriminate.
    intros H. apply IH in H. apply process_source_bound in E. lia.
Qed.

Lemma process_sources_bound fuel urls M sl w t w' :
  Calc.process_sources yt parse_duration fuel urls M sl w = (Ret t, w') ->
  Calc.total_videos_included t <= Calc.total_videos_found t.
Proof.
  unfold Calc.process_sources. unfold bind at 1.
  destruct (for_each _ _ _ _) as [[t1| |] w1] eqn:E; try discriminate.
  cbn. intros [= <- <-]. apply process_sources_loop_bound in E. cbn in E. lia.
Qed.
End CalcFacts.

(** ** Searching with the patterns of [parse_url] *)

Section Regex.
Variable pattern_at : string -> option string.

Lemma re_search_leftmost s : forall g,
  Calc.re_search pattern_at s = Some g -> Spec.leftmost_match pattern_at s g.
Proof.
  induction s as [|c s IH]; intros g; cbn.
  - destruct (pattern_at "") as [g0|] eqn:E; [|discriminate].
    intros [= <-]. exists "", "". repeat split; auto. cbn. lia.
  - destruct (pattern_at (String c s)) as [g0|] eqn:E.
    + intros [= <-]. exists "", (String c s). repeat split; auto. cbn. lia.
    + intros H. destruct (IH _ H) as (before & rest & -> & Hp & Hleft).
      exists (String c before), rest. repeat split; auto.
      intros [|c' b'] r'; rewrite ?append_nil_l, ?append_cons.
      * intros <- _. exact E.
      * intros [= <- Hs] Hlt. apply (Hleft b' r' Hs). cbn in Hlt. lia.
Qed.

Lemma re_search_none s :
  Calc.re_search pattern_at s = None ->
  forall before rest, s = before +:+ rest -> pattern_at rest = None.
Proof.
  induction s as [|c s IH]; cbn.
  - destruct (pattern_at "") eqn:E; [discriminate|].
    intros _ [|? ?] rest; rewrite ?append_nil_l, ?append_cons;
      [intros <-; exact E | discriminate].
  - destruct (pattern_at (String c s)) eqn:E; [discriminate|].
    intros H [|c' b'] rest; rewrite ?append_nil_l, ?append_cons.
    + intros <-. exact E.
    + intros [= <- Hs]. eapply IH; eauto.
Qed.

Lemma re_search_matches s :
  Spec.matches_somewhere pattern_at s ->
  exists g, Calc.re_search pattern_at s = Some g.
Proof.
  intros (before & rest & Hs & Hp).
  destruct (Calc.re_search pattern_at s) as [g|] eqn:E; [eauto|].
  exfalso. apply Hp. eapply re_search_none; eauto.
Qed.

Lemma re_search_no_match s :
  ~ Spec.matches_somewhere pattern_at s -> Calc.re_search pattern_at s = None.
Proof.
  intros H. destruct (Calc.re_search pattern_at s) as [g|] eqn:E; [|reflexivity].
  exfalso. apply H. apply re_search_leftmost in E.
  destruct E as (before & rest & Hs & Hp & _).
  exists before, rest. split; [exact Hs | congruence].
Qed.
End Regex.

Lemma strip_prefix_spec p : forall s r,
  Calc.strip_prefix p s = Some r <-> s = p +:+ r.
Proof.
  induction p as [|a p IH]; intros s r; cbn; rewrite ?append_nil_l, ?append_cons.
  - split; [intros [= ->]; reflexivity | intros ->; reflexivity].
  - destruct s as [|b s]; [split; discriminate|].
    destruct (Ascii.eqb_spec a b) as [->|Hne].
    + rewrite IH. split; [intros ->; reflexivity | intros [= ->]; reflexivity].
    + split; [discriminate | intros [= ? ?]; congruence].
Qed.

Lemma span_spec p s :
  exists after, s = Calc.span p s +:+ after
                /\ Spec.all_chars p (Calc.span p s) /\ Spec.stops p after.
Proof.
  induction s as [|c s (after & Hs & Hall & Hstop)]; cbn.
  - exists "". repeat split; constructor.
  - destruct (p c) eqn:E.
    + exists after. rewrite append_cons, <- Hs. repeat split; auto.
      constructor; auto.
    + exists (String c s). repeat split; [constructor | exact E].
Qed.

Lemma span_maximal p g after :
  Spec.all_chars p g -> Spec.stops p after -> Calc.span p (g +:+ after) = g.
Proof.
  unfold Spec.all_chars. induction g as [|c g IH]; intros Hall Hstop;
    rewrite ?append_nil_l, ?append_cons; cbn in *.
  - destruct after as [|c a]; cbn in *; [reflexivity | rewrite Hstop; reflexivity].
  - inversion Hall as [|? ? Hc Hg]; subst. rewrite Hc, IH; auto.
Qed.

(** The playlist pattern at the start of a string: [list=], then the
    longest run of identifier characters, which is not empty. *)
Lemma playlist_at_spec rest g :
  Calc.playlist_at rest = Some g <->
  exists after, rest = "list=" +:+ g +:+ after /\ g <> ""
                /\ Spec.all_chars Calc.id_char g /\ Spec.stops Calc.id_char after.
Proof.
  unfold Calc.playlist_at, Calc.one_or_more. split.
  - destruct (Calc.strip_prefix "list=" rest) as [r|] eqn:E; [|discriminate].
    apply strip_prefix_spec in E. cbn [mbind option_bind].
    destruct (span_spec Calc.id_char r) as (after & Hr & Hall & Hstop).
    destruct (Calc.span Calc.id_char r) as [|c g0] eqn:Es; [discriminate|].
    intros [= <-]. exists after. rewrite E, Hr at 1. repeat split; auto.
  - intros (after & -> & Hne & Hall & Hstop).
    assert (Calc.strip_prefix "list=" ("list=" +:+ g +:+ after)
            = Some (g +:+ after)) as ->
      by (apply strip_prefix_spec; reflexivity).
    cbn [mbind option_bind]. rewrite span_maximal by assumption.
    destruct g; [contradiction | reflexivity].
Qed.

Lemma has_playlist_parameter_matches url :
  Spec.has_playlist_parameter url <->
  Spec.matches_somewhere Calc.playlist_at url.
Proof.
  split.
  - intros (before & c & after & -> & Hc).
    exists before, ("list=" +:+ String c after). split; [reflexivity|].
    unfold Calc.playlist_at, Calc.one_or_more.
    assert (Calc.strip_prefix "list=" ("list=" +:+ String c after)
            = Some (String c after)) as ->
      by (apply strip_prefix_spec; reflexivity).
    cbn. rewrite Hc. discriminate.
  - intros (before & rest & -> & Hp).
    destruct (Calc.playlist_at rest) as [g|] eqn:E; [|contradiction].
    apply playlist_at_spec in E. destruct E as (after & -> & Hne & Hall & _).
    destruct g as [|c g]; [contradiction|].
    exists before, c, (g +:+ after). split; [reflexivity|].
    inversion Hall; assumption.
Qed.

(** ** The search loop *)

Section SearchFacts.
Variable yt : Search.youtube.
Variable parse_duration : string -> option Z.

(** The inner loop makes no request and prints nothing; it goes on while
    the list is below the bound and returns as soon as the bound is
    reached. *)
Lemma scan_items_spec items details M max_results : forall final_results w,
  let '(o, w') := Search.scan_items parse_duration items details M max_results
                    final_results w in
  w' = w
  /\ match o with
     | Ret (Search.Scanned final_results') =>
         (length final_results <= length final_results')%nat
         /\ (Z.of_nat (length final_results) < max_results ->
             Z.of_nat (length final_results') < max_results)
     | Ret (Search.ReturnedEarly value) =>
         (0 <= max_results -> Z.of_nat (length value) <= max_results)
         /\ (Z.of_nat (length final_results) < max_results ->
             Z.of_nat (length value) = max_results)
     | Raise e => e = ISO8601Error
     | OutOfFuel => False
     end.
Proof.
  induction items as [|item rest IH]; intros fr w; cbn [Search.scan_items].
  - cbn. split; [reflexivity|]. split; [lia | auto].
  - destruct (details !! Search.si_videoId item) as [d|]; [|apply IH].
    unfold bind, Search.parse.
    destruct (parse_duration (default "PT0S" (Search.vi_duration d))) as [td|];
      cbn; [|auto].
    destruct (M <=? td); [|apply IH].
    cbv zeta. set (fr1 := fr ++ [_]).
    assert (Hlen : length fr1 = S (length fr))
      by (unfold fr1; rewrite length_app; cbn; lia).
    destruct (Z.leb_spec max_results (Z.of_nat (length fr1))) as [Hge|Hlt].
    + cbn. split; [reflexivity|]. split.
      * apply py_slice_to_length.
      * intros Hfr. rewrite py_slice_to_all; lia.
    + specialize (IH fr1 w).
      destruct (Search.scan_items _ _ _ _ _ _ _) as [[[fr'|v]|e|] w'];
        destruct IH as [-> IH]; split; auto.
      * split; [lia|]. intros _. apply IH. lia.
      * destruct IH as [IH1 IH2]. split; [exact IH1|]. intros _. apply IH2. lia.
Qed.

Lemma execute_or_break_spec {A} c (answer : nat -> Search.http_result A) report w :
  Search.execute_or_break c answer report w
  = match answer (length (calls w)) with
    | Search.HttpOk a => (Ret (Some a), after_call w c)
    | Search.HttpFail status content =>
        (Ret None, after_print (after_call w c) (report status content))
    end.
Proof.
  unfold Search.execute_or_break, try_except, bind, Search.execute.
  destruct (answer (length (calls w))); reflexivity.
Qed.

(** One iteration: one search request, at most one request for details;
    it hands a list on to the next iteration only while the list is below
    the bound, and returns a full list at once. *)
Lemma search_page_spec query language country M max_results token final_results w :
  let '(o, w') := Search.search_page yt parse_duration query language country M
                    max_results token final_results w in
  (exists new, calls w' = calls w ++ new /\ Spec.searches new = 1%nat)
  /\ match o with
     | Ret (Search.NextPage _ final_results')
     | Ret (Search.Break final_results') =>
         Z.of_nat (length final_results) < max_results ->
         Z.of_nat (length final_results') < max_results
     | Ret (Search.Return value) =>
         (0 <= max_results -> Z.of_nat (length value) <= max_results)
         /\ (Z.of_nat (length final_results) < max_results ->
             Z.of_nat (length value) = max_results)
     | Raise e => e = ISO8601Error
     | OutOfFuel => False
     end.
Proof.
  unfold Search.search_page. unfold bind at 1. rewrite execute_or_break_spec.
  destruct (Search.search_list yt _ _) as [response|status content].
  - destruct (map Search.si_videoId (Search.sr_items response)) as [|i ids] eqn:Eids.
    + cbn. split; [|auto]. exists [Search.SearchList
        (Search.SearchParams query language 50 token None (Search.set_str country))].
      split; reflexivity.
    + unfold bind at 1. rewrite execute_or_break_spec.
      destruct (Search.videos_list yt _ _) as [details|status content].
      * unfold bind.
        pose proof (scan_items_spec (Search.sr_items response) (Search.by_id details)
                      M max_results final_results
                      (after_call (after_call w (Search.SearchList
                         (Search.SearchParams query language 50 token None
                            (Search.set_str country))))
                         (Search.VideosList (i :: ids)))) as Hs.
        destruct (Search.scan_items _ _ _ _ _ _ _) as [[[fr'|v]|e|] w'];
          destruct Hs as [-> Hs]; cbn [calls after_call].
        -- destruct (Search.set_str (Search.sr_nextPageToken response)); cbn;
             (split; [eexists; rewrite <- app_assoc; split; reflexivity | apply Hs]).
        -- cbn. split; [eexists; rewrite <- app_assoc; split; reflexivity | apply Hs].
        -- split; [eexists; rewrite <- app_assoc; split; reflexivity | apply Hs].
        -- contradiction.
      * cbn. split; [|auto]. eexists. rewrite <- app_assoc. split; reflexivity.
  - cbn. split; [|auto]. eexists. split; reflexivity.
Qed.

Lemma searches_app a b :
  Spec.searches (a ++ b) = (Spec.searches a + Spec.searches b)%nat.
Proof. unfold Spec.searches. rewrite List.filter_app, length_app. reflexivity. Qed.

(** The loop: at most [n] search requests, and never more results than
    asked for. *)
Lemma search_pages_spec query language country M max_results n :
  forall token final_results w,
  let '(o, w') := Search.search_pages yt parse_duration n query language country M
                    max_results token final_results w in
  (exists new, calls w' = calls w ++ new /\ (Spec.searches new <= n)%nat)
  /\ match o with
     | Ret results => 0 <= max_results -> Z.of_nat (length results) <= max_results
     | Raise e => e = ISO8601Error
     | OutOfFuel => False
     end.
Proof.
  induction n as [|n IH]; intros token fr w; cbn [Search.search_pages].
  - cbn. split; [exists []; rewrite app_nil_r; auto | apply py_slice_to_length].
  - unfold bind.
    pose proof (search_page_spec query language country M max_results token fr w) as Hp.
    destruct (Search.search_page _ _ _ _ _ _ _ _ _ _) as [[[t fr'|fr'|v]|e|] w1];
      destruct Hp as [(new & Hnew & Hs) Hp].
    + specialize (IH (Some t) fr' w1).
      destruct (Search.search_pages _ _ _ _ _ _ _ _ _ _ _) as [o w'].
      destruct IH as [(new' & Hnew' & Hs') IH]. split; [|exact IH].
      exists (new ++ new'). rewrite Hnew', Hnew, app_assoc, searches_app.
      split; [reflexivity | lia].
    + cbn. split; [exists new; split; [auto | lia] | apply py_slice_to_length].
    + cbn. split; [exists new; split; [auto | lia] | apply Hp].
    + split; [exists new; split; [auto | lia] | exact Hp].
    + contradiction.
Qed.
End SearchFacts.

(** ** File names *)

Lemma lower_append a b : lower (a +:+ b) = lower a +:+ lower b.
Proof.
  induction a as [|c a IH]; rewrite ?append_nil_l, ?append_cons; cbn;
    rewrite ?append_nil_l, ?append_cons; congruence.
Qed.

Lemma lower_rev s : lower (string_rev s) = string_rev (lower s).
Proof.
  induction s as [|c s IH]; cbn; [reflexivity|].
  rewrite lower_append, IH. reflexivity.
Qed.

Lemma startswith_lower p : forall s,
  startswith p s = true -> startswith (lower p) (lower s) = true.
Proof.
  induction p as [|a p IH]; intros [|b s]; cbn; try discriminate; auto.
  destruct (Ascii.eqb_spec a b) as [->|]; [|discriminate].
  rewrite Ascii.eqb_refl. apply IH.
Qed.

(** A name that ends in an extension still does once it is lower-cased. *)
Lemma endswith_lower s p :
  endswith s p = true -> endswith (lower s) (lower p) = true.
Proof.
  unfold endswith. intros H. rewrite <- !lower_rev. apply startswith_lower, H.
Qed.

Lemma endswith_txt_not_json s :
  endswith s ".txt" = true -> endswith s ".json" = false.
Proof.
  unfold endswith.
  change (string_rev ".txt") with "txt.". change (string_rev ".json") with "nosj.".
  destruct (string_rev s) as [|c r]; cbn [startswith]; [discriminate|].
  destruct (Ascii.eqb_spec "t" c) as [<-|]; [reflexivity | discriminate].
Qed.

(** * The claims *)

(** ** C1: a remote call that fails *)




(** ** C2: the counters and the total *)



(** ** C3: the filter is inclusive *)

(** C3.  A record whose duration is known is included when the duration is
    at least the minimum and left out when it is below: a record of
    exactly the minimum is included, one of a second less is not.  In the
    subprocess script the record is a JSON object with a numeric duration,
    in the duration calculator an item whose duration string parses. *)
Theorem minimum_duration_filter_inclusive :
  (forall json_loads M line members d st w,
      json_loads line = Some (JObj members) ->
      assoc "duration" members = Some (JNum d) ->
      (M <= d ->
       exists links,
         Ytdlp.process_line json_loads M line st w
         = (Ret (Ytdlp.Locals (Ytdlp.total_seconds st + d)
                   (Ytdlp.included_videos_count st + 1) links), w))
      /\ (d < M -> Ytdlp.process_line json_loads M line st w = (Ret st, w))
      /\ (d = M ->
          exists links,
            Ytdlp.process_line json_loads M line st w
            = (Ret (Ytdlp.Locals (Ytdlp.total_seconds st + M)
                      (Ytdlp.included_videos_count st + 1) links), w))
      /\ (d = M - 1 -> Ytdlp.process_line json_loads M line st w = (Ret st, w)))
  /\ (forall parse_duration M save_links item iso d t w,
      Calc.item_duration item = Some iso ->
      parse_duration iso = Some d ->
      (M <= d ->
       exists links,
         Calc.item_step parse_duration M save_links item t w
         = (Ret (Calc.Tally (Calc.total_duration t + d) links
                   (Calc.included_count t + 1)), w))
      /\ (d < M -> Calc.item_step parse_duration M save_links item t w = (Ret t, w))
      /\ (d = M ->
          exists links,
            Calc.item_step parse_duration M save_links item t w
            = (Ret (Calc.Tally (Calc.total_duration t + M) links
                      (Calc.included_count t + 1)), w))
      /\ (d = M - 1 ->
          Calc.item_step parse_duration M save_links item t w = (Ret t, w))).
Proof.
  split.
  - intros json_loads M line members d st w Hl Hd.
    assert (Hk : Spec.line_duration json_loads line = Some d)
      by (unfold Spec.line_duration; rewrite Hl, Hd; reflexivity).
    pose proof (process_line_known json_loads M line st w d Hk) as Hp.
    rewrite Hl in Hp.
    assert (Hin : M <= d ->
                  exists links,
                    Ytdlp.process_line json_loads M line st w
                    = (Ret (Ytdlp.Locals (Ytdlp.total_seconds st + d)
                              (Ytdlp.included_videos_count st + 1) links), w)).
    { intros Hle. rewrite Hp. destruct (Z.leb_spec M d); [|lia]. eauto. }
    assert (Hout : d < M ->
                   Ytdlp.process_line json_loads M line st w = (Ret st, w)).
    { intros Hlt. rewrite Hp. destruct (Z.leb_spec M d); [lia|]. reflexivity. }
    split; [exact Hin|]. split; [exact Hout|]. split.
    + intros ->. apply Hin. lia.
    + intros ->. apply Hout. lia.
  - intros parse_duration M save_links item iso d t w Hi Hd.
    assert (Hin : M <= d ->
                  exists links,
                    Calc.item_step parse_duration M save_links item t w
                    = (Ret (Calc.Tally (Calc.total_duration t + d) links
                              (Calc.included_count t + 1)), w)).
    { intros Hle. unfold Calc.item_step, bind. rewrite Hi. cbn. rewrite Hd. cbn.
      destruct (Z.leb_spec M d); [|lia]. eauto. }
    assert (Hout : d < M ->
                   Calc.item_step parse_duration M save_links item t w = (Ret t, w)).
    { intros Hlt. unfold Calc.item_step, bind. rewrite Hi. cbn. rewrite Hd. cbn.
      destruct (Z.leb_spec M d); [lia|]. reflexivity. }
    split; [exact Hin|]. split; [exact Hout|]. split.
    + intros ->. apply Hin. lia.
    + intros ->. apply Hout. lia.
Qed.

(** A minimum of five minutes: 300 seconds pass, 299 do not. *)
Lemma minimum_duration_filter_inclusive_witness :
  (Sample.flat_json_loads (Sample.entry "300" "u1")
   = Some (JObj [("duration", JNum 300); ("webpage_url", JStr "u1")])
   /\ (exists links,
         Ytdlp.process_line Sample.flat_json_loads 300 (Sample.entry "300" "u1")
           Ytdlp.initial empty_world
         = (Ret (Ytdlp.Locals (0 + 300) (0 + 1) links), empty_world)))
  /\ (Sample.flat_json_loads (Sample.entry "299" "u1")
      = Some (JObj [("duration", JNum 299); ("webpage_url", JStr "u1")])
      /\ Ytdlp.process_line Sample.flat_json_loads 300 (Sample.entry "299" "u1")
           Ytdlp.initial empty_world
         = (Ret Ytdlp.initial, empty_world))
  /\ (Sample.iso_seconds "PT5M" = Some 300
      /\ exists links,
           Calc.item_step Sample.iso_seconds 300 true
             (Calc.VideoItem "a" (Some "PT5M")) (Calc.Tally 0 [] 0) empty_world
           = (Ret (Calc.Tally (0 + 300) links (0 + 1)), empty_world))
  /\ (Sample.iso_seconds "PT4M59S" = Some 299
      /\ Calc.item_step Sample.iso_seconds 300 true
           (Calc.VideoItem "a" (Some "PT4M59S")) (Calc.Tally 0 [] 0) empty_world
         = (Ret (Calc.Tally 0 [] 0), empty_world)).
Proof.
  destruct minimum_duration_filter_inclusive as [Hy Hc].
  split; [|split; [|split]].
  - split; [reflexivity|].
    apply (Hy Sample.flat_json_loads 300 (Sample.entry "300" "u1")
             [("duration", JNum 300); ("webpage_url", JStr "u1")] 300
             Ytdlp.initial empty_world); reflexivity.
  - split; [reflexivity|].
    apply (Hy Sample.flat_json_loads 300 (Sample.entry "299" "u1")
             [("duration", JNum 299); ("webpage_url", JStr "u1")] 299
             Ytdlp.initial empty_world); reflexivity.
  - split; [reflexivity|].
    apply (Hc Sample.iso_seconds 300 true (Calc.VideoItem "a" (Some "PT5M"))
             "PT5M" 300 (Calc.Tally 0 [] 0) empty_world); reflexivity.
  - split; [reflexivity|].
    apply (Hc Sample.iso_seconds 300 true (Calc.VideoItem "a" (Some "PT4M59S"))
             "PT4M59S" 299 (Calc.Tally 0 [] 0) empty_world); reflexivity.
Defined.

(** ** C4: a record without a duration *)

(** C4 fails as stated.  In the duration calculator, a record that has no
    duration makes [get_videos_duration] raise [KeyError]: nothing is
    printed, so there is no warning, and no tally is returned. *)
Lemma missing_duration_api_no_warning :
  Calc.get_videos_duration Sample.odd_records Sample.iso_seconds
    ["nodur"] 0 false empty_world
  = (Raise (KeyError "duration"), World [Calc.VideosList ["nodur"]] [] ∅).
Proof. reflexivity. Qed.

(** C4, amended.  In the subprocess script, a record whose duration is
    absent or [null] is left out whatever the minimum: the loop variables
    stay as they are, the record is not among the known durations, and
    exactly one message is printed, the warning that the video has no
    duration. *)
Theorem unknown_duration_excluded_with_warning
    (json_loads : string -> option json) (M : Z) (line : string)
    (members : list (string * json)) (st : Ytdlp.locals)
    (w : world Ytdlp.message unit) :
  json_loads line = Some (JObj members) ->
  assoc "duration" members = None \/ assoc "duration" members = Some JNull ->
  exists title,
    Ytdlp.process_line json_loads M line st w
    = (Ret st, after_print w (Ytdlp.WarnNoDuration title))
    /\ Ytdlp.is_warning (Ytdlp.WarnNoDuration title) = true
    /\ Spec.line_duration json_loads line = None.
Proof.
  intros Hl Hd. exists (default (JStr "N/A") (assoc "title" members)).
  split; [apply process_line_no_duration; assumption|]. split; [reflexivity|].
  unfold Spec.line_duration. rewrite Hl. destruct Hd as [-> | ->]; reflexivity.
Qed.

Lemma unknown_duration_excluded_with_warning_witness :
  Sample.flat_json_loads (Sample.entry "null" "u1")
  = Some (JObj [("duration", JNull); ("webpage_url", JStr "u1")])
  /\ (assoc "duration" [("duration", JNull); ("webpage_url", JStr "u1")] = None
      \/ assoc "duration" [("duration", JNull); ("webpage_url", JStr "u1")]
         = Some JNull)
  /\ exists title,
       Ytdlp.process_line Sample.flat_json_loads 0 (Sample.entry "null" "u1")
         (Ytdlp.Locals 600 1 []) empty_world
       = (Ret (Ytdlp.Locals 600 1 []),
          after_print empty_world (Ytdlp.WarnNoDuration title))
       /\ Ytdlp.is_warning (Ytdlp.WarnNoDuration title) = true
       /\ Spec.line_duration Sample.flat_json_loads (Sample.entry "null" "u1")
          = None.
Proof.
  split; [reflexivity|]. split; [right; reflexivity|].
  apply (unknown_duration_excluded_with_warning Sample.flat_json_loads 0
           (Sample.entry "null" "u1")
           [("duration", JNull); ("webpage_url", JStr "u1")]);
    [reflexivity | right; reflexivity].
Defined.

(** ** C5: a record that cannot be parsed *)

(** C5 fails as stated.  In the duration calculator nothing handles a
    failure on one record: a duration that does not parse, or that is
    absent, raises out of [get_videos_duration]; nothing is printed and the
    records after it are not looked at. *)
Lemma parse_failure_api_aborts :
  Calc.get_videos_duration Sample.odd_records Sample.iso_seconds
    ["baddur"; "a"] 0 false empty_world
  = (Raise ISO8601Error, World [Calc.VideosList ["baddur"; "a"]] [] ∅)
  /\ Calc.get_videos_duration Sample.odd_records Sample.iso_seconds
       ["nodur"; "a"] 0 false empty_world
     = (Raise (KeyError "duration"), World [Calc.VideosList ["nodur"; "a"]] [] ∅).
Proof. split; reflexivity. Qed.

(** C5, amended.  In the subprocess script, a line that is not JSON, and a
    record without a duration field, each print one warning and leave the
    loop variables as they are; the loop then goes on with the lines that
    remain. *)
Theorem parse_failure_skipped
    (json_loads : string -> option json) (M : Z) (line : string)
    (rest : list string) (st : Ytdlp.locals) (w : world Ytdlp.message unit) :
  (json_loads line = None ->
   for_each (line :: rest) (Ytdlp.process_line json_loads M) st w
   = for_each rest (Ytdlp.process_line json_loads M) st
       (after_print w Ytdlp.WarnUnparsable))
  /\ (forall members,
      json_loads line = Some (JObj members) ->
      assoc "duration" members = None ->
      for_each (line :: rest) (Ytdlp.process_line json_loads M) st w
      = for_each rest (Ytdlp.process_line json_loads M) st
          (after_print w (Ytdlp.WarnNoDuration
                            (default (JStr "N/A") (assoc "title" members))))).
Proof.
  split.
  - intros Hl. cbn [for_each]. unfold bind at 1.
    rewrite process_line_malformed by assumption. reflexivity.
  - intros members Hl Hd. cbn [for_each]. unfold bind at 1.
    rewrite (process_line_no_duration json_loads M line st w members Hl (or_introl Hd)).
    reflexivity.
Qed.

(** A line that is cut short, and an object with a title only, each
    followed by a good record. *)
Lemma parse_failure_skipped_witness :
  (Sample.flat_json_loads "{oops" = None
   /\ for_each ["{oops"; Sample.entry "120" "u1"]
        (Ytdlp.process_line Sample.flat_json_loads 0) Ytdlp.initial empty_world
      = (Ret (Ytdlp.Locals 120 1 [JStr "u1"]),
         World [] [Ytdlp.WarnUnparsable] ∅))
  /\ (Sample.flat_json_loads ("{" +:+ Sample.quoted "title" +:+ ": "
                              +:+ Sample.quoted "T" +:+ "}")
      = Some (JObj [("title", JStr "T")])
      /\ for_each ["{" +:+ Sample.quoted "title" +:+ ": " +:+ Sample.quoted "T"
                   +:+ "}"; Sample.entry "120" "u1"]
           (Ytdlp.process_line Sample.flat_json_loads 0) Ytdlp.initial empty_world
         = (Ret (Ytdlp.Locals 120 1 [JStr "u1"]),
            World [] [Ytdlp.WarnNoDuration (JStr "T")] ∅)).
Proof.
  split; (split; [reflexivity|]).
  - rewrite (proj1 (parse_failure_skipped Sample.flat_json_loads 0 "{oops"
                      [Sample.entry "120" "u1"] Ytdlp.initial empty_world));
      reflexivity.
  - rewrite (proj2 (parse_failure_skipped Sample.flat_json_loads 0
                      ("{" +:+ Sample.quoted "title" +:+ ": " +:+ Sample.quoted "T"
                       +:+ "}")
                      [Sample.entry "120" "u1"] Ytdlp.initial empty_world)
                   [("title", JStr "T")]);
      reflexivity.
Defined.

(** ** C6: the order of the patterns *)



(** ** C7: the search stops after five pages *)

(** C7.  Whatever the service answers, also when every answer carries a
    continuation token, the search with a custom minimum duration sends at
    most five search requests and then ends; it never returns more results
    than asked for; a page is handed on to a further iteration only while
    the list is below the bound, and once the list reaches the bound it is
    returned at once, without another request. *)
Theorem search_pages_bounded
    (yt : Search.youtube) (parse_duration : string -> option Z)
    (query language : string) (country : option string) (duration : string)
    (max_results minutes : Z) (w : world Search.message Search.call) :
  0 <= max_results ->
  minutes <> 0 ->
  (let '(o, w') := Search.search_youtube yt parse_duration query language country
                     duration max_results (Some minutes) w in
   (exists new, calls w' = calls w ++ new /\ (Spec.searches new <= 5)%nat)
   /\ o <> OutOfFuel
   /\ forall results, o = Ret results ->
                      Z.of_nat (length results) <= max_results)
  /\ (forall token final_results w0,
      Z.of_nat (length final_results) < max_results ->
      match Search.search_page yt parse_duration query language country
              (minutes * 60) max_results token final_results w0 with
      | (Ret (Search.NextPage _ final_results'), _)
      | (Ret (Search.Break final_results'), _) =>
          Z.of_nat (length final_results') < max_results
      | (Ret (Search.Return value), _) =>
          Z.of_nat (length value) = max_results
      | _ => True
      end)
  /\ (forall n token final_results w0 value w1,
      Search.search_page yt parse_duration query language country
        (minutes * 60) max_results token final_results w0
      = (Ret (Search.Return value), w1) ->
      Search.search_pages yt parse_duration (S n) query language country
        (minutes * 60) max_results token final_results w0
      = (Ret value, w1)).
Proof.
  intros Hmax Hmin. split; [|split].
  - unfold Search.search_youtube. unfold bind at 1. cbn [print].
    unfold Search.set_int. destruct (Z.eqb_spec minutes 0) as [|_]; [contradiction|].
    unfold bind at 1. cbn [print].
    match goal with
    | |- context [Search.search_pages _ _ _ _ _ _ _ _ _ _ ?w0] =>
        pose proof (search_pages_spec yt parse_duration query language country
                      (minutes * 60) max_results 5 None [] w0) as Hs;
        destruct (Search.search_pages yt parse_duration 5 query language country
                    (minutes * 60) max_results None [] w0) as [o w']
    end.
    cbn [calls] in Hs. destruct Hs as [Hcalls Ho]. split; [exact Hcalls|].
    split.
    + intros ->. exact Ho.
    + intros results ->. auto.
  - intros token fr w0 Hfr.
    pose proof (search_page_spec yt parse_duration query language country
                  (minutes * 60) max_results token fr w0) as Hp.
    destruct (Search.search_page _ _ _ _ _ _ _ _ _ _) as [[[t fr'|fr'|v]|e|] w1];
      destruct Hp as [_ Hp]; auto. apply Hp, Hfr.
  - intros n token fr w0 value w1 H. cbn [Search.search_pages].
    unfold bind. rewrite H. reflexivity.
Qed.

(** A service that always has a next page, asked for fifty results of at
    least five minutes: the run ends after five search requests. *)
Lemma search_pages_bounded_witness :
  0 <= 50
  /\ 5 <> 0
  /\ Spec.searches
       (calls (snd (Search.search_youtube Sample.endless Sample.iso_seconds
                      "q" "en" None "any" 50 (Some 5) empty_world)))
     = 5%nat
  /\ let '(o, w') := Search.search_youtube Sample.endless Sample.iso_seconds
                       "q" "en" None "any" 50 (Some 5) empty_world in
     (exists new, calls w' = calls (@empty_world Search.message Search.call) ++ new
                  /\ (Spec.searches new <= 5)%nat)
     /\ o <> OutOfFuel
     /\ forall results, o = Ret results -> Z.of_nat (length results) <= 50.
Proof.
  assert (H0 : 0 <= 50) by discriminate.
  assert (H5 : 5 <> 0) by discriminate.
  split; [exact H0|]. split; [exact H5|]. split; [reflexivity|].
  exact (proj1 (search_pages_bounded Sample.endless Sample.iso_seconds
                  "q" "en" None "any" 50 5 empty_world H0 H5)).
Defined.

(** With a bound of three the same service is asked for three pages only:
    the third page fills the list. *)
Example search_stops_when_full :
  Spec.searches
    (calls (snd (Search.search_youtube Sample.endless Sample.iso_seconds
                   "q" "en" None "any" 3 (Some 5) empty_world)))
  = 3%nat
  /\ length (match fst (Search.search_youtube Sample.endless Sample.iso_seconds
                          "q" "en" None "any" 3 (Some 5) empty_world) with
             | Ret results => results
             | _ => []
             end) = 3%nat.
Proof. split; reflexivity. Qed.

(** ** C8: saving the results *)




(** ** C9: formatting a total *)

(** C9 fails as stated.  One hundred hours are formatted with a field of
    three digits by the two formatters that know no days: the text is not
    of the form [HH:MM:SS] with two digits in every field. *)
Lemma hundred_hours_take_three_digits :
  Search.format_timedelta 360000 = "100:00:00"
  /\ Ytdlp.format_total 360000 = "100:00:00"
  /\ forall h m s, Search.format_timedelta 360000 <> Spec.hh_mm_ss h m s.
Proof.
  split; [reflexivity|]. split; [reflexivity|].
  intros h m s H. apply (f_equal String.length) in H. vm_compute in H.
  discriminate.
Qed.

(** C9, amended.  For a total of [t] seconds, [t] not negative, the
    formatters of the search script and of the subprocess script write the
    hours, padded with a zero to at least two digits, then the minutes and
    the seconds with exactly two digits each: below one hundred hours the
    text is [HH:MM:SS] with two digits in every field, and from ten hours on
    the hours field is the number of hours as it is, so it grows beyond two
    digits at one hundred hours.  The formatter of the duration calculator
    writes [HH:MM:SS] with two digits in every field below one day, and the
    number of days, [ days, ] and the [HH:MM:SS] of the rest of the day
    from one day on.  So 0 gives [00:00:00], 3661 gives [01:01:01], and
    90000 gives [1 days, 01:00:00] in the calculator. *)
Theorem format_timedelta_fields (t : Z) :
  0 <= t ->
  Search.format_timedelta t
  = fmt02 (t / 3600) +:+ ":" +:+ two_digits (t mod 3600 / 60) +:+ ":"
    +:+ two_digits (t mod 60)
  /\ Ytdlp.format_total t = Search.format_timedelta t
  /\ (t < 360000 ->
      Search.format_timedelta t
      = Spec.hh_mm_ss (t / 3600) (t mod 3600 / 60) (t mod 60))
  /\ (36000 <= t -> fmt02 (t / 3600) = py_str (t / 3600))
  /\ (t < 86400 ->
      Calc.format_timedelta t
      = Spec.hh_mm_ss (t / 3600) (t mod 3600 / 60) (t mod 60))
  /\ (86400 <= t ->
      Calc.format_timedelta t
      = py_str (t / 86400) +:+ " days, "
        +:+ Spec.hh_mm_ss (t mod 86400 / 3600) (t mod 3600 / 60) (t mod 60))
  /\ Search.format_timedelta 0 = "00:00:00"
  /\ Ytdlp.format_total 0 = "00:00:00"
  /\ Calc.format_timedelta 0 = "00:00:00"
  /\ Search.format_timedelta 3661 = "01:01:01"
  /\ Ytdlp.format_total 3661 = "01:01:01"
  /\ Calc.format_timedelta 3661 = "01:01:01"
  /\ Calc.format_timedelta 90000 = "1 days, 01:00:00".
Proof.
  intros Ht.
  assert (Hs : t mod 3600 mod 60 = t mod 60)
    by (apply Z.mod_mod_divide; exists 60; reflexivity).
  assert (Hd : t mod 86400 mod 3600 = t mod 3600)
    by (apply Z.mod_mod_divide; exists 24; reflexivity).
  pose proof (Z.mod_pos_bound t 60 ltac:(lia)) as Bs.
  pose proof (Z.mod_pos_bound t 3600 ltac:(lia)) as Bm.
  pose proof (Z.mod_pos_bound t 86400 ltac:(lia)) as Bd.
  assert (Hm : 0 <= t mod 3600 / 60 < 100)
    by (split; [apply Z.div_pos; lia | apply Z.div_lt_upper_bound; lia]).
  assert (Hsearch : Search.format_timedelta t
                    = fmt02 (t / 3600) +:+ ":" +:+ two_digits (t mod 3600 / 60)
                      +:+ ":" +:+ two_digits (t mod 60)).
  { unfold Search.format_timedelta, divmod. rewrite Hs.
    rewrite (fmt02_two_digits (t mod 3600 / 60)) by exact Hm.
    rewrite (fmt02_two_digits (t mod 60)) by lia. reflexivity. }
  split; [exact Hsearch|]. split; [|split; [|split; [|split; [|split]]]].
  - unfold Ytdlp.format_total, Search.format_timedelta, divmod. rewrite Hs.
    reflexivity.
  - intros Hlt. rewrite Hsearch. unfold Spec.hh_mm_ss.
    rewrite (fmt02_two_digits (t / 3600)); [reflexivity|].
    split; [apply Z.div_pos; lia | apply Z.div_lt_upper_bound; lia].
  - intros Hge. apply fmt02_wide. apply Z.div_le_lower_bound; lia.
  - intros Hlt. unfold Calc.format_timedelta, divmod.
    rewrite (Z.div_small t 86400), (Z.mod_small t 86400) by lia.
    cbn [Z.ltb Z.compare]. rewrite Hs. unfold Spec.hh_mm_ss.
    rewrite (fmt02_two_digits (t / 3600)), (fmt02_two_digits (t mod 3600 / 60)),
      (fmt02_two_digits (t mod 60)); try lia; [reflexivity|].
    split; [apply Z.div_pos; lia | apply Z.div_lt_upper_bound; lia].
  - intros Hge. unfold Calc.format_timedelta, divmod. rewrite Hd, Hs.
    assert (0 < t / 86400) as Hdays by (apply Z.div_str_pos; lia).
    destruct (Z.ltb_spec 0 (t / 86400)); [|lia]. unfold Spec.hh_mm_ss.
    rewrite (fmt02_two_digits (t mod 86400 / 3600)),
      (fmt02_two_digits (t mod 3600 / 60)), (fmt02_two_digits (t mod 60));
      try lia; [reflexivity|].
    split; [apply Z.div_pos; lia | apply Z.div_lt_upper_bound; lia].
  - repeat split; reflexivity.
Qed.

Lemma format_timedelta_fields_witness :
  0 <= 90000
  /\ Search.format_timedelta 90000
     = fmt02 (90000 / 3600) +:+ ":" +:+ two_digits (90000 mod 3600 / 60) +:+ ":"
       +:+ two_digits (90000 mod 60)
  /\ Search.format_timedelta 90000 = "25:00:00"
  /\ Calc.format_timedelta 90000 = "1 days, 01:00:00".
Proof.
  assert (H : 0 <= 90000) by discriminate.
  split; [exact H|]. split; [|split; reflexivity].
  exact (proj1 (format_timedelta_fields 90000 H)).
Defined.

(** ** C10: empty output *)

(** C10.  When the enumerator succeeds and prints nothing, the output
    splits into one empty line; [json.loads] rejects the empty string, so
    that line gives one warning; the script reports one video found, none
    included, and returns [00:00:00]. *)
Theorem empty_output_counts_one
    (json_loads : string -> option json) (can_open : string -> bool)
    (minutes : Z) (save_file : option string) (w : world Ytdlp.message unit) :
  json_loads "" = None ->
  Ytdlp.video_lines "" = [""]
  /\ Ytdlp.get_playlist_duration_ytdlp json_loads can_open (Ytdlp.Completed "")
       minutes save_file w
     = (Ret (Some "00:00:00"),
        World (calls w)
              (printed w
               ++ [Ytdlp.Fetching]
               ++ (if 0 <? minutes * 60 then [Ytdlp.FilterActive minutes] else [])
               ++ [Ytdlp.Found 1; Ytdlp.WarnUnparsable;
                   Ytdlp.Summary 1 0
                     (if 0 <? minutes * 60 then Some minutes else None)])
              (files w)).
Proof.
  intros Hl. split; [reflexivity|].
  unfold Ytdlp.get_playlist_duration_ytdlp.
  change (Ytdlp.video_lines "") with [""].
  unfold Ytdlp.process_lines, Ytdlp.process_line, Ytdlp.loads.
  cbn [for_each length].
  destruct (0 <? minutes * 60); destruct save_file as [name|];
    unfold bind, try_except, bind; cbn; rewrite Hl; cbn;
    rewrite <- ?app_assoc; reflexivity.
Qed.

Lemma empty_output_counts_one_witness :
  Sample.flat_json_loads "" = None
  /\ Ytdlp.video_lines "" = [""]
  /\ Ytdlp.get_playlist_duration_ytdlp Sample.flat_json_loads Sample.writable
       (Ytdlp.Completed "") 0 (Some "links.txt") empty_world
     = (Ret (Some "00:00:00"),
        World [] [Ytdlp.Fetching; Ytdlp.Found 1; Ytdlp.WarnUnparsable;
                  Ytdlp.Summary 1 0 None] ∅).
Proof.
  split; [reflexivity|].
  exact (empty_output_counts_one Sample.flat_json_loads Sample.writable 0
           (Some "links.txt") empty_world eq_refl).
Defined.

(** * Further properties *)

(** ** Loops and strings in general *)

(** A property of the loop variables that every iteration keeps holds when
    the loop ends. *)
Lemma for_each_invariant {Msg Call A S} (I : S -> Prop)
    (body : A -> S -> @M Msg Call S) (l : list A) :
  (forall x s w s' w', body x s w = (Ret s', w') -> I s -> I s') ->
  forall s w s' w', for_each l body s w = (Ret s', w') -> I s -> I s'.
Proof.
  intros Hbody. induction l as [|x l IH]; intros s w s' w'; cbn [for_each].
  - intros [= <- <-]. auto.
  - unfold bind at 1. destruct (body x s w) as [[s1| |] w1] eqn:E; try discriminate.
    intros H Hs. eapply IH; eauto.
Qed.

Lemma string_append_assoc (a b c : string) : (a +:+ b) +:+ c = a +:+ b +:+ c.
Proof.
  induction a as [|x a IH]; rewrite ?append_nil_l, ?append_cons; congruence.
Qed.

Lemma string_append_nil_r (a : string) : a +:+ "" = a.
Proof. induction a as [|x a IH]; rewrite ?append_nil_l, ?append_cons; congruence. Qed.

Lemma split_lines_not_nil s : split_lines s <> [].
Proof.
  destruct s as [|c s]; cbn; [discriminate|].
  destruct (Ascii.eqb c "010"); [discriminate|].
  destruct (split_lines s); discriminate.
Qed.

Lemma lstrip_blank s : Spec.blank s -> lstrip s = "".
Proof.
  unfold Spec.blank, Spec.all_chars.
  induction s as [|c s IH]; cbn; [reflexivity|].
  intros H. inversion H as [|? ? Hc Hs]; subst. rewrite Hc. auto.
Qed.

(** ** The subprocess script, further *)



Section YtdlpMore.
Variable json_loads : string -> option json.

Lemma process_line_well_formed M line st w :
  Spec.well_formed_line json_loads line ->
  exists st' ws,
    Ytdlp.process_line json_loads M line st w
    = (Ret st', World (calls w) (printed w ++ ws) (files w))
    /\ Forall (fun m => Ytdlp.is_warning m = true) ws
    /\ (length ws + length (omap (Spec.line_duration json_loads) [line])
        = 1)%nat.
Proof.
  unfold Spec.well_formed_line. intros Hwf.
  destruct (Spec.line_duration json_loads line) as [d|] eqn:Hd.
  - exists (if M <=? d
            then match json_loads line with
                 | Some (JObj members) =>
                     Ytdlp.Locals (Ytdlp.total_seconds st + d)
                       (Ytdlp.included_videos_count st + 1)
                       (match assoc "webpage_url" members with
                        | Some u => if truthy u
                                    then Ytdlp.included_video_links st ++ [u]
                                    else Ytdlp.included_video_links st
                        | None => Ytdlp.included_video_links st
                        end)
                 | _ => st
                 end
            else st), [].
    rewrite (process_line_known json_loads M line st w d Hd).
    rewrite app_nil_r. cbn [omap list_omap]. rewrite Hd.
    split; [|split; [constructor | reflexivity]].
    destruct w. cbn.
    destruct (M <=? d); [|reflexivity].
    destruct (json_loads line) as [[| | | | |members]|]; reflexivity.
  - cbn [omap list_omap]. rewrite Hd. unfold Spec.line_duration in Hd.
    destruct (json_loads line) as [[| | | | |members]|] eqn:Hl; try contradiction.
    + destruct (assoc "duration" members) as [[| | | | |]|] eqn:Ha;
        cbn in Hd; try discriminate; try contradiction;
        (eexists st, [_];
         rewrite (process_line_no_duration json_loads M line st w members Hl)
           by (rewrite ?Ha; auto);
         split; [reflexivity | split; [repeat constructor | reflexivity]]).
    + exists st, [Ytdlp.WarnUnparsable].
      rewrite (process_line_malformed json_loads M line st w Hl).
      split; [reflexivity | split; [repeat constructor | reflexivity]].
Qed.

Lemma for_each_well_formed M lines : forall st w,
  Forall (Spec.well_formed_line json_loads) lines ->
  exists st' ws,
    for_each lines (Ytdlp.process_line json_loads M) st w
    = (Ret st', World (calls w) (printed w ++ ws) (files w))
    /\ Forall (fun m => Ytdlp.is_warning m = true) ws
    /\ (length ws + length (omap (Spec.line_duration json_loads) lines)
        = length lines)%nat.
Proof.
  induction lines as [|line rest IH]; intros st w Hwf.
  - exists st, []. cbn. rewrite app_nil_r. destruct w. auto.
  - inversion Hwf as [|? ? Hline Hrest]; subst.
    destruct (process_line_well_formed M line st w Hline) as (st1 & ws1 & E1 & F1 & L1).
    destruct (IH st1 (World (calls w) (printed w ++ ws1) (files w)) Hrest)
      as (st2 & ws2 & E2 & F2 & L2).
    exists st2, (ws1 ++ ws2). cbn [for_each]. unfold bind at 1. rewrite E1, E2.
    cbn [calls printed files]. rewrite <- app_assoc.
    split; [reflexivity|]. split; [apply Forall_app; auto|].
    change (line :: rest) with ([line] ++ rest).
    rewrite omap_app, !length_app. cbn [length] in *. lia.
Qed.


(** X3.  The [try] of the loop handles [JSONDecodeError] and [KeyError]
    only.  A line that is valid JSON but not an object raises
    [AttributeError] at [video_meta.get], and a duration that is neither
    null nor a number raises [TypeError] at the comparison: the exception
    leaves the loop at that line, with nothing printed for it, and the
    lines after it are not processed. *)
Theorem ill_typed_record_aborts M line rest st w :
  (forall v, json_loads line = Some v ->
             (forall members, v <> JObj members) ->
             for_each (line :: rest) (Ytdlp.process_line json_loads M) st w
             = (Raise AttributeError, w))
  /\ (forall members d,
        json_loads line = Some (JObj members) ->
        assoc "duration" members = Some d ->
        d <> JNull ->
        Ytdlp.as_number d = None ->
        for_each (line :: rest) (Ytdlp.process_line json_loads M) st w
        = (Raise TypeError, w)).
Proof.
  split.
  - intros v Hl Hv. cbn [for_each]. unfold bind at 1.
    unfold Ytdlp.process_line, try_except, bind, Ytdlp.loads. rewrite Hl.
    destruct v; try reflexivity. exfalso. eapply Hv. reflexivity.
  - intros members d Hl Ha Hn Hnum. cbn [for_each]. unfold bind at 1.
    unfold Ytdlp.process_line, try_except, bind, Ytdlp.loads. rewrite Hl. cbn.
    rewrite Ha. destruct d; try discriminate; try contradiction; reflexivity.
Qed.

Lemma process_line_links M line st w st1 w1 :
  Ytdlp.process_line json_loads M line st w = (Ret st1, w1) ->
  st1 = st
  \/ exists d,
       Ytdlp.included_videos_count st1 = Ytdlp.included_videos_count st + 1
       /\ Ytdlp.total_seconds st1 = Ytdlp.total_seconds st + d
       /\ (Ytdlp.included_video_links st1 = Ytdlp.included_video_links st
           \/ exists u, truthy u = true
                        /\ Ytdlp.included_video_links st1
                           = Ytdlp.included_video_links st ++ [u]).
Proof.
  destruct (Spec.line_duration json_loads line) as [d|] eqn:Hd.
  - rewrite (process_line_known json_loads M line st w d Hd).
    destruct (M <=? d); [|intros [= <- <-]; auto].
    destruct (json_loads line) as [[| | | | |members]|];
      try (intros [= <- <-]; auto; fail).
    intros [= <- <-]. right. exists d. cbn. split; [reflexivity|]. split; [reflexivity|].
    destruct (assoc "webpage_url" members) as [u|]; [|auto].
    destruct (truthy u) eqn:Hu; [right; eauto | auto].
  - intros H. apply process_line_ret in H. rewrite Hd in H. auto.
Qed.

(** X4.  The loop appends a link only for a video it has just counted as
    included, and only when [webpage_url] is truthy: there are never more
    links than included videos, and no link is null, empty or false. *)
Theorem links_are_of_included_videos M lines w st w' :
  Ytdlp.process_lines json_loads M lines w = (Ret st, w') ->
  Z.of_nat (length (Ytdlp.included_video_links st))
  <= Ytdlp.included_videos_count st
  /\ Forall (fun u => truthy u = true) (Ytdlp.included_video_links st).
Proof.
  unfold Ytdlp.process_lines. intros H.
  apply (for_each_invariant
           (fun s => Z.of_nat (length (Ytdlp.included_video_links s))
                     <= Ytdlp.included_videos_count s
                     /\ Forall (fun u => truthy u = true)
                               (Ytdlp.included_video_links s))
           _ _) in H; [exact H | | cbn; split; [lia | constructor]].
  intros line s w0 s' w0' Hstep [Hlen Hall].
  apply process_line_links in Hstep.
  destruct Hstep as [-> | (d & Hc & _ & [Hl | (u & Hu & Hl)])]; auto;
    rewrite Hl, Hc.
  - split; [lia | exact Hall].
  - rewrite length_app. cbn. split; [lia|]. apply Forall_app. auto.
Qed.

Lemma included_weaken M M' l :
  M <= M' ->
  (length (Spec.included M' l) <= length (Spec.included M l))%nat
  /\ (Forall (fun d => 0 <= d) l ->
      Spec.sum (Spec.included M' l) <= Spec.sum (Spec.included M l)).
Proof.
  intros HM. unfold Spec.included, Spec.sum.
  induction l as [|d l [IH1 IH2]]; cbn; [split; [lia | intros; lia]|].
  destruct (Z.leb_spec M' d); destruct (Z.leb_spec M d); try lia; cbn;
    (split; [lia|]; intros Hall; inversion Hall; subst;
     specialize (IH2 ltac:(assumption)); lia).
Qed.

(** X5.  Raising the minimum duration never includes more videos; when no
    duration is negative it never increases the total either. *)
Theorem higher_minimum_includes_less M M' lines w1 st1 w1' w2 st2 w2' :
  M <= M' ->
  Ytdlp.process_lines json_loads M lines w1 = (Ret st1, w1') ->
  Ytdlp.process_lines json_loads M' lines w2 = (Ret st2, w2') ->
  Ytdlp.included_videos_count st2 <= Ytdlp.included_videos_count st1
  /\ (Forall (fun d => 0 <= d) (omap (Spec.line_duration json_loads) lines) ->
      Ytdlp.total_seconds st2 <= Ytdlp.total_seconds st1).
Proof.
  intros HM H1 H2. apply for_each_process_line in H1, H2.
  cbn in H1, H2. destruct H1 as [T1 C1], H2 as [T2 C2].
  destruct (included_weaken M M' (omap (Spec.line_duration json_loads) lines) HM)
    as [Hl Hs].
  split; [lia|]. intros Hall. specialize (Hs Hall). lia.
Qed.
End YtdlpMore.


Lemma ill_typed_record_aborts_witness :
  let loads := fun line => if String.eqb line "[]" then Some (JArr [])
                           else Sample.flat_json_loads line in
  let bad := Sample.entry (Sample.quoted "long") "u" in
  (loads "[]" = Some (JArr [])
   /\ for_each ["[]"; Sample.entry "600" "u1"] (Ytdlp.process_line loads 0)
        Ytdlp.initial empty_world
      = (Raise AttributeError, empty_world))
  /\ (loads bad = Some (JObj [("duration", JStr "long"); ("webpage_url", JStr "u")])
      /\ for_each [bad; Sample.entry "600" "u1"] (Ytdlp.process_line loads 0)
           Ytdlp.initial empty_world
         = (Raise TypeError, empty_world)).
Proof.
  intros loads bad. split; (split; [reflexivity|]).
  - apply (proj1 (ill_typed_record_aborts loads 0 "[]" [Sample.entry "600" "u1"]
                    Ytdlp.initial empty_world) (JArr []) eq_refl).
    discriminate.
  - apply (proj2 (ill_typed_record_aborts loads 0 bad [Sample.entry "600" "u1"]
                    Ytdlp.initial empty_world)
             [("duration", JStr "long"); ("webpage_url", JStr "u")] (JStr "long"));
      [reflexivity | reflexivity | discriminate | reflexivity].
Defined.

Lemma links_are_of_included_videos_witness :
  let lines := [Sample.entry "600" "u1"; Sample.entry "100" "u2";
                Sample.entry "900" ""] in
  let st := Ytdlp.Locals 1500 2 [JStr "u1"] in
  Ytdlp.process_lines Sample.flat_json_loads 300 lines empty_world
  = (Ret st, empty_world)
  /\ Z.of_nat (length (Ytdlp.included_video_links st))
     <= Ytdlp.included_videos_count st
  /\ Forall (fun u => truthy u = true) (Ytdlp.included_video_links st).
Proof.
  intros lines st.
  assert (H : Ytdlp.process_lines Sample.flat_json_loads 300 lines empty_world
              = (Ret st, empty_world)) by reflexivity.
  split; [exact H|].
  exact (links_are_of_included_videos Sample.flat_json_loads 300 lines
           empty_world st empty_world H).
Defined.

Lemma higher_minimum_includes_less_witness :
  let lines := [Sample.entry "600" "u1"; Sample.entry "100" "u2"] in
  60 <= 300
  /\ Ytdlp.process_lines Sample.flat_json_loads 60 lines empty_world
     = (Ret (Ytdlp.Locals 700 2 [JStr "u1"; JStr "u2"]), empty_world)
  /\ Ytdlp.process_lines Sample.flat_json_loads 300 lines empty_world
     = (Ret (Ytdlp.Locals 600 1 [JStr "u1"]), empty_world)
  /\ Forall (fun d => 0 <= d)
       (omap (Spec.line_duration Sample.flat_json_loads) lines)
  /\ 1 <= 2 /\ 600 <= 700.
Proof.
  intros lines.
  assert (HM : 60 <= 300) by discriminate.
  assert (H1 : Ytdlp.process_lines Sample.flat_json_loads 60 lines empty_world
               = (Ret (Ytdlp.Locals 700 2 [JStr "u1"; JStr "u2"]), empty_world))
    by reflexivity.
  assert (H2 : Ytdlp.process_lines Sample.flat_json_loads 300 lines empty_world
               = (Ret (Ytdlp.Locals 600 1 [JStr "u1"]), empty_world))
    by reflexivity.
  assert (Hpos : Forall (fun d => 0 <= d)
                   (omap (Spec.line_duration Sample.flat_json_loads) lines))
    by (vm_compute; repeat constructor; discriminate).
  split; [exact HM|]. split; [exact H1|]. split; [exact H2|].
  split; [exact Hpos|].
  destruct (higher_minimum_includes_less Sample.flat_json_loads 60 300 lines
              _ _ _ _ _ _ HM H1 H2) as [Hc Ht].
  split; [exact Hc | exact (Ht Hpos)].
Defined.

Section YtdlpSaving.
Variable json_loads : string -> option json.
Variable can_open : string -> bool.

Lemma write_links_strings urls : forall text,
  Ytdlp.write_links (map JStr urls) text = (text +:+ link_lines urls, None).
Proof.
  induction urls as [|u urls IH]; intros text; cbn.
  - rewrite string_append_nil_r. reflexivity.
  - rewrite IH. rewrite !string_append_assoc. reflexivity.
Qed.

(** X6.  With a file name, at least one link, links that are all strings
    and a file that can be opened, the file holds the links in order, each
    followed by a line feed, and the two messages about saving are
    printed. *)
Theorem links_file_one_per_line name urls w :
  name <> "" -> urls <> [] -> can_open name = true ->
  Ytdlp.save_links can_open (Some name) (map JStr urls) w
  = (Ret tt,
     World (calls w)
           (printed w ++ [Ytdlp.Saving (Z.of_nat (length urls)) name; Ytdlp.Saved])
           (<[name := TextFile (link_lines urls)]> (files w))).
Proof.
  intros Hname Hurls Hopen. unfold Ytdlp.save_links.
  destruct urls as [|u urls]; [contradiction|]. cbn [map].
  destruct (String.eqb_spec name ""); [contradiction|].
  unfold bind at 1. cbn [print]. rewrite Hopen.
  change (JStr u :: map JStr urls) with (map JStr (u :: urls)).
  rewrite write_links_strings, length_map.
  unfold bind, write_file, print. cbn [calls printed files].
  rewrite <- app_assoc. reflexivity.
Qed.

(** X7.  Saving the links sends no request and changes no file other
    than the one named.  It ends normally or with the [TypeError] of a
    link that is not a string; a file that cannot be opened is reported
    and leaves all files as they were; without links nothing happens at
    all. *)
Theorem save_links_touches_one_file save_file links w :
  let '(o, w') := Ytdlp.save_links can_open save_file links w in
  calls w' = calls w
  /\ (forall other, save_file <> Some other -> files w' !! other = files w !! other)
  /\ (o = Ret tt \/ o = Raise TypeError)
  /\ (forall name, save_file = Some name -> can_open name = false ->
      o = Ret tt /\ files w' = files w)
  /\ (links = [] -> o = Ret tt /\ w' = w).
Proof.
  unfold Ytdlp.save_links.
  destruct save_file as [name|]; [|destruct w; cbn; repeat split; auto].
  destruct links as [|l links]; [destruct w; cbn; repeat split; auto|].
  destruct (String.eqb name ""); [destruct w; cbn; repeat split; auto; discriminate|].
  unfold bind at 1. cbn [print].
  destruct (can_open name) eqn:Hopen.
  - destruct (Ytdlp.write_links (l :: links) "") as [text [e|]] eqn:Hw.
    + assert (e = TypeError) as ->.
      { clear -Hw. revert Hw. generalize "". generalize (l :: links).
        intros ls. induction ls as [|x ls IH]; intros t; cbn; [discriminate|].
        destruct x; try (intros [= _ <-]; reflexivity). apply IH. }
      cbn. split; [reflexivity|].
      split; [intros other Hne; apply lookup_insert_ne; congruence|].
      split; [auto|]. split; [intros n [= <-] Hf; congruence | discriminate].
    + cbn. split; [reflexivity|].
      split; [intros other Hne; apply lookup_insert_ne; congruence|].
      split; [auto|]. split; [intros n [= <-] Hf; congruence | discriminate].
  - cbn. split; [reflexivity|]. split; [reflexivity|]. split; [auto|].
    split; [auto | discriminate].
Qed.

(** X8.  The function returns [None] exactly when the tool could not be
    run or ended with an error, and then no file is written. *)
Theorem returns_none_iff_tool_failed run minutes save_file w :
  let '(o, w') := Ytdlp.get_playlist_duration_ytdlp json_loads can_open run
                    minutes save_file w in
  (o = Ret None <-> forall stdout, run <> Ytdlp.Completed stdout)
  /\ (o = Ret None -> files w' = files w /\ calls w' = calls w).
Proof.
  unfold Ytdlp.get_playlist_duration_ytdlp.
  destruct run as [|stderr|stdout].
  - destruct (0 <? minutes * 60); cbn; (split; [split; [discriminate | reflexivity] | auto]).
  - destruct (0 <? minutes * 60); cbn; (split; [split; [discriminate | reflexivity] | auto]).
  - assert (Hno : forall o : outcome (option string),
               o <> Ret None ->
               (o = Ret None <-> forall stdout0, Ytdlp.Completed stdout <> Ytdlp.Completed stdout0)).
    { intros o Ho. split; [contradiction|]. intros H. exfalso. eapply H. reflexivity. }
    unfold bind at 1. cbn [print]. unfold bind at 1.
    match goal with
    | |- context [match ?m ?w0 with _ => _ end] =>
        assert (Hpre : exists w1, m w0 = (Ret tt, w1))
          by (destruct (0 <? minutes * 60); eexists; reflexivity);
        destruct Hpre as [w1 ->]
    end.
    unfold bind at 1. cbn [print]. unfold bind at 1.
    destruct (Ytdlp.process_lines _ _ _ _) as [[st| |] w2].
    + unfold bind at 1. cbn [print]. unfold bind at 1.
      destruct (Ytdlp.save_links _ _ _ _) as [[[]| |] w3]; cbn;
        (split; [apply Hno; discriminate | discriminate]).
    + split; [apply Hno; discriminate | discriminate].
    + split; [apply Hno; discriminate | discriminate].
Qed.
End YtdlpSaving.

Lemma links_file_one_per_line_witness :
  "out.txt" <> "" /\ ["u1"; "u2"] <> [] /\ Sample.writable "out.txt" = true
  /\ files (snd (Ytdlp.save_links Sample.writable (Some "out.txt")
                   (map JStr ["u1"; "u2"]) empty_world)) !! "out.txt"
     = Some (TextFile ("u1" +:+ nl +:+ "u2" +:+ nl)).
Proof.
  assert (H1 : "out.txt" <> "") by discriminate.
  assert (H2 : ["u1"; "u2"] <> []) by discriminate.
  split; [exact H1|]. split; [exact H2|]. split; [reflexivity|].
  rewrite (links_file_one_per_line Sample.writable "out.txt" ["u1"; "u2"]
             empty_world H1 H2 eq_refl).
  reflexivity.
Defined.

Lemma save_links_touches_one_file_witness :
  let refuse := fun _ : string => false in
  let '(o, w') := Ytdlp.save_links refuse (Some "out.txt") [JStr "u1"]
                    empty_world in
  refuse "out.txt" = false /\ o = Ret tt
  /\ files w' = files (@empty_world Ytdlp.message unit).
Proof.
  pose proof (save_links_touches_one_file (fun _ : string => false)
                (Some "out.txt") [JStr "u1"] empty_world) as H.
  cbv zeta.
  destruct (Ytdlp.save_links (fun _ : string => false) (Some "out.txt")
              [JStr "u1"] empty_world) as [o w'].
  destruct H as (_ & _ & _ & H & _).
  split; [reflexivity | exact (H "out.txt" eq_refl eq_refl)].
Defined.

Lemma returns_none_iff_tool_failed_witness :
  let '(o, w') := Ytdlp.get_playlist_duration_ytdlp Sample.flat_json_loads
                    Sample.writable (Ytdlp.Failed "private") 0 (Some "out.txt")
                    empty_world in
  (forall stdout, Ytdlp.Failed "private" <> Ytdlp.Completed stdout)
  /\ o = Ret None
  /\ files w' = files (@empty_world Ytdlp.message unit).
Proof.
  pose proof (returns_none_iff_tool_failed Sample.flat_json_loads
                Sample.writable (Ytdlp.Failed "private") 0 (Some "out.txt")
                empty_world) as H.
  destruct (Ytdlp.get_playlist_duration_ytdlp Sample.flat_json_loads
              Sample.writable (Ytdlp.Failed "private") 0 (Some "out.txt")
              empty_world) as [o w'].
  destruct H as [[_ Hnone] Hfiles].
  assert (Hrun : forall stdout, Ytdlp.Failed "private" <> Ytdlp.Completed stdout)
    by discriminate.
  split; [exact Hrun|]. split; [exact (Hnone Hrun)|].
  exact (proj1 (Hfiles (Hnone Hrun))).
Defined.

(** ** The duration calculator, further *)

Lemma chunks_bounds (video_ids : list string) :
  Forall (fun chunk => (1 <= length chunk <= 50)%nat) (Calc.chunks video_ids).
Proof.
  unfold Calc.chunks, range_step. apply List.Forall_forall. intros chunk Hin.
  apply List.in_map_iff in Hin. destruct Hin as (i & <- & Hin).
  apply List.in_map_iff in Hin. destruct Hin as (k & <- & Hin).
  apply List.in_seq in Hin. rewrite length_take, length_drop.
  pose proof (Nat.div_mod_eq (length video_ids + 50 - 1) 50).
  pose proof (Nat.mod_upper_bound (length video_ids + 50 - 1) 50). lia.
Qed.

Lemma chunks_count (video_ids : list string) :
  length (Calc.chunks video_ids) = ((length video_ids + 49) / 50)%nat.
Proof.
  unfold Calc.chunks, range_step. rewrite !length_map, length_seq.
  f_equal. lia.
Qed.

Section CalcMore.
Variable yt : Calc.youtube.
Variable parse_duration : string -> option Z.

Lemma for_each_chunk_step_calls M sl chunks : forall t w t' w',
  for_each chunks (Calc.chunk_step yt parse_duration M sl) t w = (Ret t', w') ->
  calls w' = calls w ++ map Calc.VideosList chunks.
Proof.
  induction chunks as [|chunk rest IH]; intros t w t' w'; cbn [for_each].
  - intros [= <- <-]. cbn. rewrite app_nil_r. reflexivity.
  - unfold bind at 1.
    destruct (Calc.chunk_step yt parse_duration M sl chunk t w)
      as [[t1| |] w1] eqn:E; try discriminate.
    intros H. apply IH in H. apply chunk_step_ret in E. destruct E as [E _].
    rewrite H, E, <- app_assoc. reflexivity.
Qed.

(** X9.  The identifiers are cut into consecutive batches that together
    are the whole list, each of 1 to 50 identifiers, ceil(n/50) of them;
    a call that returns has sent exactly one [videos.list] request per
    batch, in order, whether or not requests failed. *)
Theorem durations_fetched_in_batches_of_fifty video_ids minutes sl w :
  concat (Calc.chunks video_ids) = video_ids
  /\ Forall (fun chunk => (1 <= length chunk <= 50)%nat) (Calc.chunks video_ids)
  /\ length (Calc.chunks video_ids) = ((length video_ids + 49) / 50)%nat
  /\ forall r w',
       Calc.get_videos_duration yt parse_duration video_ids minutes sl w
       = (Ret r, w') ->
       calls w' = calls w ++ map Calc.VideosList (Calc.chunks video_ids).
Proof.
  split; [apply concat_chunks|]. split; [apply chunks_bounds|].
  split; [apply chunks_count|].
  intros r w' H. eapply for_each_chunk_step_calls. exact H.
Qed.

Lemma item_step_links M sl item t w t1 w1 :
  Calc.item_step parse_duration M sl item t w = (Ret t1, w1) ->
  Spec.links_match sl (Calc.included_links t) (Calc.included_count t) ->
  Spec.links_match sl (Calc.included_links t1) (Calc.included_count t1).
Proof.
  unfold Calc.item_step, bind.
  destruct (Calc.item_duration item) as [iso|]; cbn; try discriminate.
  destruct (parse_duration iso) as [d|]; cbn; try discriminate.
  destruct (M <=? d); intros [= <- <-]; [|auto].
  intros [Ht Hf]. split; cbn.
  - intros ->. destruct (Ht eq_refl) as [Hl Hall]. rewrite length_app. cbn.
    split; [lia|]. apply Forall_app. split; [exact Hall|].
    constructor; [eauto | constructor].
  - intros ->. auto.
Qed.

Lemma chunk_step_links M sl chunk t w t1 w1 :
  Calc.chunk_step yt parse_duration M sl chunk t w = (Ret t1, w1) ->
  Spec.links_match sl (Calc.included_links t) (Calc.included_count t) ->
  Spec.links_match sl (Calc.included_links t1) (Calc.included_count t1).
Proof.
  unfold Calc.chunk_step, try_except, bind, Calc.execute.
  destruct (Calc.videos_list yt (length (calls w)) chunk) as [items|s c].
  - destruct (for_each items _ t _) as [[t2|e|] w2] eqn:E; try discriminate.
    + intros [= <- <-] Ht.
      apply (for_each_invariant
               (fun t => Spec.links_match sl (Calc.included_links t)
                           (Calc.included_count t)) _ _) in E; auto.
      intros; eapply item_step_links; eauto.
    + apply for_each_item_step_raise in E. destruct E as [-> | ->]; discriminate.
  - cbn. intros [= <- <-]. auto.
Qed.

Lemma get_videos_duration_links video_ids minutes sl w r w' :
  Calc.get_videos_duration yt parse_duration video_ids minutes sl w = (Ret r, w') ->
  Spec.links_match sl (Calc.included_links r) (Calc.included_count r).
Proof.
  unfold Calc.get_videos_duration. intros H.
  apply (for_each_invariant
           (fun t => Spec.links_match sl (Calc.included_links t)
                       (Calc.included_count t)) _ _) in H; [exact H | |].
  - intros; eapply chunk_step_links; eauto.
  - split; cbn; [intros _; split; [reflexivity | constructor] | reflexivity].
Qed.
End CalcMore.

Lemma durations_fetched_in_batches_of_fifty_witness :
  let ids := ["a"; "b"; "c"] in
  let r := Calc.Tally 1800 [] 3 in
  let w' := World [Calc.VideosList ids] [] ∅ in
  Calc.get_videos_duration Sample.three_pages Sample.iso_seconds ids 5 false
    empty_world = (Ret r, w')
  /\ calls w' = calls (@empty_world Calc.message Calc.call)
                ++ map Calc.VideosList (Calc.chunks ids).
Proof.
  intros ids r w'.
  assert (H : Calc.get_videos_duration Sample.three_pages Sample.iso_seconds
                ids 5 false empty_world = (Ret r, w')) by reflexivity.
  split; [exact H|].
  destruct (durations_fetched_in_batches_of_fifty Sample.three_pages
              Sample.iso_seconds ids 5 false empty_world) as (_ & _ & _ & Hc).
  exact (Hc r w' H).
Defined.

Section CalcListing.
Variable yt : Calc.youtube.
Variable parse_duration : string -> option Z.

Lemma process_source_links fuel M sl n numbered t w t' w' :
  Calc.process_source yt parse_duration fuel M sl n numbered t w = (Ret t', w') ->
  Spec.links_match sl (Calc.all_included_links t) (Calc.total_videos_included t) ->
  Spec.links_match sl (Calc.all_included_links t') (Calc.total_videos_included t').
Proof.
  unfold Calc.process_source. destruct numbered as [i url].
  unfold bind at 1. cbn [print].
  destruct (Calc.parse_url url) as [[url_type entity_id]|].
  2: { cbn. intros [= <- <-]. auto. }
  unfold bind at 1.
  match goal with
  | |- context [match ?resolve ?w0 with _ => _ end] =>
      destruct (resolve w0) as [[[ids|]|e|] w1]; try discriminate
  end.
  - destruct ids as [|v ids].
    + cbn. intros [= <- <-]. auto.
    + unfold bind at 1. cbn [print]. unfold bind at 1.
      destruct (Calc.get_videos_duration _ _ _ _ _ _) as [[r|e|] w2] eqn:E;
        try discriminate.
      apply get_videos_duration_links in E.
      cbn. intros [= <- <-] [Ht Hf]. destruct E as [Et Ef]. split; cbn.
      * intros ->. destruct (Ht eq_refl) as [H1 H2], (Et eq_refl) as [H3 H4].
        rewrite length_app. split; [lia | apply Forall_app; auto].
      * intros ->. auto.
  - cbn. intros [= <- <-]. auto.
Qed.

Lemma process_sources_links fuel urls minutes sl w t w' :
  Calc.process_sources yt parse_duration fuel urls minutes sl w = (Ret t, w') ->
  Spec.links_match sl (Calc.all_included_links t) (Calc.total_videos_included t).
Proof.
  unfold Calc.process_sources. unfold bind at 1.
  destruct (for_each _ _ _ _) as [[t1| |] w1] eqn:E; try discriminate.
  cbn. intros [= <- <-].
  apply (for_each_invariant
           (fun t => Spec.links_match sl (Calc.all_included_links t)
                       (Calc.total_videos_included t)) _ _) in E; [exact E | |].
  - intros; eapply process_source_links; eauto.
  - split; cbn; [intros _; split; [reflexivity | constructor] | reflexivity].
Qed.

(** X10.  With [save_links] the links returned are watch addresses, one
    for every included video; without it no link is collected.  This holds
    for one source and for the aggregators of [main]. *)
Theorem saved_links_match_included_count :
  (forall video_ids minutes sl w r w',
      Calc.get_videos_duration yt parse_duration video_ids minutes sl w
      = (Ret r, w') ->
      Spec.links_match sl (Calc.included_links r) (Calc.included_count r))
  /\ (forall fuel urls minutes sl w t w',
      Calc.process_sources yt parse_duration fuel urls minutes sl w = (Ret t, w') ->
      Spec.links_match sl (Calc.all_included_links t)
        (Calc.total_videos_included t)).
Proof.
  split.
  - intros. eapply get_videos_duration_links; eauto.
  - intros. eapply process_sources_links; eauto.
Qed.

Lemma playlist_page_step_ok playlist_id token video_ids w page :
  Calc.playlistItems_list yt (length (calls w)) playlist_id token
  = Calc.HttpOk page ->
  Calc.playlist_page_step yt playlist_id token video_ids w
  = (Ret (match Search.set_str (Calc.nextPageToken page) with
          | Some next => Calc.NextPage next (video_ids ++ Calc.page_items page)
          | None => Calc.Break (video_ids ++ Calc.page_items page)
          end),
     after_call w (Calc.PlaylistItemsList playlist_id token)).
Proof.
  intros H. unfold Calc.playlist_page_step, try_except, bind, Calc.execute.
  rewrite H. unfold Search.set_str.
  destruct (Calc.nextPageToken page) as [t|]; [|reflexivity].
  destruct (String.eqb t ""); reflexivity.
Qed.

(** X11.  When the service answers every page of a playlist, and each
    page but the last names the next one, the listing returns the videos
    of the pages in order, after whatever was collected before, with one
    request per page and nothing printed. *)
Theorem playlist_pages_are_concatenated playlist_id pages : forall fuel token video_ids w,
  Spec.page_chain yt playlist_id (length (calls w)) token pages ->
  (length pages <= fuel)%nat ->
  exists requests,
    Calc.playlist_pages yt fuel playlist_id token video_ids w
    = (Ret (video_ids ++ concat (map Calc.page_items pages)),
       World (calls w ++ requests) (printed w) (files w))
    /\ length requests = length pages.
Proof.
  induction pages as [|page rest IH]; intros fuel token video_ids w Hchain Hfuel;
    [contradiction|].
  destruct fuel as [|fuel]; [cbn in Hfuel; lia|].
  destruct Hchain as [Hpage Hrest]. cbn [Calc.playlist_pages].
  unfold bind at 1. rewrite (playlist_page_step_ok _ _ _ _ _ Hpage).
  destruct rest as [|page' rest'].
  - rewrite Hrest. exists [Calc.PlaylistItemsList playlist_id token].
    cbn. rewrite app_nil_r. auto.
  - destruct Hrest as (next & Hnext & Hchain'). rewrite Hnext.
    destruct (IH fuel (Some next) (video_ids ++ Calc.page_items page)
                (after_call w (Calc.PlaylistItemsList playlist_id token)))
      as (requests & E & L).
    + cbn [calls after_call]. rewrite length_app. cbn.
      replace (length (calls w) + 1)%nat with (S (length (calls w))) by lia.
      exact Hchain'.
    + cbn in Hfuel |- *. lia.
    + exists (Calc.PlaylistItemsList playlist_id token :: requests).
      rewrite E. cbn [calls printed files after_call map concat].
      rewrite <- !app_assoc. split; [reflexivity | cbn [length] in *; lia].
Qed.


(** X13.  Whatever the service answers, with items of the documented
    shape, looking up the uploads playlist returns: it sends one to three
    requests, exactly one [channels.list] request when the argument does
    not start with [@], and prints at most the one message of a failed
    request, in which case it returns [None]. *)
Theorem uploads_lookup_raises_nothing channel_id_or_handle w :
  exists r requests msgs,
    Calc.get_uploads_playlist_id yt channel_id_or_handle w
    = (Ret r, World (calls w ++ requests) (printed w ++ msgs) (files w))
    /\ (1 <= length requests <= 3)%nat
    /\ (startswith "@" channel_id_or_handle = false ->
        requests
        = [Calc.ChannelsList
             (if startswith "UC" channel_id_or_handle
              then Some channel_id_or_handle else None)
             (if startswith "UC" channel_id_or_handle
              then None else Some channel_id_or_handle)])
    /\ (msgs = []
        \/ (r = None /\ exists status content,
              msgs = [Calc.HttpErrorOccurred status content])).
Proof.
  unfold Calc.get_uploads_playlist_id, try_except, bind, Calc.execute.
  destruct (startswith "@" channel_id_or_handle) eqn:Hh;
    destruct (startswith "UC" channel_id_or_handle) eqn:Hu; cbn [negb andb];
    match goal with
    | |- context [Calc.channels_list yt ?n ?a ?b] =>
        destruct (Calc.channels_list yt n a b) as [[|u us]|s c]
    end; cbn;
    try (eexists _, [_], []; rewrite app_nil_r;
         split; [reflexivity | split; [cbn; lia | split; [auto; discriminate | auto]]]; fail);
    try (eexists None, [_], [_];
         split; [reflexivity | split; [cbn; lia | split; [auto; discriminate | right; eauto]]]; fail).
  all: match goal with
       | |- context [Calc.search_list yt ?n ?q] =>
           destruct (Calc.search_list yt n q) as [[|ch chs]|s c]
       end; cbn;
    try (eexists _, [_; _], []; rewrite app_nil_r, <- app_assoc;
         split; [reflexivity | split; [cbn; lia | split; [discriminate | auto]]]; fail);
    try (eexists None, [_; _], [_]; rewrite <- app_assoc;
         split; [reflexivity | split; [cbn; lia | split; [discriminate | right; eauto]]]; fail).
  all: match goal with
       | |- context [Calc.channels_list yt ?n ?a ?b] =>
           destruct (Calc.channels_list yt n a b) as [[|u us]|s c]
       end; cbn;
    try (eexists _, [_; _; _], []; rewrite app_nil_r, <- !app_assoc;
         split; [reflexivity | split; [cbn; lia | split; [discriminate | auto]]]; fail);
    try (eexists None, [_; _; _], [_]; rewrite <- !app_assoc;
         split; [reflexivity | split; [cbn; lia | split; [discriminate | right; eauto]]]; fail).
Qed.

End CalcListing.

Lemma saved_links_match_included_count_witness :
  let ids := ["a"; "b"] in
  let r := Calc.Tally 1200 ["https://www.youtube.com/watch?v=a";
                            "https://www.youtube.com/watch?v=b"] 2 in
  let w' := World [Calc.VideosList ids] [] ∅ in
  Calc.get_videos_duration Sample.three_pages Sample.iso_seconds ids 5 true
    empty_world = (Ret r, w')
  /\ Spec.links_match true (Calc.included_links r) (Calc.included_count r).
Proof.
  intros ids r w'.
  assert (H : Calc.get_videos_duration Sample.three_pages Sample.iso_seconds
                ids 5 true empty_world = (Ret r, w')) by reflexivity.
  split; [exact H|].
  exact (proj1 (saved_links_match_included_count Sample.three_pages
                  Sample.iso_seconds) ids 5 true empty_world r w' H).
Defined.

Lemma playlist_pages_are_concatenated_witness :
  let pages := [Calc.PlaylistPage ["a"; "b"] (Some "t1");
                Calc.PlaylistPage ["c"] (Some "t2");
                Calc.PlaylistPage ["d"; "e"] None] in
  Spec.page_chain Sample.three_pages "PL1" 0 None pages
  /\ (length pages <= 5)%nat
  /\ fst (Calc.get_playlist_video_ids Sample.three_pages 5 "PL1" empty_world)
     = Ret ["a"; "b"; "c"; "d"; "e"].
Proof.
  intros pages.
  assert (Hc : Spec.page_chain Sample.three_pages "PL1"
                 (length (calls (@empty_world Calc.message Calc.call))) None pages).
  { split; [reflexivity|]. exists "t1". split; [reflexivity|].
    split; [reflexivity|]. exists "t2". split; [reflexivity|].
    split; reflexivity. }
  assert (Hl : (length pages <= 5)%nat) by (cbn; lia).
  split; [exact Hc|]. split; [exact Hl|].
  destruct (playlist_pages_are_concatenated Sample.three_pages "PL1" pages 5
              None [] empty_world Hc Hl) as (requests & E & _).
  unfold Calc.get_playlist_video_ids. rewrite E. reflexivity.
Defined.

Lemma uploads_lookup_raises_nothing_witness :
  startswith "@" "UCabc" = false
  /\ calls (snd (Calc.get_uploads_playlist_id Sample.three_pages "UCabc"
                   empty_world))
     = [Calc.ChannelsList (Some "UCabc") None].
Proof.
  split; [reflexivity|].
  destruct (uploads_lookup_raises_nothing Sample.three_pages "UCabc" empty_world)
    as (r & requests & msgs & E & _ & Hreq & _).
  rewrite E, (Hreq eq_refl). reflexivity.
Defined.

(** ** The identifiers [parse_url] extracts *)

Lemma one_or_more_spec p s g :
  Calc.one_or_more p s = Some g -> g <> "" /\ Spec.all_chars p g.
Proof.
  unfold Calc.one_or_more.
  destruct (span_spec p s) as (after & _ & Hall & _).
  destruct (Calc.span p s) as [|c g0]; [discriminate|].
  intros [= <-]. split; [discriminate | exact Hall].
Qed.

Lemma exactly_spec p n : forall s g,
  Calc.exactly p n s = Some g -> String.length g = n /\ Spec.all_chars p g.
Proof.
  unfold Spec.all_chars.
  induction n as [|n IH]; intros s g; cbn.
  - intros [= <-]. split; [reflexivity | constructor].
  - destruct s as [|c s]; [discriminate|].
    destruct (p c) eqn:Hc; [|discriminate].
    destruct (Calc.exactly p n s) as [g0|] eqn:E; [|discriminate].
    cbn. intros [= <-]. destruct (IH _ _ E) as [Hl Hall].
    cbn. split; [congruence | constructor; auto].
Qed.

Lemma first_match_in {A} (alts : list (option A)) a :
  Calc.first_match alts = Some a -> In (Some a) alts.
Proof.
  induction alts as [|[x|] alts IH]; cbn; [discriminate | | auto].
  intros [= <-]. auto.
Qed.

Lemma video_at_spec s g :
  Calc.video_at s = Some g ->
  String.length g = 11%nat /\ Spec.all_chars Calc.id_char g.
Proof.
  unfold Calc.video_at. intros H. apply first_match_in in H.
  apply List.in_map_iff in H. destruct H as (lit & H & _).
  destruct (Calc.strip_prefix lit s) as [rest|]; cbn [mbind option_bind] in H; [|discriminate].
  eapply exactly_spec. exact H.
Qed.

Lemma channel_at_spec s g :
  Calc.channel_at s = Some g -> g <> "" /\ Spec.all_chars Calc.chan_char g.
Proof.
  unfold Calc.channel_at.
  destruct (Calc.strip_prefix "/" s) as [rest|]; [|discriminate].
  intros H. apply first_match_in in H.
  apply List.in_map_iff in H. destruct H as (lit & H & _).
  destruct (Calc.strip_prefix lit rest) as [r1|]; cbn [mbind option_bind] in H; [|discriminate].
  destruct (Calc.strip_prefix "/" r1) as [r2|]; cbn [mbind option_bind] in H; [|discriminate].
  eapply one_or_more_spec. exact H.
Qed.

Lemma parse_url_cases url k g :
  Calc.parse_url url = Some (k, g) ->
  exists before rest,
    url = before +:+ rest
    /\ match k with
       | Calc.playlist => Calc.playlist_at rest = Some g
       | Calc.video => Calc.video_at rest = Some g
       | Calc.channel => Calc.channel_at rest = Some g
       end.
Proof.
  unfold Calc.parse_url.
  destruct (Calc.re_search Calc.playlist_at url) as [g1|] eqn:E1.
  { intros [= <- <-]. apply re_search_leftmost in E1.
    destruct E1 as (b & r & ? & ? & _). eauto. }
  destruct (Calc.re_search Calc.video_at url) as [g2|] eqn:E2.
  { intros [= <- <-]. apply re_search_leftmost in E2.
    destruct E2 as (b & r & ? & ? & _). eauto. }
  destruct (Calc.re_search Calc.channel_at url) as [g3|] eqn:E3; [|discriminate].
  intros [= <- <-]. apply re_search_leftmost in E3.
  destruct E3 as (b & r & ? & ? & _). eauto.
Qed.

Lemma all_chars_not_handle p g :
  g <> "" -> Spec.all_chars p g -> p "@"%char = false ->
  startswith "@" g = false.
Proof.
  intros Hne Hall Hp. destruct g as [|c g]; [contradiction|].
  inversion Hall as [|? ? Hc _]; subst. cbn [startswith].
  destruct (Ascii.eqb_spec "@" c) as [<-|]; [congruence | reflexivity].
Qed.

(** X14.  The identifier [parse_url] returns is never empty and is made
    of the characters of its pattern: letters, digits, [_] and [-] for a
    playlist; exactly eleven of these for a video; these and [.] for a
    channel. *)
Theorem identifiers_are_well_formed url k g :
  Calc.parse_url url = Some (k, g) ->
  match k with
  | Calc.playlist => g <> "" /\ Spec.all_chars Calc.id_char g
  | Calc.video => String.length g = 11%nat /\ Spec.all_chars Calc.id_char g
  | Calc.channel => g <> "" /\ Spec.all_chars Calc.chan_char g
  end.
Proof.
  intros H. apply parse_url_cases in H. destruct H as (before & rest & _ & H).
  destruct k.
  - apply playlist_at_spec in H. destruct H as (after & _ & Hne & Hall & _). auto.
  - apply video_at_spec in H. exact H.
  - apply channel_at_spec in H. exact H.
Qed.

Lemma identifiers_are_well_formed_witness :
  Calc.parse_url "https://youtu.be/dQw4w9WgXcQ?t=42"
  = Some (Calc.video, "dQw4w9WgXcQ")
  /\ String.length "dQw4w9WgXcQ" = 11%nat
  /\ Spec.all_chars Calc.id_char "dQw4w9WgXcQ".
Proof.
  split; [reflexivity|].
  exact (identifiers_are_well_formed "https://youtu.be/dQw4w9WgXcQ?t=42"
           Calc.video "dQw4w9WgXcQ" eq_refl).
Defined.

(** X15.  The channel pattern allows no [@] in the identifier, so for a
    channel found by [parse_url] the branch of [get_uploads_playlist_id]
    that searches for a handle is never taken: exactly one [channels.list]
    request is sent, by id for an identifier that starts with [UC] and by
    user name otherwise. *)
Theorem handle_search_is_never_reached url g (yt : Calc.youtube)
    (w : world Calc.message Calc.call) :
  Calc.parse_url url = Some (Calc.channel, g) ->
  startswith "@" g = false
  /\ exists r msgs,
       Calc.get_uploads_playlist_id yt g w
       = (Ret r,
          World (calls w
                 ++ [Calc.ChannelsList
                       (if startswith "UC" g then Some g else None)
                       (if startswith "UC" g then None else Some g)])
                (printed w ++ msgs) (files w)).
Proof.
  intros H. apply parse_url_cases in H. destruct H as (before & rest & _ & H).
  apply channel_at_spec in H. destruct H as [Hne Hall].
  assert (Hh : startswith "@" g = false)
    by (eapply all_chars_not_handle; eauto).
  split; [exact Hh|].
  unfold Calc.get_uploads_playlist_id, try_except, bind, Calc.execute.
  rewrite Hh. destruct (startswith "UC" g); cbn [negb andb];
    match goal with
    | |- context [Calc.channels_list yt ?n ?a ?b] =>
        destruct (Calc.channels_list yt n a b) as [[|u us]|s c]
    end; cbn;
    first [ eexists _, []; rewrite app_nil_r; reflexivity
          | eexists _, [_]; reflexivity ].
Qed.

Lemma handle_search_is_never_reached_witness :
  Calc.parse_url "https://www.youtube.com/channel/UCabc"
  = Some (Calc.channel, "UCabc")
  /\ startswith "@" "UCabc" = false
  /\ calls (snd (Calc.get_uploads_playlist_id Sample.three_pages "UCabc"
                   empty_world))
     = [Calc.ChannelsList (Some "UCabc") None].
Proof.
  split; [reflexivity|].
  destruct (handle_search_is_never_reached
              "https://www.youtube.com/channel/UCabc" "UCabc"
              Sample.three_pages empty_world eq_refl)
    as (Hh & r & msgs & E).
  split; [exact Hh|]. rewrite E. reflexivity.
Defined.

(** ** Formatted totals can be told apart *)

Lemma digit_inj a b :
  0 <= a < 10 -> 0 <= b < 10 -> digit a = digit b -> a = b.
Proof.
  unfold digit. intros Ha Hb H. apply (f_equal nat_of_ascii) in H.
  rewrite !nat_ascii_embedding in H by lia. lia.
Qed.

Lemma two_digits_inj a b :
  0 <= a < 100 -> 0 <= b < 100 -> two_digits a = two_digits b -> a = b.
Proof.
  unfold two_digits. intros Ha Hb [= H1 H2].
  apply digit_inj in H1; [|split; [apply Z.div_pos | apply Z.div_lt_upper_bound]; lia ..].
  apply digit_inj in H2; [|apply Z.mod_pos_bound; lia ..].
  rewrite (Z.div_mod a 10), (Z.div_mod b 10) by lia. lia.
Qed.

Lemma hh_mm_ss_inj h m s h' m' s' :
  0 <= h < 100 -> 0 <= m < 100 -> 0 <= s < 100 ->
  0 <= h' < 100 -> 0 <= m' < 100 -> 0 <= s' < 100 ->
  Spec.hh_mm_ss h m s = Spec.hh_mm_ss h' m' s' ->
  h = h' /\ m = m' /\ s = s'.
Proof.
  intros Hh Hm Hs Hh' Hm' Hs' H.
  assert (Hparts : two_digits h = two_digits h' /\ two_digits m = two_digits m'
                   /\ two_digits s = two_digits s').
  { revert H. unfold Spec.hh_mm_ss, two_digits.
    rewrite !append_cons, !append_nil_l. intros [= -> -> -> -> -> ->]. auto. }
  destruct Hparts as (H1 & H2 & H3).
  repeat split; apply two_digits_inj; assumption.
Qed.

Lemma hms_fields t :
  0 <= t < 360000 ->
  0 <= t / 3600 < 100 /\ 0 <= t mod 3600 / 60 < 100 /\ 0 <= t mod 60 < 100
  /\ t = 3600 * (t / 3600) + 60 * (t mod 3600 / 60) + t mod 60.
Proof.
  intros Ht.
  pose proof (Z.mod_pos_bound t 3600 ltac:(lia)).
  pose proof (Z.mod_pos_bound t 60 ltac:(lia)).
  pose proof (Z.mod_pos_bound (t mod 3600) 60 ltac:(lia)).
  assert (t mod 3600 mod 60 = t mod 60)
    by (apply Z.mod_mod_divide; exists 60; reflexivity).
  pose proof (Z.div_mod t 3600 ltac:(lia)).
  pose proof (Z.div_mod (t mod 3600) 60 ltac:(lia)).
  repeat split; try lia;
    first [apply Z.div_pos; lia | apply Z.div_lt_upper_bound; lia].
Qed.

Lemma search_format_small t :
  0 <= t < 360000 ->
  Search.format_timedelta t
  = Spec.hh_mm_ss (t / 3600) (t mod 3600 / 60) (t mod 60).
Proof.
  intros Ht. destruct (hms_fields t Ht) as (Hh & Hm & Hs & _).
  unfold Search.format_timedelta, divmod, Spec.hh_mm_ss.
  replace (t mod 3600 mod 60) with (t mod 60)
    by (symmetry; apply Z.mod_mod_divide; exists 60; reflexivity).
  rewrite !fmt02_two_digits by assumption. reflexivity.
Qed.

(** X16.  Below one hundred hours the formatters of the search and of the
    subprocess script give different texts for different numbers of
    seconds, and so does the formatter of the calculator below one day. *)
Theorem formatted_totals_differ t t' :
  0 <= t < 360000 -> 0 <= t' < 360000 ->
  (Search.format_timedelta t = Search.format_timedelta t' -> t = t')
  /\ (Ytdlp.format_total t = Ytdlp.format_total t' -> t = t')
  /\ (t < 86400 -> t' < 86400 ->
      Calc.format_timedelta t = Calc.format_timedelta t' -> t = t').
Proof.
  intros Ht Ht'.
  assert (Hinj : Search.format_timedelta t = Search.format_timedelta t' -> t = t').
  { rewrite !search_format_small by assumption. intros H.
    destruct (hms_fields t Ht) as (Hh & Hm & Hs & E).
    destruct (hms_fields t' Ht') as (Hh' & Hm' & Hs' & E').
    apply hh_mm_ss_inj in H; try assumption. destruct H as (H1 & H2 & H3).
    rewrite E, E', H1, H2, H3. reflexivity. }
  split; [exact Hinj|]. split.
  - intros H. apply Hinj. revert H.
    unfold Ytdlp.format_total, Search.format_timedelta, divmod.
    rewrite !(Z.mod_mod_divide _ 3600 60) by (exists 60; reflexivity). auto.
  - intros Hd Hd' H. apply Hinj. revert H.
    unfold Calc.format_timedelta, Search.format_timedelta, divmod.
    rewrite (Z.div_small t 86400), (Z.mod_small t 86400) by lia.
    rewrite (Z.div_small t' 86400), (Z.mod_small t' 86400) by lia.
    cbn [Z.ltb Z.compare]. auto.
Qed.

Lemma formatted_totals_differ_witness :
  0 <= 3661 < 360000 /\ 0 <= 3660 < 360000
  /\ (Search.format_timedelta 3661 = Search.format_timedelta 3660 -> 3661 = 3660)
  /\ Search.format_timedelta 3661 <> Search.format_timedelta 3660.
Proof.
  assert (H1 : 0 <= 3661 < 360000) by (split; [discriminate | reflexivity]).
  assert (H2 : 0 <= 3660 < 360000) by (split; [discriminate | reflexivity]).
  split; [exact H1|]. split; [exact H2|].
  split; [exact (proj1 (formatted_totals_differ 3661 3660 H1 H2))|].
  intros H. apply (proj1 (formatted_totals_differ 3661 3660 H1 H2)) in H.
  discriminate.
Defined.

(** ** The search script, further *)

Section SearchMore.
Variable yt : Search.youtube.
Variable parse_duration : string -> option Z.

Lemma scan_items_passes items details M max_results : forall final_results w,
  Forall (Spec.passes M) final_results ->
  match fst (Search.scan_items parse_duration items details M max_results
               final_results w) with
  | Ret (Search.Scanned final_results') => Forall (Spec.passes M) final_results'
  | Ret (Search.ReturnedEarly value) => Forall (Spec.passes M) value
  | _ => True
  end.
Proof.
  induction items as [|item rest IH]; intros fr w Hfr; cbn [Search.scan_items].
  - exact Hfr.
  - destruct (details !! Search.si_videoId item) as [d|]; [|apply IH, Hfr].
    unfold bind, Search.parse.
    destruct (parse_duration (default "PT0S" (Search.vi_duration d))) as [td|];
      cbn; [|exact I].
    destruct (Z.leb_spec M td) as [Hle|]; [|apply IH, Hfr].
    cbv zeta. set (fr1 := fr ++ [_]).
    assert (Hfr1 : Forall (Spec.passes M) fr1).
    { apply Forall_app. split; [exact Hfr|]. constructor; [|constructor].
      split; [reflexivity|]. exists td. auto. }
    destruct (max_results <=? Z.of_nat (length fr1)).
    + cbn. unfold py_slice_to. destruct (0 <=? max_results); apply Forall_take, Hfr1.
    + apply IH, Hfr1.
Qed.

Lemma search_page_passes query language country M max_results token fr w :
  Forall (Spec.passes M) fr ->
  let '(o, w') := Search.search_page yt parse_duration query language country M
                    max_results token fr w in
  files w' = files w
  /\ match o with
     | Ret (Search.NextPage _ fr') | Ret (Search.Break fr') =>
         Forall (Spec.passes M) fr'
     | Ret (Search.Return value) => Forall (Spec.passes M) value
     | _ => True
     end.
Proof.
  intros Hfr. unfold Search.search_page. unfold bind at 1.
  rewrite execute_or_break_spec.
  destruct (Search.search_list yt _ _) as [response|status content]; [|cbn; auto].
  destruct (map Search.si_videoId (Search.sr_items response)) as [|i ids];
    [cbn; auto|].
  unfold bind at 1. rewrite execute_or_break_spec.
  destruct (Search.videos_list yt _ _) as [details|status content]; [|cbn; auto].
  unfold bind.
  match goal with
  | |- context [Search.scan_items ?p ?its ?dt ?m ?mx ?f ?w0] =>
      pose proof (scan_items_spec p its dt m mx f w0) as Hs;
      pose proof (scan_items_passes its dt m mx f w0 Hfr) as Hp;
      destruct (Search.scan_items p its dt m mx f w0) as [[[fr'|v]|e|] w']
  end; destruct Hs as [-> _]; cbn in Hp |- *; auto.
  destruct (Search.set_str (Search.sr_nextPageToken response)); cbn; auto.
Qed.

Lemma search_pages_passes query language country M max_results n :
  forall token fr w,
  Forall (Spec.passes M) fr ->
  let '(o, w') := Search.search_pages yt parse_duration n query language country M
                    max_results token fr w in
  files w' = files w
  /\ match o with
     | Ret results => Forall (Spec.passes M) results
     | _ => True
     end.
Proof.
  assert (Hslice : forall l : list Search.result,
             Forall (Spec.passes M) l ->
             Forall (Spec.passes M) (py_slice_to max_results l)).
  { intros l Hl. unfold py_slice_to.
    destruct (0 <=? max_results); apply Forall_take, Hl. }
  induction n as [|n IH]; intros token fr w Hfr; cbn [Search.search_pages].
  - cbn. auto.
  - unfold bind.
    pose proof (search_page_passes query language country M max_results token fr w Hfr)
      as Hp.
    destruct (Search.search_page _ _ _ _ _ _ _ _ _ _) as [[[t fr'|fr'|v]|e|] w1];
      destruct Hp as [Hf Hp]; cbn; auto.
    specialize (IH (Some t) fr' w1 Hp).
    destruct (Search.search_pages _ _ _ _ _ _ _ _ _ _ _) as [o w'].
    destruct IH as [Hf' IH]. split; [congruence | exact IH].
Qed.

(** X17.  With a custom minimum of [minutes], every result returned has
    the watch address of its video and a duration that is the formatted
    time of at least [minutes] minutes; no file is written. *)
Theorem custom_filter_results_pass query language country duration max_results
    minutes w results w' :
  minutes <> 0 ->
  Search.search_youtube yt parse_duration query language country duration
    max_results (Some minutes) w = (Ret results, w') ->
  Forall (Spec.passes (minutes * 60)) results /\ files w' = files w.
Proof.
  intros Hmin. unfold Search.search_youtube. unfold bind at 1. cbn [print].
  unfold Search.set_int. destruct (Z.eqb_spec minutes 0) as [|_]; [contradiction|].
  unfold bind at 1. cbn [print].
  match goal with
  | |- context [Search.search_pages _ _ _ _ _ _ _ _ _ _ ?w0] =>
      pose proof (search_pages_passes query language country (minutes * 60)
                    max_results 5 None [] w0 (List.Forall_nil _)) as Hs;
      destruct (Search.search_pages yt parse_duration 5 query language country
                  (minutes * 60) max_results None [] w0) as [o w1]
  end.
  destruct Hs as [Hf Hs]. intros [= -> ->]. split; [exact Hs | exact Hf].
Qed.

(** The dictionary of formatted durations of the built-in search. *)
Lemma video_durations_formatted items : forall m w m' w',
  for_each items
    (fun item (m : gmap string string) =>
       d <- Search.parse parse_duration (default "PT0S" (Search.vi_duration item)) ;;
       ret (<[Search.vi_id item := Search.format_timedelta d]> m)) m w
  = (Ret m', w') ->
  (forall k v, m !! k = Some v -> exists d, v = Search.format_timedelta d) ->
  w' = w /\ forall k v, m' !! k = Some v -> exists d, v = Search.format_timedelta d.
Proof.
  induction items as [|item rest IH]; intros m w m' w'; cbn [for_each].
  - intros [= <- <-]. auto.
  - unfold bind at 1. unfold bind at 1, Search.parse.
    destruct (parse_duration (default "PT0S" (Search.vi_duration item))) as [d|];
      cbn; [|discriminate].
    intros H Hm. eapply IH; [exact H|].
    intros k v. destruct (decide (Search.vi_id item = k)) as [->|Hne].
    + rewrite lookup_insert_eq. intros [= <-]. eauto.
    + rewrite lookup_insert_ne by assumption. apply Hm.
Qed.

Lemma video_durations_raise items : forall m w e w',
  for_each items
    (fun item (m : gmap string string) =>
       d <- Search.parse parse_duration (default "PT0S" (Search.vi_duration item)) ;;
       ret (<[Search.vi_id item := Search.format_timedelta d]> m)) m w
  = (Raise e, w') -> e = ISO8601Error /\ w' = w.
Proof.
  induction items as [|item rest IH]; intros m w e w'; cbn [for_each].
  - discriminate.
  - unfold bind at 1. unfold bind at 1, Search.parse.
    destruct (parse_duration (default "PT0S" (Search.vi_duration item))) as [d|];
      cbn; [apply IH|]. intros [= <- <-]. auto.
Qed.

Lemma video_durations_fuel items : forall m w w',
  for_each items
    (fun item (m : gmap string string) =>
       d <- Search.parse parse_duration (default "PT0S" (Search.vi_duration item)) ;;
       ret (<[Search.vi_id item := Search.format_timedelta d]> m)) m w
  <> (OutOfFuel, w').
Proof.
  induction items as [|item rest IH]; intros m w w'; cbn [for_each].
  - discriminate.
  - unfold bind at 1. unfold bind at 1, Search.parse.
    destruct (parse_duration (default "PT0S" (Search.vi_duration item))) as [d|];
      cbn; [apply IH | discriminate].
Qed.

(** The case analysis of the built-in search: the two requests, then the
    dictionary of durations. *)
Ltac builtin_cases :=
  unfold Search.search_builtin; unfold bind at 1;
  rewrite execute_or_break_spec;
  match goal with
  | |- context [Search.search_list yt ?n ?p] =>
      destruct (Search.search_list yt n p) as [[[|item items] next]|status content]
        eqn:Hsearch
  end; cbn [Search.sr_items];
  [ | unfold bind at 1; rewrite execute_or_break_spec;
      match goal with
      | |- context [Search.videos_list yt ?n ?ids] =>
          destruct (Search.videos_list yt n ids) as [details|status content]
      end;
      [ unfold bind at 1;
        match goal with
        | |- context [for_each ?ds ?body ?m ?w0] =>
            pose proof (video_durations_formatted ds m w0) as Hok;
            pose proof (video_durations_raise ds m w0) as Hraise;
            pose proof (video_durations_fuel ds m w0) as Hfuel;
            destruct (for_each ds body m w0) as [[durations|e|] w1]
        end | ] | ].

Lemma search_youtube_files query language country duration max_results
    min_duration_minutes w :
  files (snd (Search.search_youtube yt parse_duration query language country
                duration max_results min_duration_minutes w)) = files w.
Proof.
  unfold Search.search_youtube. unfold bind at 1. cbn [print].
  destruct (Search.set_int min_duration_minutes) as [minutes|].
  - unfold bind at 1. cbn [print].
    match goal with
    | |- context [Search.search_pages _ _ _ _ _ _ _ _ _ _ ?w0] =>
        pose proof (search_pages_passes query language country (minutes * 60)
                      max_results 5 None [] w0 (List.Forall_nil _)) as Hp;
        destruct (Search.search_pages yt parse_duration 5 query language country
                    (minutes * 60) max_results None [] w0) as [o w1]
    end.
    destruct Hp as [Hf _]. exact Hf.
  - builtin_cases; try reflexivity.
    + destruct (Hok _ _ eq_refl) as [-> _];
        [intros k v; rewrite lookup_empty; discriminate | reflexivity].
    + destruct (Hraise _ _ eq_refl) as [-> ->]. reflexivity.
    + exfalso. eapply Hfuel. reflexivity.
Qed.


(** X19.  With a built-in duration filter the results are either none or
    one per item of the search response, in the order of the response,
    with its identifier, title and channel: the list is not cut to
    [max_results] again.  Every result has the watch address of its video,
    and its duration is [[N/A]] or a formatted time. *)
Theorem builtin_results_follow_the_items query language country duration
    max_results w results w' :
  Search.search_builtin yt parse_duration query language country duration
    max_results w = (Ret results, w') ->
  Forall (fun r => Search.url r = Search.watch_url (Search.videoId r)
                   /\ (Search.duration r = "[N/A]"
                       \/ exists d, Search.duration r = Search.format_timedelta d))
         results
  /\ match Search.search_list yt (length (calls w))
             (Search.SearchParams query language max_results None (Some duration)
                (Search.set_str country)) with
     | Search.HttpFail _ _ => results = []
     | Search.HttpOk response =>
         results = []
         \/ (map Search.videoId results
             = map Search.si_videoId (Search.sr_items response)
             /\ map Search.title results
                = map Search.si_title (Search.sr_items response)
             /\ map Search.channel results
                = map Search.si_channelTitle (Search.sr_items response))
     end.
Proof.
  builtin_cases; rewrite ?Hsearch; cbn [Search.sr_items].
  - intros [= <- <-]. split; [constructor | auto].
  - destruct (Hok _ _ eq_refl) as [-> Hd]; [intros k v; rewrite lookup_empty; discriminate|].
    cbn [ret]. intros [= <- <-]. split.
    + match goal with
      | |- Forall ?P (_ :: map ?f ?l) => change (Forall P (map f (item :: l)))
      end.
      apply List.Forall_forall. intros r Hin. apply List.in_map_iff in Hin.
      destruct Hin as (it & <- & _). cbn. split; [reflexivity|].
      destruct (durations !! Search.si_videoId it) as [v|] eqn:E; cbn; [|auto].
      right. eapply Hd. exact E.
    + right. cbn [map Search.videoId Search.title Search.channel].
      rewrite !List.map_map. cbn [Search.videoId Search.title Search.channel].
      auto.
  - discriminate.
  - discriminate.
  - intros [= <- <-]. split; [constructor | auto].
  - intros [= <- <-]. split; [constructor | auto].
Qed.
End SearchMore.

Lemma custom_filter_results_pass_witness :
  let results := [Search.Result "Long" "Ch" "00:20:00"
                    "https://www.youtube.com/watch?v=v2" "v2"] in
  5 <> 0
  /\ fst (Search.search_youtube Sample.one_page Sample.iso_seconds "q" "en" None
            "any" 10 (Some 5) empty_world) = Ret results
  /\ Forall (Spec.passes (5 * 60)) results.
Proof.
  intros results.
  assert (H5 : 5 <> 0) by discriminate.
  split; [exact H5|]. split; [reflexivity|].
  exact (proj1 (custom_filter_results_pass Sample.one_page Sample.iso_seconds
                  "q" "en" None "any" 10 5 empty_world results _ H5 eq_refl)).
Defined.


Lemma builtin_results_follow_the_items_witness :
  let results := [Search.Result "Short" "Ch" "[N/A]"
                    "https://www.youtube.com/watch?v=v1" "v1";
                  Search.Result "Long" "Ch" "00:20:00"
                    "https://www.youtube.com/watch?v=v2" "v2"] in
  fst (Search.search_builtin Sample.one_page Sample.iso_seconds "q" "en" None
         "any" 1 empty_world) = Ret results
  /\ Forall (fun r => Search.url r = Search.watch_url (Search.videoId r)
                      /\ (Search.duration r = "[N/A]"
                          \/ exists d, Search.duration r = Search.format_timedelta d))
       results.
Proof.
  intros results. split; [reflexivity|].
  exact (proj1 (builtin_results_follow_the_items Sample.one_page
                  Sample.iso_seconds "q" "en" None "any" 1 empty_world results
                  _ eq_refl)).
Defined.



(** ** The entry points *)

(** *** Code that writes no file *)

Section WorldFacts.
Context {Msg Call : Type}.

Lemma bind_files {A B} (m : @M Msg Call A) (k : A -> @M Msg Call B) w :
  files (snd (m w)) = files w ->
  (forall a w1, files (snd (k a w1)) = files w1) ->
  files (snd (bind m k w)) = files w.
Proof.
  unfold bind. destruct (m w) as [[a|e|] w1]; cbn; intros H Hk;
    [rewrite Hk|..]; auto.
Qed.

Lemma try_except_files {A} (m : @M Msg Call A) handles w :
  files (snd (m w)) = files w ->
  (forall e h w1, handles e = Some h -> files (snd (h w1)) = files w1) ->
  files (snd (try_except m handles w)) = files w.
Proof.
  unfold try_except. destruct (m w) as [[a|e|] w1]; cbn; intros H Hh; auto.
  destruct (handles e) as [h|] eqn:E; cbn; auto.
  rewrite (Hh _ _ _ E). exact H.
Qed.

Lemma for_each_files {A S} (body : A -> S -> @M Msg Call S) l :
  (forall x s w, files (snd (body x s w)) = files w) ->
  forall s w, files (snd (for_each l body s w)) = files w.
Proof.
  intros Hbody. induction l as [|x l IH]; intros s w; cbn [for_each].
  - reflexivity.
  - apply bind_files; auto.
Qed.
End WorldFacts.

Section CalcFiles.
Variable yt : Calc.youtube.
Variable parse_duration : string -> option Z.

Lemma calc_execute_files {A} c (answer : nat -> Calc.http_result A) w :
  files (snd (Calc.execute c answer w)) = files w.
Proof. unfold Calc.execute. destruct (answer _); reflexivity. Qed.

Ltac files_step :=
  first
    [ reflexivity
    | apply calc_execute_files
    | apply bind_files; [|intros ? ?]
    | apply try_except_files;
      [|let e := fresh "e" in intros e ? ?; destruct e; intros [= <-]]
    | apply for_each_files; intros ? ? ? ].

Ltac files_case :=
  match goal with
  | |- context [match ?x with _ => _ end] => destruct x
  | |- context [if ?x then _ else _] => destruct x
  end.

Ltac files_auto := repeat (files_step || files_case).

Lemma get_uploads_playlist_id_files g w :
  files (snd (Calc.get_uploads_playlist_id yt g w)) = files w.
Proof. unfold Calc.get_uploads_playlist_id. files_auto. Qed.

Lemma playlist_pages_files fuel playlist_id token video_ids w :
  files (snd (Calc.playlist_pages yt fuel playlist_id token video_ids w))
  = files w.
Proof.
  revert token video_ids w.
  induction fuel as [|fuel IH]; intros token video_ids w;
    cbn [Calc.playlist_pages]; [reflexivity|].
  apply bind_files.
  - unfold Calc.playlist_page_step. files_auto.
  - intros [t v|v|r] w1; [apply IH | reflexivity | reflexivity].
Qed.

Lemma get_videos_duration_files video_ids minutes sl w :
  files (snd (Calc.get_videos_duration yt parse_duration video_ids minutes sl w))
  = files w.
Proof.
  unfold Calc.get_videos_duration. apply for_each_files. intros chunk t w0.
  unfold Calc.chunk_step. files_step; [|reflexivity].
  files_step; [files_step|]. apply for_each_files. intros item t0 w2.
  unfold Calc.item_step. files_auto.
Qed.

Lemma process_source_files fuel minutes sl n numbered t w :
  files (snd (Calc.process_source yt parse_duration fuel minutes sl n
                numbered t w)) = files w.
Proof.
  unfold Calc.process_source. destruct numbered as [i url].
  apply bind_files; [reflexivity|]. intros _ w1.
  destruct (Calc.parse_url url) as [[[| |] entity_id]|].
  - apply bind_files.
    + apply bind_files; [apply playlist_pages_files | reflexivity].
    + intros [[|v ids]|] w2; [reflexivity| |reflexivity].
      apply bind_files; [reflexivity|]. intros _ w3.
      apply bind_files; [apply get_videos_duration_files|]. intros r w4.
      reflexivity.
  - apply bind_files; [reflexivity|].
    intros [[|v ids]|] w2; [reflexivity| |reflexivity].
    apply bind_files; [reflexivity|]. intros _ w3.
    apply bind_files; [apply get_videos_duration_files|]. intros r w4.
    reflexivity.
  - apply bind_files.
    + apply bind_files; [apply get_uploads_playlist_id_files|].
      intros [p|] w2; [|reflexivity].
      destruct (String.eqb p ""); [reflexivity|].
      apply bind_files; [apply playlist_pages_files | reflexivity].
    + intros [[|v ids]|] w2; [reflexivity| |reflexivity].
      apply bind_files; [reflexivity|]. intros _ w3.
      apply bind_files; [apply get_videos_duration_files|]. intros r w4.
      reflexivity.
  - reflexivity.
Qed.

Lemma process_sources_files fuel urls minutes sl w :
  files (snd (Calc.process_sources yt parse_duration fuel urls minutes sl w))
  = files w.
Proof.
  unfold Calc.process_sources. apply bind_files.
  - apply for_each_files. intros. apply process_source_files.
  - intros t w1. reflexivity.
Qed.

(** The report is the last thing [process_sources] prints. *)
Lemma process_sources_report fuel urls minutes sl w t w' :
  Calc.process_sources yt parse_duration fuel urls minutes sl w = (Ret t, w') ->
  exists ms,
    printed w'
    = ms ++ [Calc.ReportFound (Calc.total_videos_found t);
             Calc.ReportIncluded (if 0 <? minutes then Some minutes else None)
               (Calc.total_videos_included t);
             Calc.ReportDuration
               (Calc.format_timedelta (Calc.grand_total_duration t))].
Proof.
  unfold Calc.process_sources. unfold bind at 1.
  destruct (for_each _ _ _ _) as [[t1| |] w1]; try discriminate.
  cbn. intros [= <- <-]. exists (printed w1). cbn.
  rewrite <- !app_assoc. reflexivity.
Qed.
End CalcFiles.

Section CalcEntry.
Variable getenv : option string.
Variable build : string -> option Calc.youtube.
Variable read_file : string -> option string.
Variable can_open : string -> bool.
Variable timestamp : string.
Variable parse_duration : string -> option Z.

Lemma urls_to_process_world src w :
  calls (snd (CalcMain.urls_to_process read_file src w)) = calls w
  /\ files (snd (CalcMain.urls_to_process read_file src w)) = files w
  /\ exists ms,
       printed (snd (CalcMain.urls_to_process read_file src w)) = printed w ++ ms.
Proof.
  unfold CalcMain.urls_to_process.
  destruct (read_file src) as [text|];
    [|split; [|split]; [reflexivity..|exists []; symmetry; apply app_nil_r]].
  destruct (endswith (lower src) ".txt");
    [|split; [|split]; [reflexivity..|exists []; symmetry; apply app_nil_r]].
  destruct (CalcMain.stripped_lines text); (split; [|split]; [reflexivity..|]);
    cbn; rewrite <- ?app_assoc; eauto.
Qed.

End CalcEntry.


(** The calculator run on a playlist of five videos of ten minutes with
    [--save-links]: the file lists the five of them. *)
Example calculator_saves_five_links :
  files (snd (CalcMain.main (Some "key") (fun _ => Some Sample.three_pages)
                (fun _ => None) Sample.writable "20240101_120000"
                Sample.iso_seconds 5
                (CalcMain.Args "https://www.youtube.com/playlist?list=PL1" 5 true)
                empty_world))
  !! "youtube_links_20240101_120000.txt"
  = Some (TextFile
            (link_lines ["https://www.youtube.com/watch?v=a";
                         "https://www.youtube.com/watch?v=b";
                         "https://www.youtube.com/watch?v=c";
                         "https://www.youtube.com/watch?v=d";
                         "https://www.youtube.com/watch?v=e"])).
Proof. vm_compute. reflexivity. Qed.

Lemma lstrip_idempotent s : lstrip (lstrip s) = lstrip s.
Proof.
  induction s as [|c s IH]; cbn; [reflexivity|].
  destruct (is_space c) eqn:E; [exact IH | cbn; rewrite E; reflexivity].
Qed.

Lemma string_rev_append a b :
  string_rev (a +:+ b) = string_rev b +:+ string_rev a.
Proof.
  induction a as [|c a IH]; rewrite ?append_nil_l, ?append_cons; cbn.
  - symmetry. apply string_append_nil_r.
  - rewrite IH. apply string_append_assoc.
Qed.

Lemma string_rev_involutive s : string_rev (string_rev s) = s.
Proof.
  induction s as [|c s IH]; cbn; [reflexivity|].
  rewrite string_rev_append, IH. reflexivity.
Qed.

(** What is left of a string that ends in a character that is not white
    space ends in this character. *)
Lemma lstrip_keeps_last x c :
  is_space c = false ->
  exists z, lstrip (x +:+ String c "") = z +:+ String c "".
Proof.
  intros Hc. induction x as [|a x IH]; rewrite ?append_nil_l, ?append_cons.
  - exists "". cbn. rewrite Hc. reflexivity.
  - cbn. destruct (is_space a); [exact IH|].
    exists (String a x). rewrite append_cons. reflexivity.
Qed.

Lemma lstrip_head s :
  lstrip s = "" \/ exists c t, lstrip s = String c t /\ is_space c = false.
Proof.
  induction s as [|c s IH]; cbn; [auto|].
  destruct (is_space c) eqn:E; [exact IH | eauto].
Qed.

Lemma rstrip_idempotent s : rstrip (rstrip s) = rstrip s.
Proof.
  unfold rstrip. rewrite string_rev_involutive, lstrip_idempotent. reflexivity.
Qed.

Lemma lstrip_of_strip s : lstrip (strip s) = strip s.
Proof.
  unfold strip, rstrip.
  destruct (lstrip_head s) as [-> | (c & t & -> & Hc)]; [reflexivity|].
  cbn [string_rev].
  destruct (lstrip_keeps_last (string_rev t) c Hc) as [z ->].
  rewrite string_rev_append. cbn [string_rev].
  rewrite append_nil_l, append_cons, append_nil_l.
  cbn [lstrip]. rewrite Hc. reflexivity.
Qed.

Lemma strip_idempotent s : strip (strip s) = strip s.
Proof.
  unfold strip at 1. rewrite lstrip_of_strip.
  unfold strip. apply rstrip_idempotent.
Qed.

Lemma strip_blank s : Spec.blank s -> strip s = "".
Proof. intros H. unfold strip. rewrite (lstrip_blank _ H). reflexivity. Qed.

Lemma stripped_lines_blank text :
  Forall Spec.blank (split_lines text) -> CalcMain.stripped_lines text = [].
Proof.
  unfold CalcMain.stripped_lines.
  induction (split_lines text) as [|line lines IH]; intros H; [reflexivity|].
  inversion H as [|? ? Hl Hr]; subst. cbn [map List.filter].
  rewrite (strip_blank _ Hl). cbn. auto.
Qed.

Lemma stripped_lines_stripped text :
  Forall (fun url => url <> "" /\ strip url = url) (CalcMain.stripped_lines text).
Proof.
  unfold CalcMain.stripped_lines.
  induction (split_lines text) as [|line lines IH]; cbn [map List.filter];
    [constructor|].
  destruct (String.eqb_spec (strip line) ""); cbn [negb]; [exact IH|].
  constructor; [|exact IH]. split; [assumption | apply strip_idempotent].
Qed.

Section CalcEntryFile.
Variable getenv : option string.
Variable build : string -> option Calc.youtube.
Variable read_file : string -> option string.
Variable can_open : string -> bool.
Variable timestamp : string.
Variable parse_duration : string -> option Z.

End CalcEntryFile.


(** X23.  Without an API key, with an empty one, or when the service
    object cannot be built, [main] of either script reports the error and
    returns: no request is sent and no file is written. *)
Theorem missing_key_stops_before_any_request (getenv : option string) :
  (forall build parse_duration args w,
      Search.set_str getenv = None
      \/ (exists key, Search.set_str getenv = Some key /\ build key = None) ->
      exists m,
        SearchMain.main getenv build parse_duration args w
        = (Ret tt, World (calls w) (printed w ++ [m]) (files w)))
  /\ (forall build read_file can_open timestamp parse_duration fuel args w,
      Search.set_str getenv = None
      \/ (exists key, Search.set_str getenv = Some key /\ build key = None) ->
      exists m ms,
        CalcMain.main getenv build read_file can_open timestamp parse_duration
          fuel args w
        = (Ret tt, World (calls w) (printed w ++ m :: ms) (files w))).
Proof.
  split.
  - intros build parse_duration args w [H | (key & H & Hb)];
      unfold SearchMain.main, SearchMain.get_youtube_service; rewrite H.
    + exists SearchMain.KeyNotSet. reflexivity.
    + rewrite Hb. exists SearchMain.BuildFailed. reflexivity.
  - intros build read_file can_open timestamp parse_duration fuel args w
      [H | (key & H & Hb)];
      unfold CalcMain.main, CalcMain.get_youtube_service; rewrite H.
    + exists CalcMain.KeyNotSet, [CalcMain.KeyHint]. cbn.
      rewrite <- app_assoc. reflexivity.
    + rewrite Hb. exists CalcMain.BuildFailed, []. reflexivity.
Qed.

Lemma missing_key_stops_before_any_request_witness :
  Search.set_str (Some "") = None
  /\ exists m,
       SearchMain.main (Some "") (fun _ => Some Sample.one_page)
         Sample.iso_seconds
         (SearchMain.Args "q" "en" None "any" None 10 (Some "out.json"))
         empty_world
       = (Ret tt, World [] ([] ++ [m]) ∅).
Proof.
  split; [reflexivity|].
  exact (proj1 (missing_key_stops_before_any_request (Some ""))
           (fun _ => Some Sample.one_page) Sample.iso_seconds
           (SearchMain.Args "q" "en" None "any" None 10 (Some "out.json"))
           empty_world (or_introl eq_refl)).
Defined.

Section SearchEntry.
Variable getenv : option string.
Variable build : string -> option Search.youtube.
Variable parse_duration : string -> option Z.

Lemma print_results_to_console_world results w :
  exists ms,
    SearchMain.print_results_to_console results w
    = (Ret tt, World (calls w) (printed w ++ SearchMain.ResultsHeader :: ms)
                 (files w))
    /\ length ms = (2 * length results)%nat.
Proof.
  unfold SearchMain.print_results_to_console. unfold bind at 1. cbn [print].
  assert (Hloop : forall (w0 : world SearchMain.message Search.call),
             exists ms,
               for_each results
                 (fun item (_ : unit) =>
                    print (SearchMain.ResultLine (Search.duration item)
                             (Search.title item) (Search.channel item)) ;;;
                    print (SearchMain.ResultUrl (Search.url item)))
                 tt w0
               = (Ret tt, World (calls w0) (printed w0 ++ ms) (files w0))
               /\ length ms = (2 * length results)%nat).
  { induction results as [|r results IH]; intros w0; cbn [for_each].
    - exists []. rewrite app_nil_r. destruct w0. split; reflexivity.
    - unfold bind at 1. unfold bind at 1. cbn [print].
      match goal with
      | |- context [for_each _ _ _ ?w1] => destruct (IH w1) as (ms & -> & Hlen)
      end.
      exists (SearchMain.ResultLine (Search.duration r) (Search.title r)
                (Search.channel r)
              :: SearchMain.ResultUrl (Search.url r) :: ms).
      cbn [calls printed files length]. rewrite <- !app_assoc.
      split; [reflexivity | lia]. }
  match goal with
  | |- context [for_each _ _ _ ?w1] => destruct (Hloop w1) as (ms & -> & Hlen)
  end.
  exists ms. cbn [calls printed files]. rewrite <- app_assoc.
  split; [reflexivity | exact Hlen].
Qed.

End SearchEntry.

(** The search script run with [-o OUT.TXT]: the one result that passes
    the filter is written as a block of text. *)
Example search_saves_a_text_file :
  files (snd (SearchMain.main (Some "key") (fun _ => Some Sample.one_page)
                Sample.iso_seconds
                (SearchMain.Args "q" "en" None "any" (Some 5) 10 (Some "OUT.TXT"))
                empty_world))
  !! "OUT.TXT"
  = Some (TextFile
            (Search.text_blocks
               [Search.Result "Long" "Ch" "00:20:00"
                  "https://www.youtube.com/watch?v=v2" "v2"])).
Proof. vm_compute. reflexivity. Qed.
